(** * SoloX device management: a shallow embedding and its properties

    The development follows two source files of the repository:

    - [solox/device_management/device_pool.py]: the device registry
      ([DevicePool]), its connection monitor and [wait_for_device];
    - [solox/device_management/advanced_features.py]: batch operations, health
      monitoring, automatic recovery, performance profiling and profiles.

    Conventions of the embedding.

    - Python [float]s (metric values, time stamps) are rationals ([Q]); only
      their order and the constants of the source are used.  Python [int]s
      are [Z].  Status values stay the strings the source uses.
    - A [dict] is a [gmap]; a dict that is iterated for its effects
      (profile settings, the threshold table) is the list of its items.
    - A call that can raise returns an [Outcome]; functions that mutate
      [self] or call the device backend live in the monad [M] over the
      state [Sys], which also records the backend calls that were made.
    - Logging is not modelled. *)

From Stdlib Require Import QArith ZArith Lia Lqa.
From stdpp Require Import gmap strings list fin_maps.

Local Open Scope Z_scope.

(** ** Python values shared by both modules *)

(** [x < y] on floats, as a boolean. *)
Definition Qltb (x y : Q) : bool := negb (Qle_bool y x).

(** The exception classes the two modules raise or catch.  [DeviceError] and
    [OperationError] come from [solox/device_management/exceptions.py], which
    is not among the sources; they are taken to derive from [Exception], as
    every [except Exception] handler that is meant to catch them assumes.
    [BackendError] stands for any other [Exception] a device backend raises. *)
Inductive exn_class : Type :=
| DeviceError
| OperationError
| ValueError
| KeyError
| AttributeError
| NameError
| BackendError.

(** An exception object: its class and [str(e)]. *)
Record exn : Type := Exn { exn_cls : exn_class; exn_str : string }.

(** What a call produces: a value or an exception.  A loop is run with
    bounded fuel and produces an [option]: [None] when the fuel does not
    suffice. *)
Inductive Outcome (A : Type) : Type :=
| Ok (a : A)
| Raise (e : exn).
Arguments Ok {A} a.
Arguments Raise {A} e.

(** [l[-n:]]: the last [n] items of a list, the whole list when it is
    shorter. *)
Definition last_n {A : Type} (n : nat) (l : list A) : list A :=
  drop (length l - n)%nat l.

(** ** device_pool.py *)

Module DevicePool.

Inductive DeviceType : Type := ANDROID | IOS.

Record DeviceInfo : Type := mkDeviceInfo {
  id : string;
  type : DeviceType;
  name : string;
  version : string;
  status : string;
  last_seen : Q;
  reconnect_attempts : Z
}.

(** The dataclass defaults: [status = "disconnected"], [last_seen = 0.0],
    [reconnect_attempts = 0]. *)
Definition DeviceInfo_new (device_id : string) (device_type : DeviceType)
    (name version : string) : DeviceInfo :=
  {| id := device_id; type := device_type; name := name; version := version;
     status := "disconnected"; last_seen := 0.0%Q; reconnect_attempts := 0 |}.

(** The fields of a [DevicePool] the model needs; the lock, the monitor
    thread and the logger are left out. *)
Record t : Type := mkPool {
  devices : gmap string DeviceInfo;
  max_reconnect_attempts : Z;
  reconnect_interval : Z
}.

(** [DevicePool.__init__]. *)
Definition init (max_reconnect_attempts reconnect_interval : Z) : t :=
  {| devices := ∅; max_reconnect_attempts := max_reconnect_attempts;
     reconnect_interval := reconnect_interval |}.

Definition default : t := init 3 5.

Definition set_devices (f : gmap string DeviceInfo -> gmap string DeviceInfo)
    (p : t) : t :=
  {| devices := f (devices p);
     max_reconnect_attempts := max_reconnect_attempts p;
     reconnect_interval := reconnect_interval p |}.

(** [add_device]: the pool after the call and the returned boolean. *)
Definition add_device (device_id : string) (device_type : DeviceType)
    (name version : string) (p : t) : t * bool :=
  match devices p !! device_id with
  | None =>
      (set_devices
         (insert device_id (DeviceInfo_new device_id device_type name version)) p,
       true)
  | Some _ => (p, false)
  end.

(** [remove_device]. *)
Definition remove_device (device_id : string) (p : t) : t * bool :=
  match devices p !! device_id with
  | Some _ => (set_devices (delete device_id) p, true)
  | None => (p, false)
  end.

(** [get_device_info]: [self.devices.get(device_id)]. *)
Definition get_device_info (device_id : string) (p : t) : option DeviceInfo :=
  devices p !! device_id.

(** The registry holds no status but the two the pool itself writes. *)
Definition well_formed (p : t) : Prop :=
  forall (device_id : string) (info : DeviceInfo),
    devices p !! device_id = Some info ->
    status info = "connected" \/ status info = "disconnected".

(** *** The connection monitor *)

(** What one monitor cycle sees of adb and tidevice.  [adb_device_list] is
    [adb.device_list()] (the serials), [usbmux_devices] is
    [tidevice.Usbmux().devices()] (the udids) as the cycle queries it first;
    [adb_connect] is [adb.connect(id)] and [usbmux_devices_again] is the
    listing [_try_reconnect] obtains when it queries tidevice again for the
    device with that id. *)
Record Backend : Type := mkBackend {
  adb_device_list : Outcome (list string);
  usbmux_devices : Outcome (list string);
  adb_connect : string -> Outcome unit;
  usbmux_devices_again : string -> Outcome (list string)
}.

(** [_update_device_status], on the record [self.devices[device_id]]. *)
Definition _update_device_status (status : string) (timestamp : Q)
    (device : DeviceInfo) : DeviceInfo :=
  {| id := id device; type := type device; name := name device;
     version := version device;
     status := status;
     last_seen := timestamp;
     reconnect_attempts :=
       if bool_decide (status = "connected") then 0
       else reconnect_attempts device |}.

(** [_try_reconnect]: any exception is caught and gives [False]. *)
Definition _try_reconnect (b : Backend) (device : DeviceInfo) : bool :=
  match type device with
  | ANDROID =>
      match adb_connect b (id device) with
      | Ok _ => true
      | _ => false
      end
  | IOS =>
      match usbmux_devices_again b (id device) with
      | Ok udids => bool_decide (id device ∈ udids)
      | _ => false
      end
  end.

(** [_handle_disconnected_device], on the record [self.devices[device_id]]. *)
Definition _handle_disconnected_device (b : Backend) (max_attempts : Z)
    (timestamp : Q) (device : DeviceInfo) : DeviceInfo :=
  let device :=
    if bool_decide (status device = "connected") then
      {| id := id device; type := type device; name := name device;
         version := version device; status := "disconnected";
         last_seen := last_seen device;
         reconnect_attempts := reconnect_attempts device |}
    else device in
  if reconnect_attempts device <? max_attempts then
    let device :=
      {| id := id device; type := type device; name := name device;
         version := version device; status := status device;
         last_seen := last_seen device;
         reconnect_attempts := reconnect_attempts device + 1 |} in
    if _try_reconnect b device then
      _update_device_status "connected" timestamp device
    else
      {| id := id device; type := type device; name := name device;
         version := version device; status := status device;
         last_seen := timestamp;
         reconnect_attempts := reconnect_attempts device |}
  else device.

(** The body of the loop of [_update_device_statuses] for one item
    [(device_id, device_info)] of [self.devices]. *)
Definition poll_device (b : Backend) (max_attempts : Z)
    (android_devices ios_devices : list string) (current_time : Q)
    (device_id : string) (device_info : DeviceInfo) : DeviceInfo :=
  match type device_info with
  | ANDROID =>
      if bool_decide (device_id ∈ android_devices) then
        _update_device_status "connected" current_time device_info
      else _handle_disconnected_device b max_attempts current_time device_info
  | IOS =>
      if bool_decide (device_id ∈ ios_devices) then
        _update_device_status "connected" current_time device_info
      else _handle_disconnected_device b max_attempts current_time device_info
  end.

(** [_update_device_statuses] at time [current_time].  An exception of
    [adb.device_list()] is not caught and ends the cycle before any record
    changes; one of tidevice leaves [ios_devices] empty.  The loop changes
    each record in place and no key, so the cycle maps [poll_device] over
    the registry. *)
Definition _update_device_statuses (b : Backend) (current_time : Q) (p : t)
    : Outcome t :=
  match adb_device_list b with
  | Ok android_devices =>
      let ios_devices :=
        match usbmux_devices b with
        | Ok udids => udids
        | _ => []
        end in
      Ok (set_devices
            (map_imap (fun device_id device_info =>
               Some (poll_device b (max_reconnect_attempts p) android_devices
                       ios_devices current_time device_id device_info)))
            p)
  | Raise e => Raise e
  end.

(** The identifiers a cycle finds attached for a device type: the keys of
    [android_devices], or of [ios_devices], in [_update_device_statuses]. *)
Definition attached (b : Backend) (ty : DeviceType) : list string :=
  match ty with
  | ANDROID => match adb_device_list b with Ok serials => serials | _ => [] end
  | IOS => match usbmux_devices b with Ok udids => udids | _ => [] end
  end.

(** Successive cycles of [_monitor_devices], one backend view and one time
    per cycle. *)
Fixpoint run_cycles (cycles : list (Backend * Q)) (p : t) : Outcome t :=
  match cycles with
  | [] => Ok p
  | (b, now) :: rest =>
      match _update_device_statuses b now p with
      | Ok p' => run_cycles rest p'
      | Raise e => Raise e
      end
  end.

(** *** Waiting for a device *)

(** What [wait_for_device] observes while it runs: [clock k] is the value of
    the [k]-th call of [time.time()] (the call that sets [start_time] is
    number 0), and [pool_at i] is the registry at the [i]-th call of
    [get_device_info]; the monitor thread may change it between two polls. *)
Record WaitEnv : Type := mkWaitEnv {
  clock : nat -> Q;
  pool_at : nat -> t
}.

Inductive WaitEvent : Type :=
| Polled (device_id : string)      (* get_device_info(device_id) *)
| Slept (seconds : Z).             (* time.sleep(seconds) *)

(** The [while] loop of [wait_for_device], at its iteration [i], with the
    events so far. *)
Fixpoint wait_loop (fuel : nat) (env : WaitEnv) (start_time : Q)
    (timeout : Z) (device_id : string) (i : nat) (events : list WaitEvent)
    : option (bool * list WaitEvent) :=
  match fuel with
  | O => None
  | S fuel' =>
      if Qltb (clock env (S i) - start_time) (inject_Z timeout) then
        let events := events ++ [Polled device_id] in
        let connected :=
          match get_device_info device_id (pool_at env i) with
          | Some device => bool_decide (status device = "connected")
          | None => false
          end in
        if connected then Some (true, events)
        else wait_loop fuel' env start_time timeout device_id (S i)
               (events ++ [Slept 1])
      else Some (false, events)
  end.

(** [wait_for_device]: the returned boolean and what was done, or [None]
    when [fuel] iterations do not finish the loop. *)
Definition wait_for_device (fuel : nat) (env : WaitEnv) (device_id : string)
    (timeout : Z) : option (bool * list WaitEvent) :=
  wait_loop fuel env (clock env 0%nat) timeout device_id 0%nat [].

End DevicePool.

(** ** advanced_features.py *)

Module Advanced.

(** *** Values and dataclasses *)

(** The scalars a profile setting or an operation result can be
    ([Union[str, int, float, bool]], and [None]). *)
Inductive Value : Type :=
| VStr (s : string)
| VInt (z : Z)
| VFloat (q : Q)
| VBool (b : bool)
| VNone.

(** The keyword arguments of a batch operation, in order. *)
Definition Params : Type := list (string * Value).

Record DeviceHealth : Type := mkDeviceHealth {
  device_id : string;
  cpu_usage : Q;
  memory_usage : Q;
  battery_level : option Q;
  temperature : option Q;
  connection_strength : Q;
  last_error : option string;
  status : string
}.

Record PerformanceMetrics : Type := mkPerformanceMetrics {
  pm_device_id : string;
  response_time : Q;
  throughput : Q;
  error_rate : Q;
  timestamp : Q
}.

Record DeviceProfile : Type := mkDeviceProfile {
  profile_name : string;
  settings : list (string * Value);
  compatibility : list string;
  performance_targets : gmap string Q
}.

(** One entry of the dictionary [execute_batch] returns:
    [{"status": "success", "result": result}] or
    [{"status": "error", "error": str(e)}]. *)
Inductive BatchEntry : Type :=
| Success (result : Value)
| Error (error : string).

Definition entry_status (e : BatchEntry) : string :=
  match e with
  | Success _ => "success"
  | Error _ => "error"
  end.

(** *** The device handles *)

(** [DevicePool] as given in device_pool.py has no [get_device] and no
    [list_devices]; the classes of this module only use these two methods of
    the pool they are handed (the tests hand them a mock).  The handle
    [get_device] returns is therefore a parameter of the model: its
    attributes, and for each method the code calls on it what that call
    produces. *)
Record Device : Type := mkDevice {
  attrs : gmap string Value;
  get_metrics : Outcome (gmap string Q);
  ping : Outcome Value;
  restart_apps : Outcome unit;
  reconnect : Outcome unit;
  reboot : Outcome unit;
  operation : string -> Params -> Outcome Value;
  setattr_raises : string -> Value -> option exn
}.

Definition set_attrs (f : gmap string Value -> gmap string Value)
    (d : Device) : Device :=
  {| attrs := f (attrs d); get_metrics := get_metrics d; ping := ping d;
     restart_apps := restart_apps d; reconnect := reconnect d;
     reboot := reboot d; operation := operation d;
     setattr_raises := setattr_raises d |}.

(** The calls made on the backend, in the order they are made. *)
Inductive Call : Type :=
| CallGetMetrics (device_id : string)
| CallPing (device_id : string)
| CallRestartApps (device_id : string)
| CallReconnect (device_id : string)
| CallReboot (device_id : string)
| CallOperation (device_id operation : string) (params : Params)
| CallSetattr (device_id setting : string) (value : Value)
| CallSleep (seconds : Z).

(** *** The state and its monad *)

(** The pool the components share and the attributes of the five components:
    [health_history] ([HealthMonitor]), [recovery_attempts] and [max_attempts]
    ([AutoRecovery]), [metrics_history] ([PerformanceProfiler]), [profiles]
    ([ProfileManager]).  [clock k] is what the [k]-th call of [time.time()]
    returns and [ticks] counts the calls so far. *)
Record Sys : Type := mkSys {
  pool_devices : gmap string Device;
  pool_listing : list string;
  health_history : gmap string (list DeviceHealth);
  recovery_attempts : gmap string Z;
  max_attempts : Z;
  metrics_history : gmap string (list PerformanceMetrics);
  profiles : gmap string DeviceProfile;
  clock : nat -> Q;
  ticks : nat;
  calls : list Call
}.

(** The state after the constructors ([__init__]) of the five components. *)
Definition Sys_init (devices : gmap string Device) (listing : list string)
    (clock : nat -> Q) : Sys :=
  {| pool_devices := devices; pool_listing := listing;
     health_history := ∅; recovery_attempts := ∅; max_attempts := 3;
     metrics_history := ∅; profiles := ∅;
     clock := clock; ticks := 0%nat; calls := [] |}.

Definition set_pool_devices (f : gmap string Device -> gmap string Device)
    (s : Sys) : Sys :=
  {| pool_devices := f (pool_devices s); pool_listing := pool_listing s;
     health_history := health_history s;
     recovery_attempts := recovery_attempts s; max_attempts := max_attempts s;
     metrics_history := metrics_history s; profiles := profiles s;
     clock := clock s; ticks := ticks s; calls := calls s |}.

Definition set_health_history
    (f : gmap string (list DeviceHealth) -> gmap string (list DeviceHealth))
    (s : Sys) : Sys :=
  {| pool_devices := pool_devices s; pool_listing := pool_listing s;
     health_history := f (health_history s);
     recovery_attempts := recovery_attempts s; max_attempts := max_attempts s;
     metrics_history := metrics_history s; profiles := profiles s;
     clock := clock s; ticks := ticks s; calls := calls s |}.

Definition set_recovery_attempts (f : gmap string Z -> gmap string Z)
    (s : Sys) : Sys :=
  {| pool_devices := pool_devices s; pool_listing := pool_listing s;
     health_history := health_history s;
     recovery_attempts := f (recovery_attempts s);
     max_attempts := max_attempts s;
     metrics_history := metrics_history s; profiles := profiles s;
     clock := clock s; ticks := ticks s; calls := calls s |}.

Definition set_metrics_history
    (f : gmap string (list PerformanceMetrics) ->
         gmap string (list PerformanceMetrics))
    (s : Sys) : Sys :=
  {| pool_devices := pool_devices s; pool_listing := pool_listing s;
     health_history := health_history s;
     recovery_attempts := recovery_attempts s; max_attempts := max_attempts s;
     metrics_history := f (metrics_history s); profiles := profiles s;
     clock := clock s; ticks := ticks s; calls := calls s |}.

Definition set_profiles
    (f : gmap string DeviceProfile -> gmap string DeviceProfile)
    (s : Sys) : Sys :=
  {| pool_devices := pool_devices s; pool_listing := pool_listing s;
     health_history := health_history s;
     recovery_attempts := recovery_attempts s; max_attempts := max_attempts s;
     metrics_history := metrics_history s; profiles := f (profiles s);
     clock := clock s; ticks := ticks s; calls := calls s |}.

Definition set_ticks (f : nat -> nat) (s : Sys) : Sys :=
  {| pool_devices := pool_devices s; pool_listing := pool_listing s;
     health_history := health_history s;
     recovery_attempts := recovery_attempts s; max_attempts := max_attempts s;
     metrics_history := metrics_history s; profiles := profiles s;
     clock := clock s; ticks := f (ticks s); calls := calls s |}.

Definition set_calls (f : list Call -> list Call) (s : Sys) : Sys :=
  {| pool_devices := pool_devices s; pool_listing := pool_listing s;
     health_history := health_history s;
     recovery_attempts := recovery_attempts s; max_attempts := max_attempts s;
     metrics_history := metrics_history s; profiles := profiles s;
     clock := clock s; ticks := ticks s; calls := f (calls s) |}.

(** A computation: from a state to what it produces and the state it leaves.
    A raised exception keeps the changes made before it. *)
Definition M (A : Type) : Type := Sys -> Outcome A * Sys.

Definition ret {A : Type} (a : A) : M A := fun s => (Ok a, s).

Definition raise {A : Type} (e : exn) : M A := fun s => (Raise e, s).

Definition lift {A : Type} (o : Outcome A) : M A := fun s => (o, s).

Definition bind {A B : Type} (m : M A) (k : A -> M B) : M B :=
  fun s =>
    match m s with
    | (Ok a, s') => k a s'
    | (Raise e, s') => (Raise e, s')
    end.

(** [try: m  except Exception as e: handler e]. *)
Definition try_except {A : Type} (m : M A) (handler : exn -> M A) : M A :=
  fun s =>
    match m s with
    | (Raise e, s') => handler e s'
    | r => r
    end.

Definition gets {A : Type} (f : Sys -> A) : M A := fun s => (Ok (f s), s).

Definition modify (f : Sys -> Sys) : M unit := fun s => (Ok tt, f s).

Notation "'let!' x ':=' m 'in' k" := (bind m (fun x => k))
  (at level 10, x binder, m at level 100, k at level 200).

(** [device_pool.get_device(device_id)] and [device_pool.list_devices()]. *)
Definition get_device (device_id : string) : M (option Device) :=
  gets (fun s => pool_devices s !! device_id).

Definition list_devices : M (list string) := gets pool_listing.

(** A call on the backend: it is recorded, then produces [r]. *)
Definition call_backend {A : Type} (c : Call) (r : Outcome A) : M A :=
  fun s => (r, set_calls (fun l => l ++ [c]) s).

(** [time.time()]. *)
Definition time_time : M Q :=
  fun s => (Ok (clock s (ticks s)), set_ticks S s).

(** [metrics[key]]: a missing key raises [KeyError]. *)
Definition subscript (metrics : gmap string Q) (key : string) : M Q :=
  match metrics !! key with
  | Some v => ret v
  | None => raise (Exn KeyError ("'" +:+ key +:+ "'"))
  end.

(** The body the two history updates share, for a history [self.h] and a
    bound [n]:
    [if key not in self.h: self.h[key] = []];
    [self.h[key].append(x)]; [self.h[key] = self.h[key][-n:]]. *)
Definition push_history {A : Type} (n : nat) (key : string) (x : A)
    (history : gmap string (list A)) : gmap string (list A) :=
  <[key := last_n n (default [] (history !! key) ++ [x])]> history.

(** The items of a sequence of pushes that went under [key], the oldest
    first. *)
Definition pushed {A : Type} (key : string) (items : list (string * A))
    : list A :=
  (filter (fun item => item.1 = key) items).*2.

(** *** HealthMonitor *)

(** [self.alert_thresholds], in the order of its items. *)
Definition alert_thresholds : list (string * Q) :=
  [("cpu_usage", 90.0%Q); ("memory_usage", 90.0%Q); ("battery_level", 15.0%Q);
   ("temperature", 45.0%Q); ("connection_strength", 30.0%Q)].

(** [getattr(health, metric)] for the numeric fields: [None] when the
    dataclass has no such field, [Some None] when the field holds [None]. *)
Definition health_getattr (health : DeviceHealth) (metric : string)
    : option (option Q) :=
  if String.eqb metric "cpu_usage" then Some (Some (cpu_usage health))
  else if String.eqb metric "memory_usage" then Some (Some (memory_usage health))
  else if String.eqb metric "battery_level" then Some (battery_level health)
  else if String.eqb metric "temperature" then Some (temperature health)
  else if String.eqb metric "connection_strength" then
    Some (Some (connection_strength health))
  else None.

(** [any(getattr(health, metric) > threshold
         for metric, threshold in items
         if getattr(health, metric) is not None)]. *)
Fixpoint any_above (health : DeviceHealth) (items : list (string * Q))
    : Outcome bool :=
  match items with
  | [] => Ok false
  | (metric, threshold) :: rest =>
      match health_getattr health metric with
      | None =>
          Raise (Exn AttributeError
                   ("'DeviceHealth' object has no attribute '" +:+ metric +:+ "'"))
      | Some None => any_above health rest
      | Some (Some value) =>
          if Qltb threshold value then Ok true else any_above health rest
      end
  end.

Definition set_status (st : string) (h : DeviceHealth) : DeviceHealth :=
  {| device_id := device_id h; cpu_usage := cpu_usage h;
     memory_usage := memory_usage h; battery_level := battery_level h;
     temperature := temperature h;
     connection_strength := connection_strength h;
     last_error := last_error h; status := st |}.

(** [_update_health_history]. *)
Definition _update_health_history (device_id : string) (health : DeviceHealth)
    : M unit :=
  modify (set_health_history (push_history 100 device_id health)).

(** The snapshot the [except] branch of [check_device_health] returns. *)
Definition error_health (device_id : string) (e : exn) : DeviceHealth :=
  {| device_id := device_id; cpu_usage := 0.0%Q; memory_usage := 0.0%Q;
     battery_level := None; temperature := None;
     connection_strength := 0.0%Q;
     last_error := Some (exn_str e); status := "error" |}.

(** [check_device_health]. *)
Definition check_device_health (device_id : string) : M DeviceHealth :=
  let! device := get_device device_id in
  match device with
  | None => raise (Exn DeviceError ("Device " +:+ device_id +:+ " not found"))
  | Some device =>
      try_except
        (let! metrics :=
           call_backend (CallGetMetrics device_id) (get_metrics device) in
         let! cpu := subscript metrics "cpu_usage" in
         let! memory := subscript metrics "memory_usage" in
         let! connection := subscript metrics "connection_strength" in
         let health :=
           {| device_id := device_id; cpu_usage := cpu;
              memory_usage := memory;
              battery_level := metrics !! "battery_level";
              temperature := metrics !! "temperature";
              connection_strength := connection;
              last_error := None; status := "healthy" |} in
         let! above := lift (any_above health alert_thresholds) in
         let health := if above then set_status "warning" health else health in
         let! _ := _update_health_history device_id health in
         ret health)
        (fun e => ret (error_health device_id e))
  end.

(** Successive calls of [_update_health_history], the oldest first. *)
Definition record_health (items : list (string * DeviceHealth)) (s : Sys)
    : Sys :=
  foldl (fun s item => snd (_update_health_history item.1 item.2 s)) s items.

(** *** AutoRecovery *)

(** [self.recovery_attempts.get(device_id, 0)]. *)
Definition attempts_of (device_id : string) (s : Sys) : Z :=
  default 0 (recovery_attempts s !! device_id).

(** [_attempt_recovery]. *)
Definition _attempt_recovery (device_id : string) (health : DeviceHealth)
    : M unit :=
  let! device := get_device device_id in
  match device with
  | None => raise (Exn DeviceError ("Device " +:+ device_id +:+ " not found"))
  | Some device =>
      let! _ :=
        if Qltb 90 (cpu_usage health) || Qltb 90 (memory_usage health) then
          call_backend (CallRestartApps device_id) (restart_apps device)
        else ret tt in
      let! _ :=
        if Qltb (connection_strength health) 30 then
          call_backend (CallReconnect device_id) (reconnect device)
        else ret tt in
      if String.eqb (status health) "error" then
        call_backend (CallReboot device_id) (reboot device)
      else ret tt
  end.

(** The actions [_attempt_recovery] issues for a snapshot when none raises,
    in its order, each with what the call on the handle produces. *)
Definition wanted_actions (device_id : string) (device : Device)
    (health : DeviceHealth) : list (Call * Outcome unit) :=
  (if Qltb 90 (cpu_usage health) || Qltb 90 (memory_usage health)
   then [(CallRestartApps device_id, restart_apps device)] else []) ++
  (if Qltb (connection_strength health) 30
   then [(CallReconnect device_id, reconnect device)] else []) ++
  (if String.eqb (status health) "error"
   then [(CallReboot device_id, reboot device)] else []).

(** The calls made out of a sequence of actions that stops at the first
    one that raises. *)
Fixpoint fired {A : Type} (actions : list (Call * Outcome A)) : list Call :=
  match actions with
  | [] => []
  | (c, Ok _) :: rest => c :: fired rest
  | (c, Raise _) :: _ => [c]
  end.

(** [check_and_recover]. *)
Definition check_and_recover (device_id : string) : M bool :=
  let! health := check_device_health device_id in
  if String.eqb (status health) "healthy" then
    let! _ := modify (set_recovery_attempts (<[device_id := 0]>)) in
    ret true
  else
    let! attempts := gets (attempts_of device_id) in
    let! limit := gets max_attempts in
    if limit <=? attempts then ret false
    else
      try_except
        (let! _ := _attempt_recovery device_id health in
         let! attempts := gets (attempts_of device_id) in
         let! _ :=
           modify (set_recovery_attempts (<[device_id := attempts + 1]>)) in
         ret true)
        (fun e => ret false).

(** *** PerformanceProfiler *)

(** The names bound at the top level of advanced_features.py: its imports,
    [logger], the dataclasses and the classes.  [asyncio] is not imported. *)
Definition module_globals : list string :=
  ["logging"; "time"; "dataclass"; "Dict"; "List"; "Optional"; "Tuple";
   "Union"; "ThreadPoolExecutor"; "DevicePool"; "DeviceError";
   "OperationError"; "logger"; "DeviceHealth"; "PerformanceMetrics";
   "DeviceProfile"; "BatchOperationManager"; "HealthMonitor"; "AutoRecovery";
   "PerformanceProfiler"; "ProfileManager"].

(** Reading a module-level name inside a function: a name that is bound
    neither in the module nor in the builtins raises [NameError]. *)
Definition load_global (name : string) : M unit :=
  if existsb (String.eqb name) module_globals then ret tt
  else raise (Exn NameError ("name '" +:+ name +:+ "' is not defined")).

(** [await asyncio.sleep(seconds)]. *)
Definition asyncio_sleep (seconds : Z) : M unit :=
  let! _ := load_global "asyncio" in
  call_backend (CallSleep seconds) (Ok tt).

(** A method call on what [get_device] returned; on [None] the attribute
    lookup raises [AttributeError]. *)
Definition on_device {A : Type} (device : option Device) (method : string)
    (c : Call) (result : Device -> Outcome A) : M A :=
  match device with
  | Some d => call_backend c (result d)
  | None =>
      raise (Exn AttributeError
               ("'NoneType' object has no attribute '" +:+ method +:+ "'"))
  end.

(** [_collect_metrics]. *)
Definition _collect_metrics (device_id : string) : M PerformanceMetrics :=
  let! device := get_device device_id in
  let! start_time := time_time in
  try_except
    (let! response := on_device device "ping" (CallPing device_id) ping in
     let! now := time_time in
     let response_time := (now - start_time)%Q in
     let! metrics :=
       on_device device "get_metrics" (CallGetMetrics device_id) get_metrics in
     let! throughput := subscript metrics "throughput" in
     let! error_rate := subscript metrics "error_rate" in
     let! timestamp := time_time in
     ret {| pm_device_id := device_id; response_time := response_time;
            throughput := throughput; error_rate := error_rate;
            timestamp := timestamp |})
    (fun e =>
       let! timestamp := time_time in
       ret {| pm_device_id := device_id; response_time := 0.0%Q;
              throughput := 0.0%Q; error_rate := 1.0%Q;
              timestamp := timestamp |}).

(** [_update_metrics_history]. *)
Definition _update_metrics_history (device_id : string)
    (metrics : PerformanceMetrics) : M unit :=
  modify (set_metrics_history (push_history 1000 device_id metrics)).

(** Successive calls of [_update_metrics_history], the oldest first. *)
Definition record_metrics (items : list (string * PerformanceMetrics))
    (s : Sys) : Sys :=
  foldl (fun s item => snd (_update_metrics_history item.1 item.2 s)) s items.

(** The [while] loop of [start_profiling]; [None] when [fuel] iterations do
    not finish it. *)
Fixpoint profiling_loop (fuel : nat) (device_id : string) (start_time : Q)
    (duration : Z) (metrics_list : list PerformanceMetrics)
    : M (option (list PerformanceMetrics)) :=
  match fuel with
  | O => ret None
  | S fuel' =>
      let! now := time_time in
      if Qltb (now - start_time) (inject_Z duration) then
        let! metrics := _collect_metrics device_id in
        let metrics_list := metrics_list ++ [metrics] in
        let! _ := _update_metrics_history device_id metrics in
        let! _ := asyncio_sleep 1 in
        profiling_loop fuel' device_id start_time duration metrics_list
      else ret (Some metrics_list)
  end.

(** [start_profiling]. *)
Definition start_profiling (fuel : nat) (device_id : string) (duration : Z)
    : M (option (list PerformanceMetrics)) :=
  let! device := get_device device_id in
  match device with
  | None => raise (Exn DeviceError ("Device " +:+ device_id +:+ " not found"))
  | Some _ =>
      let! start_time := time_time in
      profiling_loop fuel device_id start_time duration []
  end.

(** *** BatchOperationManager *)

(** [_execute_single_operation]. *)
Definition _execute_single_operation (device_id op : string) (params : Params)
    : M BatchEntry :=
  let! device := get_device device_id in
  match device with
  | None => raise (Exn DeviceError ("Device " +:+ device_id +:+ " not found"))
  | Some device =>
      try_except
        (let! result :=
           call_backend (CallOperation device_id op params)
             (operation device op params) in
         ret (Success result))
        (fun e =>
           raise (Exn OperationError
                    ("Operation " +:+ op +:+ " failed: " +:+ exn_str e)))
  end.

(** [self.executor.submit(task)]: the task runs on a worker and what it
    returns or raises is kept in the future.  The workers are run here in
    the order of submission. *)
Definition submit {A : Type} (task : M A) : M (Outcome A) :=
  fun s => let (r, s') := task s in (Ok r, s').

(** The first loop of [execute_batch]: one future per item of [devices]. *)
Fixpoint submit_all (devices : list string) (op : string) (params : Params)
    : M (list (string * Outcome BatchEntry)) :=
  match devices with
  | [] => ret []
  | device_id :: rest =>
      let! future := submit (_execute_single_operation device_id op params) in
      let! futures := submit_all rest op params in
      ret ((device_id, future) :: futures)
  end.

(** [try: future.result()  except Exception as e: {"status": "error",
    "error": str(e)}]: the entry a finished future gives. *)
Definition future_entry (future : Outcome BatchEntry) : BatchEntry :=
  match future with
  | Ok entry => entry
  | Raise e => Error (exn_str e)
  end.

(** The second loop: [results[device_id] = ...] for each future in turn. *)
Fixpoint collect_results (futures : list (string * Outcome BatchEntry))
    (results : gmap string BatchEntry) : gmap string BatchEntry :=
  match futures with
  | [] => results
  | (device_id, future) :: rest =>
      collect_results rest (<[device_id := future_entry future]> results)
  end.

(** [execute_batch]. *)
Definition execute_batch (op : string) (params : Params)
    (devices : option (list string)) : M (gmap string BatchEntry) :=
  let! devices :=
    match devices with
    | None => list_devices
    | Some devices => ret devices
    end in
  let! futures := submit_all devices op params in
  ret (collect_results futures ∅).

(** *** ProfileManager *)

(** [create_profile]. *)
Definition create_profile (name : string) (settings : list (string * Value))
    (compatibility : list string) (performance_targets : gmap string Q)
    : M DeviceProfile :=
  let profile :=
    {| profile_name := name; settings := settings;
       compatibility := compatibility;
       performance_targets := performance_targets |} in
  let! _ := modify (set_profiles (<[name := profile]>)) in
  ret profile.

(** [device.model]. *)
Definition device_model (device : Device) : M Value :=
  match attrs device !! "model" with
  | Some v => ret v
  | None =>
      raise (Exn AttributeError "'Device' object has no attribute 'model'")
  end.

(** [model in compatibility], for a list of strings. *)
Definition model_in (model : Value) (compatibility : list string) : bool :=
  match model with
  | VStr m => existsb (String.eqb m) compatibility
  | _ => false
  end.

(** [setattr(device, setting, value)] on the handle [device] that the pool
    holds under [device_id]: the call is recorded; it either raises or
    changes the attribute of the shared object. *)
Definition setattr (device_id : string) (device : Device) (setting : string)
    (value : Value) : M Device :=
  let! _ := call_backend (CallSetattr device_id setting value) (Ok tt) in
  match setattr_raises device setting value with
  | Some e => raise e
  | None =>
      let device := set_attrs (<[setting := value]>) device in
      let! _ := modify (set_pool_devices (<[device_id := device]>)) in
      ret device
  end.

(** [for setting, value in profile.settings.items(): setattr(...)]. *)
Fixpoint apply_settings (device_id : string) (device : Device)
    (items : list (string * Value)) : M unit :=
  match items with
  | [] => ret tt
  | (setting, value) :: rest =>
      let! device := setattr device_id device setting value in
      apply_settings device_id device rest
  end.

(** The attributes after the items of [settings] have been set in turn. *)
Definition set_all (items : list (string * Value))
    (attributes : gmap string Value) : gmap string Value :=
  foldl (fun a item => <[item.1 := item.2]> a) attributes items.

(** [apply_profile]. *)
Definition apply_profile (device_id name : string) : M bool :=
  let! known := gets profiles in
  match known !! name with
  | None => raise (Exn ValueError ("Profile " +:+ name +:+ " not found"))
  | Some profile =>
      let! device := get_device device_id in
      match device with
      | None =>
          raise (Exn DeviceError ("Device " +:+ device_id +:+ " not found"))
      | Some device =>
          let! model := device_model device in
          if model_in model (compatibility profile) then
            try_except
              (let! _ := apply_settings device_id device (settings profile) in
               ret true)
              (fun e => ret false)
          else
            raise (Exn ValueError
                     ("Profile " +:+ name +:+ " is not compatible with device "
                      +:+ device_id))
      end
  end.

End Advanced.

(** ** device_pool.py: listings, and what the registry keeps *)

Module DevicePoolViews.
Import DevicePool.

(** [get_all_devices]: [list(self.devices.values())].  The list comes in the
    order of the finite map, which is not the insertion order of the dict;
    only its members and its length are meaningful. *)
Definition get_all_devices (p : t) : list DeviceInfo :=
  (map_to_list (devices p)).*2.

(** [get_connected_devices]:
    [[dev for dev in self.devices.values() if dev.status == "connected"]]. *)
Definition get_connected_devices (p : t) : list DeviceInfo :=
  filter (fun dev => status dev = "connected") (get_all_devices p).

(** Every record is filed under its own id. *)
Definition keys_match (p : t) : Prop :=
  forall (key : string) (info : DeviceInfo),
    devices p !! key = Some info -> id info = key.

(** Every reconnection counter lies between 0 and the maximum of the pool. *)
Definition attempts_bounded (p : t) : Prop :=
  forall (key : string) (info : DeviceInfo),
    devices p !! key = Some info ->
    0 <= reconnect_attempts info <= max_reconnect_attempts p.

(** The test of the loop of [wait_for_device] at its iteration [i]:
    [time.time() - start_time < timeout]. *)
Definition in_time (env : WaitEnv) (timeout : Z) (i : nat) : bool :=
  Qltb (clock env (S i) - clock env 0%nat) (inject_Z timeout).

(** What the poll of iteration [i] finds:
    [device and device.status == "connected"]. *)
Definition connected_at (env : WaitEnv) (device_id : string) (i : nat) : bool :=
  match get_device_info device_id (pool_at env i) with
  | Some device => bool_decide (status device = "connected")
  | None => false
  end.

(** The events of [n] iterations that did not find the device connected. *)
Definition waited (device_id : string) (n : nat) : list WaitEvent :=
  concat (replicate n [Polled device_id; Slept 1]).

End DevicePoolViews.

(** ** device_manager.py *)

Module DeviceManager.
Import DevicePool DevicePoolViews.

(** [VersionSupport]: the version bounds and, per platform, the items of the
    feature table in their order. *)
Definition MIN_ANDROID_VERSION : string := "4.4".
Definition MIN_IOS_VERSION : string := "11.0".
Definition LATEST_ANDROID_VERSION : string := "14.0".
Definition LATEST_IOS_VERSION : string := "17.0".

Definition FEATURE_SUPPORT (platform : DeviceType) : list (string * string) :=
  match platform with
  | ANDROID =>
      [("performance_metrics", "5.0"); ("gpu_monitoring", "6.0");
       ("network_monitoring", "5.0"); ("battery_stats", "5.0");
       ("screen_recording", "10.0")]
  | IOS =>
      [("performance_metrics", "11.0"); ("gpu_monitoring", "12.0");
       ("network_monitoring", "11.0"); ("battery_stats", "11.0");
       ("screen_recording", "11.0")]
  end.

Section Versions.

(** [packaging.version] is a library outside the repository: [parse] is
    [version.parse], [None] when it raises [InvalidVersion], and [le] is
    [<=] on the versions it returns. *)
Context {V : Type}.
Variable parse : string -> option V.
Variable le : V -> V -> bool.

(** [is_version_supported]: any exception gives [False]. *)
Definition is_version_supported (device_info : DeviceInfo) : bool :=
  match parse (version device_info) with
  | None => false
  | Some device_version =>
      let bounds :=
        match type device_info with
        | ANDROID => (MIN_ANDROID_VERSION, LATEST_ANDROID_VERSION)
        | IOS => (MIN_IOS_VERSION, LATEST_IOS_VERSION)
        end in
      match parse bounds.1 with
      | None => false
      | Some min_version =>
          match parse bounds.2 with
          | None => false
          | Some max_version =>
              le min_version device_version && le device_version max_version
          end
      end
  end.

(** The loop of the [try] block of [get_supported_features]:
    [features[feature] = device_version >= version.parse(min_version)] for
    each item; the boolean tells whether the loop completed, and the
    dictionary is what it had built when it stopped. *)
Fixpoint features_loop (device_version : V) (items : list (string * string))
    (features : gmap string bool) : gmap string bool * bool :=
  match items with
  | [] => (features, true)
  | (feature, min_version) :: rest =>
      match parse min_version with
      | None => (features, false)
      | Some m =>
          features_loop device_version rest
            (<[feature := le m device_version]> features)
      end
  end.

(** [get_supported_features].  When the version of the device does not
    parse, [platform] has not been assigned yet and the [except] branch,
    which reads it, raises [UnboundLocalError] (a [NameError]); when a later
    step of the [try] block fails, the branch sets every feature of the
    platform to [False]. *)
Definition get_supported_features (device_info : DeviceInfo)
    : Outcome (gmap string bool) :=
  match parse (version device_info) with
  | None =>
      Raise (Exn NameError
               "cannot access local variable 'platform' where it is not associated with a value")
  | Some device_version =>
      let platform := type device_info in
      match features_loop device_version (FEATURE_SUPPORT platform) ∅ with
      | (features, true) => Ok features
      | (features, false) =>
          Ok (foldl (fun features item => <[item.1 := false]> features)
                features (FEATURE_SUPPORT platform))
      end
  end.

(** [get_device_compatibility], on the pool of the manager. *)
Definition get_device_compatibility (p : t) (device_id : string)
    : Outcome (bool * gmap string bool) :=
  match get_device_info device_id p with
  | None => Ok (false, ∅)
  | Some device_info =>
      if is_version_supported device_info then
        match get_supported_features device_info with
        | Ok features => Ok (true, features)
        | Raise e => Raise e
        end
      else Ok (false, ∅)
  end.

End Versions.

(** What [scan_devices] sees of adb and tidevice: the attached devices by
    serial (udid), each with what reading its properties produces
    ([device.get_properties()], or [tidevice.Device(udid).device_info()]). *)
Record ScanBackend : Type := mkScanBackend {
  scan_adb : Outcome (list (string * Outcome (gmap string string)));
  scan_usbmux : Outcome (list (string * Outcome (gmap string string)))
}.

(** [d.get(key, fallback)]. *)
Definition dict_get (d : gmap string string) (key fallback : string) : string :=
  from_option (fun value => value) fallback (d !! key).

(** The body of the loop over the Android devices: a failed read of the
    properties is logged and the device skipped. *)
Definition scan_android (p : t)
    (device : string * Outcome (gmap string string)) : t :=
  match device.2 with
  | Ok props =>
      fst (add_device device.1 ANDROID
             (dict_get props "ro.product.model" "Unknown Android Device")
             (dict_get props "ro.build.version.release" "0.0") p)
  | Raise _ => p
  end.

(** The body of the loop over the iOS devices. *)
Definition scan_ios (p : t)
    (device : string * Outcome (gmap string string)) : t :=
  match device.2 with
  | Ok device_info =>
      fst (add_device device.1 IOS
             (dict_get device_info "DeviceName" "Unknown iOS Device")
             (dict_get device_info "ProductVersion" "0.0") p)
  | Raise _ => p
  end.

(** [scan_devices]: the pool after the scan and the list returned.  An
    exception of [adb.device_list()] is not caught; one of tidevice is. *)
Definition scan_devices (b : ScanBackend) (p : t)
    : Outcome (list DeviceInfo) * t :=
  match scan_adb b with
  | Raise e => (Raise e, p)
  | Ok android =>
      let p1 := foldl scan_android p android in
      let p2 :=
        match scan_usbmux b with
        | Ok ios => foldl scan_ios p1 ios
        | Raise _ => p1
        end in
      (Ok (get_all_devices p2), p2)
  end.

Definition is_poll (e : WaitEvent) : bool :=
  match e with
  | Polled _ => true
  | Slept _ => false
  end.

(** [DeviceManager.wait_for_device]: the pool is read once more after
    [wait_for_device] has returned [True]; this read is the next one of the
    registry after the polls of the wait. *)
Definition wait_for_device (fuel : nat) (env : WaitEnv) (device_id : string)
    (timeout : Z) : option (option DeviceInfo) :=
  match DevicePool.wait_for_device fuel env device_id timeout with
  | None => None
  | Some (true, events) =>
      let polls := length (List.filter is_poll events) in
      Some (get_device_info device_id (pool_at env polls))
  | Some (false, _) => Some None
  end.

End DeviceManager.

(** ** Example inputs *)

Module PoolExamples.
Import DevicePool.

(** Example observations: a clock that advances by one second per reading,
    and a registry that holds "android123" as connected at every poll. *)
Definition ticking_clock (k : nat) : Q := inject_Z (Z.of_nat k).

Definition connected_pool : t :=
  set_devices
    (insert "android123"
       (_update_device_status "connected" 0.0%Q
          (DeviceInfo_new "android123" ANDROID "Test Android" "12.0")))
    default.

Definition connected_env : WaitEnv :=
  {| clock := ticking_clock; pool_at := fun _ => connected_pool |}.

(** A registry of two devices, as the tests of the pool build it (two
    reconnection attempts at most), and three views of the backend: both
    devices attached; none attached and no reconnection possible; none
    attached but [adb.connect] succeeding. *)
Definition two_devices : t :=
  fst (add_device "ios456" IOS "Test iPhone" "15.0"
         (fst (add_device "android123" ANDROID "Test Android" "12.0"
                 (init 2 1)))).

Definition both_attached : Backend :=
  {| adb_device_list := Ok ["android123"];
     usbmux_devices := Ok ["ios456"];
     adb_connect := fun _ => Ok tt;
     usbmux_devices_again := fun _ => Ok ["ios456"] |}.

Definition none_attached : Backend :=
  {| adb_device_list := Ok [];
     usbmux_devices := Ok [];
     adb_connect := fun _ => Raise (Exn BackendError "device offline");
     usbmux_devices_again := fun _ => Ok [] |}.

Definition adb_reconnects : Backend :=
  {| adb_device_list := Ok [];
     usbmux_devices := Raise (Exn BackendError "usbmuxd not running");
     adb_connect := fun _ => Ok tt;
     usbmux_devices_again :=
       fun _ => Raise (Exn BackendError "usbmuxd not running") |}.

(** The registry a cycle leaves (the registry itself when the cycle raises). *)
Definition after_cycle (b : Backend) (now : Q) (p : t) : t :=
  match _update_device_statuses b now p with
  | Ok p' => p'
  | _ => p
  end.

(** The registry of two devices after two cycles that found nothing attached
    and could not reconnect: both counters have reached the maximum of 2. *)
Definition exhausted : t :=
  after_cycle none_attached 20 (after_cycle none_attached 10 two_devices).

(** A clock that is set back by one second after the start time has been
    read ([time.time()] follows the system clock), over the registry that
    holds "android123" as connected. *)
Definition set_back_clock (k : nat) : Q :=
  match k with
  | O => 10
  | S k' => inject_Z (9 + Z.of_nat k')
  end.

Definition set_back_env : WaitEnv :=
  {| clock := set_back_clock; pool_at := fun _ => connected_pool |}.

(** A registry in which "android123" is found connected from the second
    poll on, seen through the ticking clock. *)
Definition late_env : WaitEnv :=
  {| clock := ticking_clock;
     pool_at := fun i =>
       if (i <? 1)%nat then two_devices
       else after_cycle both_attached 10 two_devices |}.

(** The ticking clock over the registry of two devices, which never
    changes: no poll finds a device connected. *)
Definition unchanged_env : WaitEnv :=
  {| clock := ticking_clock; pool_at := fun _ => two_devices |}.

End PoolExamples.

Module AdvancedExamples.
Import Advanced.

(** The metrics of the device the tests of this module use. *)
Definition fixture_metrics : gmap string Q :=
  list_to_map
    [("cpu_usage", 50.0%Q); ("memory_usage", 60.0%Q);
     ("battery_level", 80.0%Q); ("temperature", 35.0%Q);
     ("connection_strength", 90.0%Q); ("throughput", 100.0%Q);
     ("error_rate", 0.01%Q)].

(** A handle whose every call succeeds, with the given metrics. *)
Definition device_with (metrics : Outcome (gmap string Q)) : Device :=
  {| attrs := {[ "model" := VStr "test_model" ]};
     get_metrics := metrics;
     ping := Ok VNone;
     restart_apps := Ok tt;
     reconnect := Ok tt;
     reboot := Ok tt;
     operation := fun _ _ => Ok VNone;
     setattr_raises := fun _ _ => None |}.

Definition fixture_device : Device := device_with (Ok fixture_metrics).

(** A clock that advances by one second per reading. *)
Definition ticking_clock (k : nat) : Q := inject_Z (Z.of_nat k).

(** A pool that resolves "device1" and "device2" to the fixture device. *)
Definition fixture_sys : Sys :=
  Sys_init {[ "device1" := fixture_device; "device2" := fixture_device ]}
    ["device1"; "device2"] ticking_clock.

(** A performance sample and a health snapshot to fill histories with. *)
Definition sample_at (t : Q) : PerformanceMetrics :=
  {| pm_device_id := "device1"; response_time := 0.0%Q; throughput := 100.0%Q;
     error_rate := 0.01%Q; timestamp := t |}.

Definition healthy_snapshot : DeviceHealth :=
  {| device_id := "device1"; cpu_usage := 50.0%Q; memory_usage := 60.0%Q;
     battery_level := None; temperature := None;
     connection_strength := 20.0%Q; last_error := None; status := "healthy" |}.

(** A device whose metrics read raises an exception that carries no message
    (as a timeout does), and the state that resolves "device1" to it. *)
Definition silent_failure : exn := Exn BackendError "".

Definition unreadable_device : Device := device_with (Raise silent_failure).

Definition unreadable_sys : Sys :=
  Sys_init {[ "device1" := unreadable_device ]} ["device1"] ticking_clock.

(** A device with a nearly empty battery and a weak connection, its other
    metrics as in the fixture. *)
Definition drained_metrics : gmap string Q :=
  list_to_map
    [("cpu_usage", 50.0%Q); ("memory_usage", 60.0%Q);
     ("battery_level", 10.0%Q); ("temperature", 35.0%Q);
     ("connection_strength", 20.0%Q); ("throughput", 100.0%Q);
     ("error_rate", 0.01%Q)].

Definition drained_sys : Sys :=
  Sys_init {[ "device1" := device_with (Ok drained_metrics) ]} ["device1"]
    ticking_clock.

(** A device under load (cpu 95) whose [restart_apps] raises, and the state
    that resolves "device1" to it. *)
Definition overloaded_metrics : gmap string Q :=
  list_to_map
    [("cpu_usage", 95.0%Q); ("memory_usage", 60.0%Q);
     ("connection_strength", 20.0%Q); ("throughput", 100.0%Q);
     ("error_rate", 0.01%Q)].

Definition stuck_device : Device :=
  {| attrs := {[ "model" := VStr "test_model" ]};
     get_metrics := Ok overloaded_metrics;
     ping := Ok VNone;
     restart_apps := Raise (Exn BackendError "restart failed");
     reconnect := Ok tt;
     reboot := Ok tt;
     operation := fun _ _ => Ok VNone;
     setattr_raises := fun _ _ => None |}.

Definition stuck_sys : Sys :=
  Sys_init {[ "device1" := stuck_device ]} ["device1"] ticking_clock.

(** The same load on a device whose recovery actions all succeed. *)
Definition overloaded_sys : Sys :=
  Sys_init {[ "device1" := device_with (Ok overloaded_metrics) ]} ["device1"]
    ticking_clock.

(** The overloaded device after three counted recovery attempts. *)
Definition exhausted_sys : Sys :=
  set_recovery_attempts (<[ "device1" := 3 ]>) overloaded_sys.

(** The snapshots the health check returns in these states. *)
Definition overloaded_snapshot : DeviceHealth :=
  {| device_id := "device1"; cpu_usage := 95.0%Q; memory_usage := 60.0%Q;
     battery_level := None; temperature := None;
     connection_strength := 20.0%Q; last_error := None;
     status := "warning" |}.

Definition drained_snapshot : DeviceHealth :=
  {| device_id := "device1"; cpu_usage := 50.0%Q; memory_usage := 60.0%Q;
     battery_level := Some 10.0%Q; temperature := Some 35.0%Q;
     connection_strength := 20.0%Q; last_error := None;
     status := "healthy" |}.

(** A pool of two devices: "d1" answers every operation, every operation of
    "d2" raises. *)
Definition answering_device : Device :=
  {| attrs := {[ "model" := VStr "test_model" ]};
     get_metrics := Ok fixture_metrics;
     ping := Ok VNone;
     restart_apps := Ok tt;
     reconnect := Ok tt;
     reboot := Ok tt;
     operation := fun _ _ => Ok (VStr "pong");
     setattr_raises := fun _ _ => None |}.

Definition raising_device : Device :=
  {| attrs := {[ "model" := VStr "test_model" ]};
     get_metrics := Ok fixture_metrics;
     ping := Ok VNone;
     restart_apps := Ok tt;
     reconnect := Ok tt;
     reboot := Ok tt;
     operation := fun _ _ => Raise (Exn BackendError "Test error");
     setattr_raises := fun _ _ => None |}.

Definition batch_sys : Sys :=
  Sys_init {[ "d1" := answering_device; "d2" := raising_device ]}
    ["d1"; "d2"] ticking_clock.

(** A device that rejects the setting "locked" and accepts any other, and
    a state with two profiles: "test_profile" for the model of the devices,
    "other_profile" for another model. *)
Definition picky_device : Device :=
  {| attrs := {[ "model" := VStr "test_model" ]};
     get_metrics := Ok fixture_metrics;
     ping := Ok VNone;
     restart_apps := Ok tt;
     reconnect := Ok tt;
     reboot := Ok tt;
     operation := fun _ _ => Ok VNone;
     setattr_raises := fun setting _ =>
       if String.eqb setting "locked"
       then Some (Exn AttributeError "can't set attribute")
       else None |}.

Definition test_settings : list (string * Value) :=
  [("brightness", VInt 50); ("locked", VBool true); ("volume", VInt 3)].

Definition profile_sys : Sys :=
  snd (create_profile "other_profile" test_settings ["other_model"] ∅
         (snd (create_profile "test_profile" test_settings ["test_model"] ∅
                 (Sys_init {[ "device1" := fixture_device;
                              "device2" := picky_device ]}
                    ["device1"; "device2"] ticking_clock)))).

(** The profile of examples/advanced_device_management.py, whose
    compatibility list holds the patterns "iPhone.*" and "Pixel.*", over a
    pool with one device of model "Pixel 7" that accepts every setting; the
    list is a parameter, to compare with the model itself in the list. *)
Definition pixel_device : Device :=
  {| attrs := {[ "model" := VStr "Pixel 7" ]};
     get_metrics := Ok fixture_metrics;
     ping := Ok VNone;
     restart_apps := Ok tt;
     reconnect := Ok tt;
     reboot := Ok tt;
     operation := fun _ _ => Ok VNone;
     setattr_raises := fun _ _ => None |}.

Definition high_performance_settings : list (string * Value) :=
  [("performance_mode", VBool true); ("cpu_governor", VStr "performance");
   ("keep_alive", VBool true)].

Definition high_performance_targets : gmap string Q :=
  list_to_map
    [("response_time", 0.1%Q); ("throughput", 1000%Q);
     ("error_rate", 0.001%Q)].

Definition pixel_sys (compatibility : list string) : Sys :=
  snd (create_profile "high_performance" high_performance_settings
         compatibility high_performance_targets
         (Sys_init {[ "pixel7" := pixel_device ]} ["pixel7"] ticking_clock)).

End AdvancedExamples.

Module AdvancedMoreExamples.
Import Advanced AdvancedExamples.

(** A device whose metrics lack the mandatory "memory_usage". *)
Definition partial_metrics : gmap string Q :=
  list_to_map [("cpu_usage", 50.0%Q); ("connection_strength", 90.0%Q)].

Definition partial_sys : Sys :=
  Sys_init {[ "device1" := device_with (Ok partial_metrics) ]} ["device1"]
    ticking_clock.

(** A device with a hot battery-less board: only the temperature is above
    its threshold. *)
Definition hot_metrics : gmap string Q :=
  list_to_map
    [("cpu_usage", 50.0%Q); ("memory_usage", 60.0%Q);
     ("temperature", 50.0%Q); ("connection_strength", 20.0%Q)].

Definition hot_sys : Sys :=
  Sys_init {[ "device1" := device_with (Ok hot_metrics) ]} ["device1"]
    ticking_clock.

(** A handle without a [model] attribute, and a profile for it. *)
Definition anonymous_device : Device :=
  {| attrs := ∅;
     get_metrics := Ok fixture_metrics;
     ping := Ok VNone;
     restart_apps := Ok tt;
     reconnect := Ok tt;
     reboot := Ok tt;
     operation := fun _ _ => Ok VNone;
     setattr_raises := fun _ _ => None |}.

Definition anonymous_sys : Sys :=
  snd (create_profile "test_profile" test_settings ["test_model"] ∅
         (Sys_init {[ "device1" := anonymous_device ]} ["device1"]
            ticking_clock)).

End AdvancedMoreExamples.

Module PoolViewExamples.
Import DevicePool DevicePoolViews PoolExamples.

(** A registry in which "android123" is found connected from the third poll
    on, seen through a clock that advances by one second per reading. *)
Definition connecting_env : WaitEnv :=
  {| clock := ticking_clock;
     pool_at := fun i =>
       if (i <? 2)%nat then two_devices
       else after_cycle both_attached 10 two_devices |}.

(** The same clock over a registry that never changes. *)
Definition idle_env : WaitEnv :=
  {| clock := ticking_clock; pool_at := fun _ => two_devices |}.

(** A registry in which "android123" is connected at the first poll and
    disconnected at every later read. *)
Definition flapping_env : WaitEnv :=
  {| clock := ticking_clock;
     pool_at := fun i =>
       if (i <? 1)%nat then after_cycle both_attached 10 two_devices
       else after_cycle none_attached 20
              (after_cycle both_attached 10 two_devices) |}.

End PoolViewExamples.

Module ManagerExamples.
Import DevicePool DevicePoolViews DeviceManager PoolExamples.

(** A stand-in for [version.parse] on the version strings of the examples:
    the release [x.y] is read as [10 x + y]; any other string is invalid. *)
Definition example_parse (v : string) : option Z :=
  if String.eqb v "4.4" then Some 44
  else if String.eqb v "5.0" then Some 50
  else if String.eqb v "6.0" then Some 60
  else if String.eqb v "10.0" then Some 100
  else if String.eqb v "11.0" then Some 110
  else if String.eqb v "12.0" then Some 120
  else if String.eqb v "14.0" then Some 140
  else if String.eqb v "15.0" then Some 150
  else if String.eqb v "17.0" then Some 170
  else None.

(** Three Android records: versions 5.0 and 12.0, and one whose version
    string is not a version. *)
Definition lollipop : DeviceInfo :=
  DeviceInfo_new "old1" ANDROID "Nexus 5" "5.0".

Definition snow_cone : DeviceInfo :=
  DeviceInfo_new "android123" ANDROID "Test Android" "12.0".

Definition custom_rom : DeviceInfo :=
  DeviceInfo_new "rom1" ANDROID "Custom" "nightly".

Definition rom_pool : t :=
  fst (add_device "rom1" ANDROID "Custom" "nightly" two_devices).

(** What a scan finds: an Android device whose properties can be read, one
    whose properties cannot, one that is registered already, and an iOS
    device that reports no version. *)
Definition pixel_props : gmap string string :=
  list_to_map [("ro.product.model", "Pixel 7");
               ("ro.build.version.release", "14.0")].

Definition found_android : list (string * Outcome (gmap string string)) :=
  [("pixel7", Ok pixel_props);
   ("locked1", Raise (Exn BackendError "device unauthorized"));
   ("android123", Ok (list_to_map [("ro.product.model", "Renamed")]))].

Definition scan_found : ScanBackend :=
  {| scan_adb := Ok found_android;
     scan_usbmux :=
       Ok [("ipad9", Ok (list_to_map [("DeviceName", "iPad")]))] |}.

End ManagerExamples.

(** ** Tactics *)

(** Splits a conjunction of guarded facts and closes each by the
    hypotheses at hand. *)
Ltac by_cases :=
  repeat match goal with
         | |- _ /\ _ => split
         | |- _ -> _ => intro
         end;
  try reflexivity; try assumption; try discriminate; try lia; try tauto;
  auto.

(** Closes a conjunction of equations that hold by computation. *)
Ltac by_cases_adv := repeat split; reflexivity.

(** * Properties *)

(** ** Floats *)

Lemma Qltb_lt (x y : Q) : Qltb x y = true <-> (x < y)%Q.
Proof.
  unfold Qltb. rewrite negb_true_iff. split.
  - intros H. apply Qnot_le_lt. intros Hle.
    apply Qle_bool_iff in Hle. congruence.
  - intros H. destruct (Qle_bool y x) eqn:E; [|reflexivity].
    apply Qle_bool_iff in E. exfalso. exact (Qlt_not_le _ _ H E).
Qed.

Lemma Qltb_ge (x y : Q) : Qltb x y = false <-> (y <= x)%Q.
Proof.
  unfold Qltb. rewrite negb_false_iff. apply Qle_bool_iff.
Qed.

(** ** The device registry *)

Module DevicePoolFacts.
Import DevicePool PoolExamples.

Lemma add_device_other (p : t) (device_id other : string) (ty : DeviceType)
    (nm ver : string) :
  other ≠ device_id ->
  get_device_info other (fst (add_device device_id ty nm ver p)) =
  get_device_info other p.
Proof.
  intros Hne. unfold add_device, get_device_info.
  destruct (devices p !! device_id); simpl; [reflexivity|].
  apply lookup_insert_ne. congruence.
Qed.

(** C9. [add_device] on an id the registry does not hold returns [True] and
    inserts a record with that id, type, name and version, status
    "disconnected", [last_seen = 0.0] and [reconnect_attempts = 0], which
    [get_device_info] then returns; on an id the registry holds it returns
    [False] and leaves the registry, hence the existing record, as it was. *)
Theorem add_device_get_device_info (p : t) (device_id : string)
    (ty : DeviceType) (nm ver : string) :
  (get_device_info device_id p = None ->
   snd (add_device device_id ty nm ver p) = true /\
   get_device_info device_id (fst (add_device device_id ty nm ver p)) =
     Some {| id := device_id; type := ty; name := nm; version := ver;
             status := "disconnected"; last_seen := 0.0%Q;
             reconnect_attempts := 0 |}) /\
  (forall info : DeviceInfo,
     get_device_info device_id p = Some info ->
     snd (add_device device_id ty nm ver p) = false /\
     fst (add_device device_id ty nm ver p) = p /\
     get_device_info device_id (fst (add_device device_id ty nm ver p)) =
       Some info).
Proof.
  unfold get_device_info, add_device. split.
  - intros Hnone. rewrite Hnone. simpl. split; [reflexivity|].
    apply lookup_insert_eq.
  - intros info Hsome. rewrite Hsome. simpl. auto.
Qed.

Lemma add_device_get_device_info_witness :
  (snd (add_device "android123" ANDROID "Test Android" "12.0" default) = true /\
   get_device_info "android123"
     (fst (add_device "android123" ANDROID "Test Android" "12.0" default)) =
     Some {| id := "android123"; type := ANDROID; name := "Test Android";
             version := "12.0"; status := "disconnected"; last_seen := 0.0%Q;
             reconnect_attempts := 0 |}) /\
  (let p1 := fst (add_device "android123" ANDROID "Test Android" "12.0" default) in
   snd (add_device "android123" IOS "Other" "15.0" p1) = false /\
   fst (add_device "android123" IOS "Other" "15.0" p1) = p1 /\
   get_device_info "android123"
     (fst (add_device "android123" IOS "Other" "15.0" p1)) =
     Some (DeviceInfo_new "android123" ANDROID "Test Android" "12.0")).
Proof.
  split.
  - apply (proj1 (add_device_get_device_info default "android123" ANDROID
                    "Test Android" "12.0")).
    reflexivity.
  - apply (proj2 (add_device_get_device_info
                    (fst (add_device "android123" ANDROID "Test Android" "12.0"
                            default))
                    "android123" IOS "Other" "15.0")).
    vm_compute. reflexivity.
Defined.

(** *** Waiting for a device *)

(** Whatever a run of the loop returns, it extends the events it started
    with. *)
Lemma wait_loop_extends (env : WaitEnv) (start_time : Q) (timeout : Z)
    (device_id : string) :
  forall (fuel i : nat) (events : list WaitEvent) (found : bool)
         (events' : list WaitEvent),
    wait_loop fuel env start_time timeout device_id i events =
      Some (found, events') ->
    exists rest, events' = events ++ rest.
Proof.
  induction fuel as [|fuel IH]; intros i events found events'; [discriminate|].
  cbn [wait_loop].
  destruct (Qltb (clock env (S i) - start_time) (inject_Z timeout)).
  - destruct (match get_device_info device_id (pool_at env i) with
              | Some device => bool_decide (status device = "connected")
              | None => false
              end).
    + intros [= <- <-]. eauto.
    + intros Hrun. apply IH in Hrun as [rest ->].
      exists (Polled device_id :: Slept 1 :: rest).
      rewrite <- !app_assoc. reflexivity.
  - intros [= <- <-]. exists []. rewrite app_nil_r. reflexivity.
Qed.

(** C10 as stated fails, for it depends on the clock.  With a timeout of
    one second and a clock that has advanced by one second when the loop
    test is first evaluated, [wait_for_device] returns [False] for a device
    that is registered and "connected", without polling it; and with a
    timeout of 0 and a clock set back after the start time was read, it
    polls the device and returns [True]. *)
Lemma wait_for_device_depends_on_clock :
  get_device_info "android123" connected_pool =
    Some (_update_device_status "connected" 0.0%Q
            (DeviceInfo_new "android123" ANDROID "Test Android" "12.0")) /\
  wait_for_device 5 connected_env "android123" 1 = Some (false, []) /\
  wait_for_device 5 set_back_env "android123" 0 =
    Some (true, [Polled "android123"]).
Proof. split_and!; vm_compute; reflexivity. Qed.

(** C10, amended.  With a timeout of 0 or less and a clock that does not
    run backwards between its first two readings, [wait_for_device] returns
    [False] and never calls [get_device_info], whatever the registry holds.
    With a positive timeout that has not elapsed at the first test of the
    loop, the device is polled before anything else: a device that is
    "connected" gives [True] after this one poll and no sleep; a device that
    is missing or not "connected" is slept on for one second right after the
    poll, so every run starts with the poll and the sleep, and the second
    test of the loop then decides: [False] if the timeout has elapsed,
    otherwise a second poll, which gives [True] if it finds the device
    "connected". *)
Theorem wait_for_device_first_iteration (fuel : nat) (env : WaitEnv)
    (device_id : string) (timeout : Z) :
  (timeout <= 0 ->
   (clock env 0%nat <= clock env 1%nat)%Q ->
   wait_for_device (S fuel) env device_id timeout = Some (false, [])) /\
  (0 < timeout ->
   (clock env 1%nat - clock env 0%nat < inject_Z timeout)%Q ->
   (forall info : DeviceInfo,
      get_device_info device_id (pool_at env 0%nat) = Some info ->
      status info = "connected" ->
      wait_for_device (S fuel) env device_id timeout =
        Some (true, [Polled device_id])) /\
   ((forall info : DeviceInfo,
       get_device_info device_id (pool_at env 0%nat) = Some info ->
       status info <> "connected") ->
    (forall found events,
       wait_for_device (S fuel) env device_id timeout = Some (found, events) ->
       exists rest, events = Polled device_id :: Slept 1 :: rest) /\
    ((inject_Z timeout <= clock env 2%nat - clock env 0%nat)%Q ->
     wait_for_device (S (S fuel)) env device_id timeout =
       Some (false, [Polled device_id; Slept 1])) /\
    (forall info : DeviceInfo,
       (clock env 2%nat - clock env 0%nat < inject_Z timeout)%Q ->
       get_device_info device_id (pool_at env 1%nat) = Some info ->
       status info = "connected" ->
       wait_for_device (S (S fuel)) env device_id timeout =
         Some (true, [Polled device_id; Slept 1; Polled device_id])))).
Proof.
  unfold wait_for_device. split.
  - intros Hto Hclock. cbn [wait_loop].
    assert (Hge : Qltb (clock env 1%nat - clock env 0%nat) (inject_Z timeout)
                  = false).
    { apply Qltb_ge.
      apply Qle_trans with (y := 0%Q).
      - change 0%Q with (inject_Z 0). rewrite <- Zle_Qle. exact Hto.
      - unfold Qminus. rewrite <- (Qplus_opp_r (clock env 0%nat)).
        apply Qplus_le_l. exact Hclock. }
    rewrite Hge. reflexivity.
  - intros _ Hlt. apply Qltb_lt in Hlt. split.
    + intros info Hinfo Hstatus. cbn [wait_loop].
      rewrite Hlt, Hinfo.
      rewrite bool_decide_eq_true_2 by exact Hstatus. reflexivity.
    + intros Hnot.
      assert (Hpoll :
                match get_device_info device_id (pool_at env 0%nat) with
                | Some device => bool_decide (status device = "connected")
                | None => false
                end = false).
      { destruct (get_device_info device_id (pool_at env 0%nat)) as [info|];
          [|reflexivity].
        apply bool_decide_eq_false_2. apply Hnot. reflexivity. }
      split_and!.
      * intros found events. cbn [wait_loop]. rewrite Hlt, Hpoll.
        intros Hrun. apply wait_loop_extends in Hrun as [rest ->].
        exists rest. reflexivity.
      * intros Hout. apply Qltb_ge in Hout. cbn [wait_loop].
        rewrite Hlt, Hpoll, Hout. reflexivity.
      * intros info Hin Hinfo Hstatus. apply Qltb_lt in Hin. cbn [wait_loop].
        rewrite Hlt, Hpoll, Hin, Hinfo.
        rewrite bool_decide_eq_true_2 by exact Hstatus. reflexivity.
Qed.

Lemma wait_for_device_first_iteration_witness :
  wait_for_device 1 connected_env "android123" 0 = Some (false, []) /\
  wait_for_device 1 connected_env "android123" (-5) = Some (false, []) /\
  wait_for_device 1 connected_env "android123" 30 =
    Some (true, [Polled "android123"]) /\
  wait_for_device 2 unchanged_env "android123" 2 =
    Some (false, [Polled "android123"; Slept 1]) /\
  wait_for_device 2 late_env "android123" 30 =
    Some (true, [Polled "android123"; Slept 1; Polled "android123"]).
Proof.
  assert (Hnot : forall info : DeviceInfo,
            get_device_info "android123" two_devices = Some info ->
            status info <> "connected").
  { intros info Hinfo. vm_compute in Hinfo. injection Hinfo as <-.
    discriminate. }
  split; [|split; [|split; [|split]]].
  - apply (proj1 (wait_for_device_first_iteration 0 connected_env
                    "android123" 0)); [lia | vm_compute; discriminate].
  - apply (proj1 (wait_for_device_first_iteration 0 connected_env
                    "android123" (-5))); [lia | vm_compute; discriminate].
  - apply (proj1 (proj2 (wait_for_device_first_iteration 0 connected_env
                           "android123" 30)
                    ltac:(lia) ltac:(vm_compute; reflexivity))
             (_update_device_status "connected" 0.0%Q
                (DeviceInfo_new "android123" ANDROID "Test Android" "12.0"))).
    + vm_compute. reflexivity.
    + reflexivity.
  - apply (proj1 (proj2 (proj2 (proj2 (wait_for_device_first_iteration 0
                                         unchanged_env "android123" 2)
                                  ltac:(lia) ltac:(vm_compute; reflexivity))
                           Hnot))).
    vm_compute. discriminate.
  - apply (proj2 (proj2 (proj2 (proj2 (wait_for_device_first_iteration 0
                                         late_env "android123" 30)
                                  ltac:(lia) ltac:(vm_compute; reflexivity))
                           Hnot))
             (_update_device_status "connected" 10%Q
                (DeviceInfo_new "android123" ANDROID "Test Android" "12.0"))).
    + vm_compute. reflexivity.
    + vm_compute. reflexivity.
    + reflexivity.
Defined.

(** *** The connection monitor *)

Lemma _try_reconnect_ext (b : Backend) (d1 d2 : DeviceInfo) :
  id d1 = id d2 -> type d1 = type d2 ->
  _try_reconnect b d1 = _try_reconnect b d2.
Proof.
  intros Hid Hty. unfold _try_reconnect. rewrite Hid, Hty. reflexivity.
Qed.

Lemma _update_device_statuses_lookup (b : Backend) (now : Q) (p p' : t)
    (device_id : string) :
  _update_device_statuses b now p = Ok p' ->
  max_reconnect_attempts p' = max_reconnect_attempts p /\
  devices p' !! device_id =
    poll_device b (max_reconnect_attempts p) (attached b ANDROID)
      (attached b IOS) now device_id <$> devices p !! device_id.
Proof.
  unfold _update_device_statuses, attached.
  destruct (adb_device_list b) as [serials|]; [|discriminate].
  intros [= <-]. simpl. split; [reflexivity|].
  rewrite map_lookup_imap.
  destruct (devices p !! device_id); reflexivity.
Qed.

(** What a cycle does to one record, by cases. *)
Lemma poll_device_cases (b : Backend) (limit : Z) (now : Q)
    (device_id : string) (info : DeviceInfo) :
  let info' :=
    poll_device b limit (attached b ANDROID) (attached b IOS) now device_id
      info in
  id info' = id info /\ type info' = type info /\
  (device_id ∈ attached b (type info) ->
   status info' = "connected" /\ last_seen info' = now /\
   reconnect_attempts info' = 0) /\
  (device_id ∉ attached b (type info) ->
   reconnect_attempts info < limit ->
   _try_reconnect b info = true ->
   status info' = "connected" /\ last_seen info' = now /\
   reconnect_attempts info' = 0) /\
  (device_id ∉ attached b (type info) ->
   reconnect_attempts info < limit ->
   _try_reconnect b info = false ->
   (status info = "connected" \/ status info = "disconnected" ->
    status info' = "disconnected") /\
   last_seen info' = now /\
   reconnect_attempts info' = reconnect_attempts info + 1) /\
  (device_id ∉ attached b (type info) ->
   limit <= reconnect_attempts info ->
   (status info = "connected" \/ status info = "disconnected" ->
    status info' = "disconnected") /\
   last_seen info' = last_seen info /\
   reconnect_attempts info' = reconnect_attempts info) /\
  (reconnect_attempts info' < reconnect_attempts info ->
   status info' = "connected").
Proof.
  assert (Hpoll :
    poll_device b limit (attached b ANDROID) (attached b IOS) now device_id
      info =
    if bool_decide (device_id ∈ attached b (type info)) then
      _update_device_status "connected" now info
    else _handle_disconnected_device b limit now info).
  { unfold poll_device. destruct (type info); reflexivity. }
  cbv zeta. rewrite Hpoll. clear Hpoll.
  case_bool_decide as Hin.
  - simpl. split_and!; try reflexivity; try tauto.
  - unfold _handle_disconnected_device.
    set (d0 := if bool_decide (status info = "connected") then _ else info).
    assert (Hd0 : id d0 = id info /\ type d0 = type info /\
                  last_seen d0 = last_seen info /\
                  reconnect_attempts d0 = reconnect_attempts info /\
                  d0.(status) ≠ "connected" /\
                  (status info = "connected" \/ status info = "disconnected" ->
                   status d0 = "disconnected")).
    { subst d0. case_bool_decide as Hst; simpl.
      - split_and!; try reflexivity; try discriminate; auto.
      - split_and!; try reflexivity; try assumption; tauto. }
    destruct Hd0 as (Hid & Hty & Hls & Hra & Hnc & Hdis).
    clearbody d0. rewrite Hra.
    destruct (Z.ltb_spec (reconnect_attempts info) limit) as [Hlt|Hge].
    + set (d1 := {| id := id d0; type := type d0; name := name d0;
                    version := version d0; status := status d0;
                    last_seen := last_seen d0;
                    reconnect_attempts := reconnect_attempts info + 1 |}).
      assert (Htry : _try_reconnect b d1 = _try_reconnect b info).
      { apply _try_reconnect_ext; simpl; assumption. }
      rewrite Htry.
      destruct (_try_reconnect b info) eqn:Hrec; simpl; by_cases.
    + by_cases.
Qed.



(** The pool keeps its registry well formed: it starts so, and additions,
    removals and monitor cycles preserve it. *)
Lemma init_well_formed (limit interval : Z) : well_formed (init limit interval).
Proof. intros device_id info Hinfo. simpl in Hinfo. discriminate. Qed.

Lemma add_device_well_formed (p : t) (device_id : string) (ty : DeviceType)
    (nm ver : string) :
  well_formed p -> well_formed (fst (add_device device_id ty nm ver p)).
Proof.
  intros Hwf other info. unfold add_device.
  destruct (devices p !! device_id) eqn:Hlook; simpl; [apply Hwf|].
  rewrite lookup_insert. case_decide as Heq.
  - intros [= <-]. right. reflexivity.
  - apply Hwf.
Qed.

Lemma remove_device_well_formed (p : t) (device_id : string) :
  well_formed p -> well_formed (fst (remove_device device_id p)).
Proof.
  intros Hwf other info. unfold remove_device.
  destruct (devices p !! device_id) eqn:Hlook; simpl; [|apply Hwf].
  rewrite lookup_delete. case_decide as Heq; [discriminate|apply Hwf].
Qed.

Lemma _update_device_statuses_well_formed (b : Backend) (now : Q) (p p' : t) :
  _update_device_statuses b now p = Ok p' -> well_formed p -> well_formed p'.
Proof.
  intros Hcycle Hwf device_id info' Hinfo'.
  destruct (_update_device_statuses_lookup b now p p' device_id Hcycle)
    as [_ Hlook].
  rewrite Hinfo' in Hlook.
  destruct (devices p !! device_id) as [info|] eqn:Hinfo; [|discriminate].
  cbn [fmap option_fmap option_map] in Hlook. injection Hlook as ->.
  pose proof (Hwf device_id info Hinfo) as Hvalid.
  pose proof (poll_device_cases b (max_reconnect_attempts p) now device_id
                info) as Hcases.
  cbv zeta in Hcases.
  destruct Hcases as (_ & _ & Hatt & Hok & Hfail & Hmax & _).
  destruct (decide (device_id ∈ attached b (type info))) as [Hin|Hout].
  { left. apply Hatt. exact Hin. }
  destruct (Z.lt_ge_cases (reconnect_attempts info) (max_reconnect_attempts p))
    as [Hlt|Hge].
  - destruct (_try_reconnect b info) eqn:Hrec.
    + left. apply (Hok Hout Hlt eq_refl).
    + right. apply (proj1 (Hfail Hout Hlt eq_refl)). exact Hvalid.
  - right. apply (proj1 (Hmax Hout Hge)). exact Hvalid.
Qed.



End DevicePoolFacts.

(** ** advanced_features.py *)

Module AdvancedFacts.
Import Advanced AdvancedExamples.

(** *** Bounded histories *)

Section BoundedHistory.
Context {A : Type}.
Implicit Types (l k : list A) (n : nat) (history : gmap string (list A)).
Implicit Types (items : list (string * A)) (item : string * A).

Lemma length_last_n n l : length (last_n n l) = (length l `min` n)%nat.
Proof. unfold last_n. rewrite length_drop. lia. Qed.

Lemma last_n_short n l : (length l <= n)%nat -> last_n n l = l.
Proof.
  intros Hle. unfold last_n.
  replace (length l - n)%nat with 0%nat by lia. reflexivity.
Qed.

(** Truncating before an append does not change what the next truncation
    keeps. *)
Lemma last_n_app_last_n n l k : last_n n (last_n n l ++ k) = last_n n (l ++ k).
Proof.
  unfold last_n at 2.
  rewrite <- (drop_app_le l k (length l - n)) by lia.
  unfold last_n. rewrite drop_drop. f_equal.
  rewrite length_drop, !length_app. lia.
Qed.

Lemma pushed_snoc key items item :
  pushed key (items ++ [item]) =
  pushed key items ++ (if decide (item.1 = key) then [item.2] else []).
Proof.
  unfold pushed. rewrite filter_app, fmap_app. f_equal.
  rewrite filter_cons, filter_nil. destruct (decide (item.1 = key)); reflexivity.
Qed.

Lemma push_history_lookup n key key' (x : A) history :
  default [] (push_history n key x history !! key') =
  if decide (key = key') then last_n n (default [] (history !! key') ++ [x])
  else default [] (history !! key').
Proof.
  unfold push_history. rewrite lookup_insert.
  destruct (decide (key = key')) as [->|]; reflexivity.
Qed.

Lemma push_history_all n key items history :
  (length (default [] (history !! key)) <= n)%nat ->
  default [] (foldl (fun h item => push_history n item.1 item.2 h) history items
              !! key) =
  last_n n (default [] (history !! key) ++ pushed key items).
Proof.
  intros Hlen. induction items as [|item items IH] using rev_ind.
  - simpl. unfold pushed. simpl. rewrite app_nil_r.
    symmetry. apply last_n_short. exact Hlen.
  - rewrite foldl_snoc, push_history_lookup, pushed_snoc, IH.
    destruct (decide (item.1 = key)) as [Heq|Hne].
    + rewrite last_n_app_last_n, app_assoc. reflexivity.
    + rewrite app_nil_r. reflexivity.
Qed.

End BoundedHistory.

Lemma record_health_history (items : list (string * DeviceHealth)) (s : Sys) :
  health_history (record_health items s) =
  foldl (fun h item => push_history 100 item.1 item.2 h) (health_history s)
    items.
Proof.
  unfold record_health. revert s.
  induction items as [|item items IH]; intros s; simpl; [reflexivity|].
  rewrite IH. reflexivity.
Qed.

Lemma record_metrics_history (items : list (string * PerformanceMetrics))
    (s : Sys) :
  metrics_history (record_metrics items s) =
  foldl (fun h item => push_history 1000 item.1 item.2 h) (metrics_history s)
    items.
Proof.
  unfold record_metrics. revert s.
  induction items as [|item items IH]; intros s; simpl; [reflexivity|].
  rewrite IH. reflexivity.
Qed.

(** What a history that started empty holds after a sequence of pushes. *)
Lemma kept_after_pushes {A : Type} (n : nat) (key : string)
    (items : list (string * A)) (history : gmap string (list A)) :
  history !! key = None ->
  let kept :=
    default [] (foldl (fun h item => push_history n item.1 item.2 h) history
                  items !! key) in
  kept = last_n n (pushed key items) /\
  (length kept <= n)%nat /\
  ((n < length (pushed key items))%nat ->
   length kept = n /\
   kept = drop (length (pushed key items) - n) (pushed key items)).
Proof.
  intros Hnone kept.
  assert (Hkept : kept = last_n n (pushed key items)).
  { subst kept. rewrite push_history_all; rewrite Hnone; simpl; [reflexivity|lia]. }
  split; [exact Hkept|]. rewrite Hkept, length_last_n.
  split; [lia|]. intros Hlong. split; [lia|reflexivity].
Qed.

(** C6. Every call of [_update_health_history] leaves at most 100 snapshots
    for the device, and every call of [_update_metrics_history] at most 1000
    samples.  A history that starts empty holds, after any sequence of such
    calls (for any devices, in any order), the last 100 (1000) items recorded
    for the device, in the order they were recorded: all of them while there
    are no more than the bound, exactly 100 (1000) once there are more. *)
Theorem histories_bounded (s : Sys) (key : string) :
  (forall h : DeviceHealth,
     (length (default []
                (health_history (snd (_update_health_history key h s)) !! key))
      <= 100)%nat) /\
  (forall items : list (string * DeviceHealth),
     health_history s !! key = None ->
     let kept := default [] (health_history (record_health items s) !! key) in
     kept = last_n 100 (pushed key items) /\
     (length kept <= 100)%nat /\
     ((100 < length (pushed key items))%nat ->
      length kept = 100%nat /\
      kept = drop (length (pushed key items) - 100) (pushed key items))) /\
  (forall m : PerformanceMetrics,
     (length (default []
                (metrics_history (snd (_update_metrics_history key m s)) !! key))
      <= 1000)%nat) /\
  (forall items : list (string * PerformanceMetrics),
     metrics_history s !! key = None ->
     let kept := default [] (metrics_history (record_metrics items s) !! key) in
     kept = last_n 1000 (pushed key items) /\
     (length kept <= 1000)%nat /\
     ((1000 < length (pushed key items))%nat ->
      length kept = 1000%nat /\
      kept = drop (length (pushed key items) - 1000) (pushed key items))).
Proof.
  split_and!.
  - intros h. simpl. rewrite push_history_lookup.
    rewrite decide_True by reflexivity. rewrite length_last_n. lia.
  - intros items Hnone. rewrite record_health_history.
    apply kept_after_pushes. exact Hnone.
  - intros m. simpl. rewrite push_history_lookup.
    rewrite decide_True by reflexivity. rewrite length_last_n. lia.
  - intros items Hnone. rewrite record_metrics_history.
    apply kept_after_pushes. exact Hnone.
Qed.

Lemma histories_bounded_witness :
  (let items := replicate 205 ("device1", healthy_snapshot) in
   let kept :=
     default [] (health_history (record_health items fixture_sys) !! "device1") in
   kept = last_n 100 (pushed "device1" items) /\
   (length kept <= 100)%nat /\
   ((100 < length (pushed "device1" items))%nat ->
    length kept = 100%nat /\
    kept = drop (length (pushed "device1" items) - 100)
             (pushed "device1" items))) /\
  (100 < length (pushed "device1" (replicate 205 ("device1", healthy_snapshot))))%nat /\
  (let items := replicate 1005 ("device1", sample_at 0) in
   let kept :=
     default []
       (metrics_history (record_metrics items fixture_sys) !! "device1") in
   kept = last_n 1000 (pushed "device1" items) /\
   (length kept <= 1000)%nat /\
   ((1000 < length (pushed "device1" items))%nat ->
    length kept = 1000%nat /\
    kept = drop (length (pushed "device1" items) - 1000)
             (pushed "device1" items))) /\
  (1000 < length (pushed "device1" (replicate 1005 ("device1", sample_at 0))))%nat.
Proof.
  split_and!.
  - apply (proj1 (proj2 (histories_bounded fixture_sys "device1"))
             (replicate 205 ("device1", healthy_snapshot))).
    reflexivity.
  - vm_compute. lia.
  - apply (proj2 (proj2 (proj2 (histories_bounded fixture_sys "device1")))
             (replicate 1005 ("device1", sample_at 0))).
    reflexivity.
  - vm_compute. lia.
Defined.

(** *** HealthMonitor *)

(** The comparison [check_device_health] makes: every threshold of the table
    is an upper bound, for every metric that is present. *)
Lemma any_above_alert_thresholds (h : DeviceHealth) :
  any_above h alert_thresholds =
  Ok (Qltb 90.0 (cpu_usage h) || Qltb 90.0 (memory_usage h) ||
      from_option (Qltb 15.0) false (battery_level h) ||
      from_option (Qltb 45.0) false (temperature h) ||
      Qltb 30.0 (connection_strength h)).
Proof.
  unfold alert_thresholds. simpl.
  destruct (Qltb 90.0 (cpu_usage h)); [reflexivity|].
  destruct (Qltb 90.0 (memory_usage h)); [reflexivity|].
  destruct (battery_level h) as [b|]; simpl;
    [destruct (Qltb 15.0 b); [reflexivity|]|];
    (destruct (temperature h) as [t|]; simpl;
       [destruct (Qltb 45.0 t); [reflexivity|]|];
       destruct (Qltb 30.0 (connection_strength h)); reflexivity).
Qed.

Lemma check_device_health_unknown (s : Sys) (id : string) :
  pool_devices s !! id = None ->
  check_device_health id s =
    (Raise (Exn DeviceError ("Device " +:+ id +:+ " not found")), s).
Proof.
  intros Hnone. unfold check_device_health, bind, get_device, gets.
  rewrite Hnone. reflexivity.
Qed.

(** A failed metrics read: the error snapshot is returned and only the call
    is recorded. *)
Lemma check_device_health_raise (s : Sys) (id : string) (d : Device) (e : exn) :
  pool_devices s !! id = Some d ->
  get_metrics d = Raise e ->
  check_device_health id s =
    (Ok (error_health id e), set_calls (fun l => l ++ [CallGetMetrics id]) s).
Proof.
  intros Hd He. unfold check_device_health, bind, get_device, gets.
  rewrite Hd. unfold try_except, call_backend, ret. rewrite He. reflexivity.
Qed.

(** A metrics read that returns the three mandatory keys. *)
Lemma check_device_health_ok (s : Sys) (id : string) (d : Device)
    (m : gmap string Q) (cpu mem conn : Q) :
  pool_devices s !! id = Some d ->
  get_metrics d = Ok m ->
  m !! "cpu_usage" = Some cpu ->
  m !! "memory_usage" = Some mem ->
  m !! "connection_strength" = Some conn ->
  let above :=
    Qltb 90.0 cpu || Qltb 90.0 mem ||
    from_option (Qltb 15.0) false (m !! "battery_level") ||
    from_option (Qltb 45.0) false (m !! "temperature") ||
    Qltb 30.0 conn in
  let h :=
    {| device_id := id; cpu_usage := cpu; memory_usage := mem;
       battery_level := m !! "battery_level";
       temperature := m !! "temperature";
       connection_strength := conn; last_error := None;
       status := if above then "warning" else "healthy" |} in
  check_device_health id s =
    (Ok h,
     set_health_history (push_history 100 id h)
       (set_calls (fun l => l ++ [CallGetMetrics id]) s)).
Proof.
  intros Hd Hm Hcpu Hmem Hconn above h.
  unfold check_device_health, bind, get_device, gets.
  rewrite Hd. unfold try_except, call_backend, subscript, lift, ret.
  rewrite Hm, Hcpu, Hmem, Hconn.
  rewrite any_above_alert_thresholds.
  cbn [cpu_usage memory_usage battery_level temperature connection_strength].
  fold above. unfold _update_health_history, modify.
  subst h. destruct above; reflexivity.
Qed.

(** The health check never touches the pool, the recovery counters or the
    profiles. *)
Lemma check_device_health_frame (s : Sys) (id : string) :
  let s' := snd (check_device_health id s) in
  pool_devices s' = pool_devices s /\
  pool_listing s' = pool_listing s /\
  recovery_attempts s' = recovery_attempts s /\
  max_attempts s' = max_attempts s /\
  metrics_history s' = metrics_history s /\
  profiles s' = profiles s.
Proof.
  unfold check_device_health, bind, get_device, gets.
  destruct (pool_devices s !! id) as [d|]; [|simpl; by_cases_adv].
  unfold try_except, call_backend, subscript, lift, ret, raise.
  destruct (get_metrics d) as [m|e]; [|simpl; by_cases_adv].
  destruct (m !! "cpu_usage"); [|simpl; by_cases_adv].
  destruct (m !! "memory_usage"); [|simpl; by_cases_adv].
  destruct (m !! "connection_strength"); [|simpl; by_cases_adv].
  rewrite any_above_alert_thresholds.
  match goal with |- context [if ?b then _ else _] => destruct b end;
    simpl; by_cases_adv.
Qed.

(** X18.  The rule the code implements: a successful read is classified
    "warning" exactly when some present metric is above its entry of the
    table. *)
Lemma check_device_health_warning_iff (s : Sys) (id : string) (d : Device)
    (m : gmap string Q) (cpu mem conn : Q) :
  pool_devices s !! id = Some d ->
  get_metrics d = Ok m ->
  m !! "cpu_usage" = Some cpu ->
  m !! "memory_usage" = Some mem ->
  m !! "connection_strength" = Some conn ->
  exists h,
    fst (check_device_health id s) = Ok h /\
    (status h = "warning" \/ status h = "healthy") /\
    (status h = "warning" <->
     (90.0 < cpu)%Q \/ (90.0 < mem)%Q \/
     (exists b, m !! "battery_level" = Some b /\ (15.0 < b)%Q) \/
     (exists t, m !! "temperature" = Some t /\ (45.0 < t)%Q) \/
     (30.0 < conn)%Q).
Proof.
  intros Hd Hm Hcpu Hmem Hconn.
  rewrite (check_device_health_ok s id d m cpu mem conn Hd Hm Hcpu Hmem Hconn).
  eexists. split; [reflexivity|]. cbn [status].
  destruct (Qltb 90.0 cpu) eqn:E1; simpl.
  { apply Qltb_lt in E1. split; [auto|]. split; auto. }
  destruct (Qltb 90.0 mem) eqn:E2; simpl.
  { apply Qltb_lt in E2. split; [auto|]. split; auto. }
  apply Qltb_ge in E1. apply Qltb_ge in E2.
  assert (Hb : from_option (Qltb 15.0) false (m !! "battery_level") = true <->
               exists b, m !! "battery_level" = Some b /\ (15.0 < b)%Q).
  { destruct (m !! "battery_level") as [b|]; simpl.
    - rewrite Qltb_lt. split; [eauto|]. intros (b' & [= <-] & H). exact H.
    - split; [discriminate|]. intros (b' & Hb' & _). discriminate. }
  assert (Ht : from_option (Qltb 45.0) false (m !! "temperature") = true <->
               exists t, m !! "temperature" = Some t /\ (45.0 < t)%Q).
  { destruct (m !! "temperature") as [t|]; simpl.
    - rewrite Qltb_lt. split; [eauto|]. intros (t' & [= <-] & H). exact H.
    - split; [discriminate|]. intros (t' & Ht' & _). discriminate. }
  destruct (from_option (Qltb 15.0) false (m !! "battery_level")); simpl.
  { split; [auto|]. split; [|reflexivity]. intros _.
    right; right; left. apply Hb. reflexivity. }
  destruct (from_option (Qltb 45.0) false (m !! "temperature")); simpl.
  { split; [auto|]. split; [|reflexivity]. intros _.
    right; right; right; left. apply Ht. reflexivity. }
  destruct (Qltb 30.0 conn) eqn:E5.
  { apply Qltb_lt in E5. split; [auto|]. split; auto 10. }
  apply Qltb_ge in E5. split; [auto|]. split; [discriminate|].
  intros [H|[H|[H|[H|H]]]].
  - exfalso. exact (Qlt_not_le _ _ H E1).
  - exfalso. exact (Qlt_not_le _ _ H E2).
  - apply Hb in H. discriminate.
  - apply Ht in H. discriminate.
  - exfalso. exact (Qlt_not_le _ _ H E5).
Qed.

(** C1 (the code departs from the claim).  [check_device_health] compares
    every present metric with [>]: the fixture of the tests (battery 80,
    connection strength 90, nothing else near its threshold) is classified
    "warning", and a device with battery 10 and connection strength 20 is
    classified "healthy". *)
Theorem check_device_health_floors_as_ceilings :
  fst (check_device_health "device1" fixture_sys) =
    Ok {| device_id := "device1"; cpu_usage := 50.0%Q; memory_usage := 60.0%Q;
          battery_level := Some 80.0%Q; temperature := Some 35.0%Q;
          connection_strength := 90.0%Q; last_error := None;
          status := "warning" |} /\
  fst (check_device_health "device1" drained_sys) =
    Ok {| device_id := "device1"; cpu_usage := 50.0%Q; memory_usage := 60.0%Q;
          battery_level := Some 10.0%Q; temperature := Some 35.0%Q;
          connection_strength := 20.0%Q; last_error := None;
          status := "healthy" |}.
Proof. split; vm_compute; reflexivity. Qed.

(** C2 as stated fails: on the device whose metrics read raises an exception
    without a message, the snapshot returned has an empty [last_error] and
    the health history of the device stays empty. *)
Lemma failed_read_not_recorded :
  pool_devices unreadable_sys !! "device1" = Some unreadable_device /\
  get_metrics unreadable_device = Raise silent_failure /\
  fst (check_device_health "device1" unreadable_sys) =
    Ok (error_health "device1" silent_failure) /\
  last_error (error_health "device1" silent_failure) = Some "" /\
  health_history (snd (check_device_health "device1" unreadable_sys))
    !! "device1" = None /\
  ~ (exists h : DeviceHealth,
       fst (check_device_health "device1" unreadable_sys) = Ok h /\
       (exists msg, last_error h = Some msg /\ msg <> "") /\
       (exists older,
          health_history (snd (check_device_health "device1" unreadable_sys))
            !! "device1" = Some (older ++ [h]))).
Proof.
  split_and!; try reflexivity.
  intros (h & _ & _ & older & Hhist).
  vm_compute in Hhist. discriminate.
Qed.

(** C2, amended.  When the metrics read of a registered device raises,
    [check_device_health] returns (it does not raise) a snapshot with status
    "error", [cpu_usage], [memory_usage] and [connection_strength] 0.0, no
    battery level or temperature, and [last_error] the text of the exception;
    the snapshot is not recorded: the health history is left as it was. *)
Theorem check_device_health_failed_read (s : Sys) (id : string) (d : Device)
    (e : exn) :
  pool_devices s !! id = Some d ->
  get_metrics d = Raise e ->
  exists h : DeviceHealth,
    fst (check_device_health id s) = Ok h /\
    status h = "error" /\
    cpu_usage h = 0.0%Q /\ memory_usage h = 0.0%Q /\
    connection_strength h = 0.0%Q /\
    battery_level h = None /\ temperature h = None /\
    last_error h = Some (exn_str e) /\
    health_history (snd (check_device_health id s)) = health_history s.
Proof.
  intros Hd He. rewrite (check_device_health_raise s id d e Hd He).
  exists (error_health id e). split_and!; reflexivity.
Qed.

Lemma check_device_health_failed_read_witness :
  exists h : DeviceHealth,
    fst (check_device_health "device1" unreadable_sys) = Ok h /\
    status h = "error" /\
    cpu_usage h = 0.0%Q /\ memory_usage h = 0.0%Q /\
    connection_strength h = 0.0%Q /\
    battery_level h = None /\ temperature h = None /\
    last_error h = Some (exn_str silent_failure) /\
    health_history (snd (check_device_health "device1" unreadable_sys)) =
      health_history unreadable_sys.
Proof.
  apply (check_device_health_failed_read unreadable_sys "device1"
           unreadable_device silent_failure); reflexivity.
Defined.

(** *** AutoRecovery *)

(** [_attempt_recovery] on a registered device: the calls it makes are the
    wanted actions up to the first that raises; it raises exactly when one
    of them does; it changes nothing but the record of calls. *)
Lemma _attempt_recovery_run (s : Sys) (id : string) (d : Device)
    (h : DeviceHealth) :
  pool_devices s !! id = Some d ->
  let r := _attempt_recovery id h s in
  let actions := wanted_actions id d h in
  calls (snd r) = calls s ++ fired actions /\
  recovery_attempts (snd r) = recovery_attempts s /\
  max_attempts (snd r) = max_attempts s /\
  (Forall (fun a => a.2 = Ok tt) actions ->
   fst r = Ok tt /\ fired actions = actions.*1) /\
  (Exists (fun a => exists e, a.2 = Raise e) actions ->
   exists e, fst r = Raise e).
Proof.
  intros Hd. unfold _attempt_recovery, wanted_actions, bind, get_device, gets.
  rewrite Hd. unfold call_backend, ret.
  destruct (Qltb 90 (cpu_usage h) || Qltb 90 (memory_usage h));
    destruct (Qltb (connection_strength h) 30);
    destruct (String.eqb (status h) "error");
    destruct (restart_apps d) as [[]|e1];
    destruct (reconnect d) as [[]|e2];
    destruct (reboot d) as [[]|e3];
    cbn -[Qltb];
    (split; [rewrite <- ?app_assoc; try rewrite app_nil_r; reflexivity|]);
    (split; [reflexivity|]); (split; [reflexivity|]);
    (split;
     [ intros Hall; repeat (apply Forall_cons in Hall as [? Hall]);
       try discriminate; split; reflexivity
     | intros Hex;
       repeat (apply Exists_cons in Hex as [(? & ?)|Hex]; try discriminate);
       try (apply Exists_nil in Hex; contradiction); eauto ]).
Qed.

(** For an id the pool does not resolve, the [DeviceError] of the health
    check leaves [check_and_recover] uncaught. *)
Lemma check_and_recover_unknown (s : Sys) (id : string) :
  pool_devices s !! id = None ->
  check_and_recover id s =
    (Raise (Exn DeviceError ("Device " +:+ id +:+ " not found")), s).
Proof.
  intros Hnone. unfold check_and_recover, bind.
  rewrite (check_device_health_unknown s id Hnone). reflexivity.
Qed.

(** C3 as stated fails: on the device under load whose [restart_apps]
    raises, [check_and_recover] returns [False] and leaves the counter of the
    device where it was (no entry, read as 0); the attempt is not counted. *)
Lemma failed_recovery_not_counted :
  pool_devices stuck_sys !! "device1" = Some stuck_device /\
  restart_apps stuck_device = Raise (Exn BackendError "restart failed") /\
  attempts_of "device1" stuck_sys = 0 /\
  (attempts_of "device1" stuck_sys < max_attempts stuck_sys) /\
  fst (check_and_recover "device1" stuck_sys) = Ok false /\
  calls (snd (check_and_recover "device1" stuck_sys)) =
    [CallGetMetrics "device1"; CallRestartApps "device1"] /\
  recovery_attempts (snd (check_and_recover "device1" stuck_sys)) !! "device1"
    = None /\
  ~ (attempts_of "device1" (snd (check_and_recover "device1" stuck_sys)) =
     attempts_of "device1" stuck_sys + 1).
Proof.
  split_and!; try reflexivity. vm_compute. discriminate.
Qed.

(** C3, amended.  For a registered device whose health check returns the
    snapshot [h]: if [h] is "healthy" the counter of the device is set to 0
    and the result is [True], with no recovery call; otherwise, if the
    counter has reached [max_attempts] the result is [False], with no
    recovery call and no change of the counters; otherwise the matching
    actions (restart applications when cpu or memory usage is above 90,
    reconnect when the connection strength is below 30, reboot when the
    status is "error") are issued in this order until one raises: when none
    raises every matching action has been issued, the counter is incremented
    and the result is [True]; when one raises the later ones are skipped, the
    result is [False] and the counters are left as they were. *)
Theorem check_and_recover_cases (s s1 : Sys) (id : string) (d : Device)
    (h : DeviceHealth) :
  pool_devices s !! id = Some d ->
  check_device_health id s = (Ok h, s1) ->
  let r := check_and_recover id s in
  let actions := wanted_actions id d h in
  (status h = "healthy" ->
   fst r = Ok true /\
   recovery_attempts (snd r) = <[id := 0]> (recovery_attempts s) /\
   calls (snd r) = calls s1) /\
  (status h <> "healthy" ->
   max_attempts s <= attempts_of id s ->
   fst r = Ok false /\
   recovery_attempts (snd r) = recovery_attempts s /\
   calls (snd r) = calls s1) /\
  (status h <> "healthy" ->
   attempts_of id s < max_attempts s ->
   calls (snd r) = calls s1 ++ fired actions /\
   (Forall (fun a => a.2 = Ok tt) actions ->
    fst r = Ok true /\
    fired actions = actions.*1 /\
    recovery_attempts (snd r) =
      <[id := attempts_of id s + 1]> (recovery_attempts s)) /\
   (Exists (fun a => exists e, a.2 = Raise e) actions ->
    fst r = Ok false /\
    recovery_attempts (snd r) = recovery_attempts s)).
Proof.
  intros Hd Hcheck r actions.
  pose proof (check_device_health_frame s id) as Hframe.
  cbv zeta in Hframe. rewrite Hcheck in Hframe. cbn [snd] in Hframe.
  destruct Hframe as (Hpool & _ & Hrec & Hmax & _).
  assert (Hatt : attempts_of id s1 = attempts_of id s).
  { unfold attempts_of. rewrite Hrec. reflexivity. }
  assert (Hd1 : pool_devices s1 !! id = Some d) by (rewrite Hpool; exact Hd).
  pose proof (_attempt_recovery_run s1 id d h Hd1) as Hrun.
  cbv zeta in Hrun. fold actions in Hrun.
  destruct Hrun as (Hcalls & Hrec2 & Hmax2 & Hall & Hex).
  subst r. unfold check_and_recover, bind. rewrite Hcheck.
  destruct (String.eqb (status h) "healthy") eqn:Hst.
  { apply String.eqb_eq in Hst. unfold modify, ret. cbn.
    rewrite Hrec. split_and!; try reflexivity; intros; try contradiction;
      split_and!; try reflexivity. }
  apply String.eqb_neq in Hst. unfold gets. rewrite Hatt, Hmax.
  destruct (Z.leb_spec (max_attempts s) (attempts_of id s)) as [Hle|Hlt].
  { unfold ret. cbn. split_and!.
    - intros; contradiction.
    - intros _ _. rewrite Hrec. split_and!; reflexivity.
    - intros _ Hlt. lia. }
  unfold try_except.
  destruct (_attempt_recovery id h s1) as [[[]|e] s2] eqn:Hrecover;
    cbn [fst snd] in *.
  - unfold modify, ret. cbn.
    assert (Hatt2 : attempts_of id s2 = attempts_of id s).
    { unfold attempts_of. rewrite Hrec2, Hrec. reflexivity. }
    rewrite Hatt2, Hrec2, Hrec.
    split_and!.
    + intros; contradiction.
    + intros _ Hge. lia.
    + intros _ _. split_and!.
      * exact Hcalls.
      * intros Hok. destruct (Hall Hok) as [_ Hfired].
        split_and!; [reflexivity | exact Hfired | reflexivity].
      * intros Hraise. destruct (Hex Hraise) as [e He]. discriminate.
  - unfold ret. cbn. rewrite Hrec2, Hrec.
    split_and!.
    + intros; contradiction.
    + intros _ Hge. lia.
    + intros _ _. split_and!.
      * exact Hcalls.
      * intros Hok. destruct (Hall Hok) as [Hres _]. discriminate.
      * intros _. split; reflexivity.
Qed.

Lemma check_and_recover_cases_witness :
  (fst (check_and_recover "device1" drained_sys) = Ok true /\
   recovery_attempts (snd (check_and_recover "device1" drained_sys)) =
     <["device1" := 0]> (recovery_attempts drained_sys) /\
   calls (snd (check_and_recover "device1" drained_sys)) =
     calls (snd (check_device_health "device1" drained_sys))) /\
  (fst (check_and_recover "device1" exhausted_sys) = Ok false /\
   recovery_attempts (snd (check_and_recover "device1" exhausted_sys)) =
     recovery_attempts exhausted_sys /\
   calls (snd (check_and_recover "device1" exhausted_sys)) =
     calls (snd (check_device_health "device1" exhausted_sys))) /\
  (fst (check_and_recover "device1" overloaded_sys) = Ok true /\
   fired (wanted_actions "device1" (device_with (Ok overloaded_metrics))
            overloaded_snapshot) =
     [CallRestartApps "device1"; CallReconnect "device1"] /\
   recovery_attempts (snd (check_and_recover "device1" overloaded_sys)) =
     <["device1" := attempts_of "device1" overloaded_sys + 1]>
       (recovery_attempts overloaded_sys)) /\
  (fst (check_and_recover "device1" stuck_sys) = Ok false /\
   recovery_attempts (snd (check_and_recover "device1" stuck_sys)) =
     recovery_attempts stuck_sys).
Proof.
  split; [|split; [|split]].
  - apply (proj1 (check_and_recover_cases drained_sys
                    (snd (check_device_health "device1" drained_sys))
                    "device1" (device_with (Ok drained_metrics))
                    drained_snapshot eq_refl eq_refl)).
    reflexivity.
  - apply (proj1 (proj2 (check_and_recover_cases exhausted_sys
                    (snd (check_device_health "device1" exhausted_sys))
                    "device1" (device_with (Ok overloaded_metrics))
                    overloaded_snapshot eq_refl eq_refl)));
      [discriminate | vm_compute; discriminate].
  - apply (proj2 (proj2 (check_and_recover_cases overloaded_sys
                    (snd (check_device_health "device1" overloaded_sys))
                    "device1" (device_with (Ok overloaded_metrics))
                    overloaded_snapshot eq_refl eq_refl)));
      [discriminate | reflexivity |].
    repeat constructor.
  - apply (proj2 (proj2 (check_and_recover_cases stuck_sys
                    (snd (check_device_health "device1" stuck_sys))
                    "device1" stuck_device
                    overloaded_snapshot eq_refl eq_refl)));
      [discriminate | reflexivity |].
    apply Exists_cons_hd. eexists. reflexivity.
Defined.

(** *** BatchOperationManager *)

(** What the task of one device produces is decided by the handle the pool
    resolves for that device, and the task changes nothing but the record of
    calls. *)
Lemma _execute_single_operation_run (s : Sys) (id op : string)
    (params : Params) :
  let r := _execute_single_operation id op params s in
  fst r =
    match pool_devices s !! id with
    | None => Raise (Exn DeviceError ("Device " +:+ id +:+ " not found"))
    | Some d =>
        match operation d op params with
        | Ok v => Ok (Success v)
        | Raise e =>
            Raise (Exn OperationError
                     ("Operation " +:+ op +:+ " failed: " +:+ exn_str e))
        end
    end /\
  pool_devices (snd r) = pool_devices s /\
  pool_listing (snd r) = pool_listing s.
Proof.
  unfold _execute_single_operation, bind, get_device, gets.
  destruct (pool_devices s !! id) as [d|]; [|simpl; by_cases_adv].
  unfold try_except, call_backend, ret, raise.
  destruct (operation d op params); simpl; by_cases_adv.
Qed.

Lemma _execute_single_operation_pool (s1 s2 : Sys) (id op : string)
    (params : Params) :
  pool_devices s1 !! id = pool_devices s2 !! id ->
  fst (_execute_single_operation id op params s1) =
  fst (_execute_single_operation id op params s2).
Proof.
  intros Heq.
  destruct (_execute_single_operation_run s1 id op params) as (-> & _).
  destruct (_execute_single_operation_run s2 id op params) as (-> & _).
  rewrite Heq. reflexivity.
Qed.

(** The first loop: one future per requested id, each holding what the task
    of that id produces. *)
Lemma submit_all_run (devices : list string) (op : string) (params : Params)
    (s : Sys) :
  exists s',
    submit_all devices op params s =
      (Ok (map (fun id => (id, fst (_execute_single_operation id op params s)))
             devices), s') /\
    pool_devices s' = pool_devices s /\
    pool_listing s' = pool_listing s.
Proof.
  revert s. induction devices as [|id devices IH]; intros s.
  - exists s. simpl. by_cases_adv.
  - simpl. unfold bind, submit.
    destruct (_execute_single_operation_run s id op params)
      as (_ & Hpool & Hlist).
    destruct (_execute_single_operation id op params s) as [r s1] eqn:Hrun.
    cbn [fst snd] in *.
    destruct (IH s1) as (s' & Hsub & Hpool' & Hlist').
    rewrite Hsub. exists s'. unfold ret. split; [|split; congruence].
    f_equal. f_equal. f_equal.
    apply map_ext. intros id'. f_equal.
    apply _execute_single_operation_pool. rewrite Hpool. reflexivity.
Qed.

(** The second loop: an id that was requested gets the entry of its future,
    any other id keeps what the dictionary held. *)
Lemma collect_results_lookup (f : string -> Outcome BatchEntry)
    (devices : list string) (results : gmap string BatchEntry) (id : string) :
  collect_results (map (fun id => (id, f id)) devices) results !! id =
  if decide (id ∈ devices) then Some (future_entry (f id)) else results !! id.
Proof.
  revert results. induction devices as [|id' devices IH]; intros results.
  - cbn [map collect_results].
    destruct (decide (id ∈ [])) as [Hin|_]; [|reflexivity].
    apply not_elem_of_nil in Hin. contradiction.
  - cbn [map collect_results]. rewrite IH.
    destruct (decide (id ∈ devices)) as [Hin|Hnin];
      destruct (decide (id ∈ id' :: devices)) as [Hin'|Hnin'].
    + reflexivity.
    + exfalso. apply Hnin'. right. exact Hin.
    + apply elem_of_cons in Hin' as [->|Hin']; [|contradiction].
      apply lookup_insert_eq.
    + apply lookup_insert_ne. intros ->. apply Hnin'. left.
Qed.

Lemma execute_batch_run (s : Sys) (op : string) (params : Params)
    (devices : option (list string)) :
  exists results s',
    execute_batch op params devices s = (Ok results, s') /\
    (forall id,
       results !! id =
       if decide (id ∈ default (pool_listing s) devices)
       then Some (future_entry (fst (_execute_single_operation id op params s)))
       else None) /\
    pool_devices s' = pool_devices s /\
    pool_listing s' = pool_listing s.
Proof.
  unfold execute_batch, bind.
  set (requested := default (pool_listing s) devices).
  assert (Hreq : (match devices with
                  | Some devices0 => ret devices0
                  | None => list_devices
                  end) s = (Ok requested, s)).
  { subst requested. destruct devices; reflexivity. }
  rewrite Hreq.
  destruct (submit_all_run requested op params s) as (s' & Hsub & Hpool & Hlist).
  rewrite Hsub. unfold ret.
  eexists. exists s'. split; [reflexivity|]. split; [|split; assumption].
  intros id.
  rewrite (collect_results_lookup
             (fun id => fst (_execute_single_operation id op params s))).
  destruct (decide (id ∈ requested)); [reflexivity|apply lookup_empty].
Qed.

(** C5. [execute_batch] returns a dictionary whose keys are exactly the
    requested ids (the ids [list_devices()] gives when no list is passed),
    hence one entry per requested id.  The entry of an id is decided by that
    id's own handle: an id the pool does not know gets the error entry
    "Device <id> not found"; a device whose operation raises gets an error
    entry with the text of the failure; a device whose operation returns
    gets a success entry with the result; so the entry of an id is the same
    in any pool that resolves this id to the same handle, whatever the other
    devices do.  The pool ends as it started. *)
Theorem execute_batch_entries (s : Sys) (op : string) (params : Params)
    (devices : option (list string)) :
  let requested := default (pool_listing s) devices in
  exists results s',
    execute_batch op params devices s = (Ok results, s') /\
    (forall id, is_Some (results !! id) <-> id ∈ requested) /\
    (NoDup requested -> size results = length requested) /\
    (forall id,
       id ∈ requested -> pool_devices s !! id = None ->
       results !! id = Some (Error ("Device " +:+ id +:+ " not found"))) /\
    (forall id d e,
       id ∈ requested -> pool_devices s !! id = Some d ->
       operation d op params = Raise e ->
       results !! id =
         Some (Error ("Operation " +:+ op +:+ " failed: " +:+ exn_str e)) /\
       entry_status (Error ("Operation " +:+ op +:+ " failed: " +:+ exn_str e))
         = "error") /\
    (forall id d v,
       id ∈ requested -> pool_devices s !! id = Some d ->
       operation d op params = Ok v ->
       results !! id = Some (Success v)) /\
    (forall (other : Sys) id results2 s2,
       id ∈ requested ->
       pool_devices other !! id = pool_devices s !! id ->
       execute_batch op params (Some requested) other = (Ok results2, s2) ->
       results2 !! id = results !! id) /\
    pool_devices s' = pool_devices s /\
    pool_listing s' = pool_listing s.
Proof.
  intros requested.
  destruct (execute_batch_run s op params devices)
    as (results & s' & Hrun & Hlook & Hpool & Hlist).
  fold requested in Hlook.
  exists results, s'. split; [exact Hrun|].
  assert (Hkeys : forall id, is_Some (results !! id) <-> id ∈ requested).
  { intros id. rewrite Hlook. destruct (decide (id ∈ requested)) as [Hin|Hnin].
    - split; [intros _; exact Hin | eauto].
    - split; [intros [x Hx]; discriminate | contradiction]. }
  split; [exact Hkeys|].
  split.
  { intros Hnodup.
    rewrite <- size_dom.
    replace (dom results) with (list_to_set requested : gset string).
    - apply size_list_to_set. exact Hnodup.
    - apply set_eq. intros id.
      rewrite elem_of_list_to_set, elem_of_dom. symmetry. apply Hkeys. }
  split.
  { intros id Hin Hnone. rewrite Hlook, decide_True by exact Hin.
    destruct (_execute_single_operation_run s id op params) as (-> & _).
    rewrite Hnone. reflexivity. }
  split.
  { intros id d e Hin Hd He. split; [|reflexivity].
    rewrite Hlook, decide_True by exact Hin.
    destruct (_execute_single_operation_run s id op params) as (-> & _).
    rewrite Hd, He. reflexivity. }
  split.
  { intros id d v Hin Hd Hv. rewrite Hlook, decide_True by exact Hin.
    destruct (_execute_single_operation_run s id op params) as (-> & _).
    rewrite Hd, Hv. reflexivity. }
  split; [|split; assumption].
  intros other id results2 s2 Hin Hsame Hrun2.
  destruct (execute_batch_run other op params (Some requested))
    as (results2' & s2' & Hrun2' & Hlook2 & _).
  rewrite Hrun2 in Hrun2'. injection Hrun2' as <- <-.
  cbn [default] in Hlook2.
  rewrite Hlook, Hlook2, !decide_True by exact Hin.
  do 2 f_equal. apply _execute_single_operation_pool. exact Hsame.
Qed.

Lemma execute_batch_entries_witness :
  exists results s',
    execute_batch "ping" [] (Some ["d1"; "d2"; "ghost"]) batch_sys =
      (Ok results, s') /\
    size results = 3%nat /\
    results !! "d1" = Some (Success (VStr "pong")) /\
    results !! "d2" = Some (Error "Operation ping failed: Test error") /\
    results !! "ghost" = Some (Error "Device ghost not found") /\
    pool_devices s' = pool_devices batch_sys.
Proof.
  destruct (execute_batch_entries batch_sys "ping" []
              (Some ["d1"; "d2"; "ghost"]))
    as (results & s' & Hrun & _ & Hsize & Hghost & Hraise & Hok & _ & Hpool & _).
  exists results, s'. split; [exact Hrun|].
  split.
  { apply Hsize. cbn [default]. apply (bool_decide_unpack _). reflexivity. }
  split.
  { apply (Hok "d1" answering_device);
      [cbn [default]; repeat constructor | reflexivity | reflexivity]. }
  split.
  { apply (Hraise "d2" raising_device (Exn BackendError "Test error"));
      [cbn [default]; repeat constructor | reflexivity | reflexivity]. }
  split; [|exact Hpool].
  apply (Hghost "ghost"); [cbn [default]; repeat constructor | reflexivity].
Defined.

(** *** ProfileManager *)

Lemma model_in_true (model : Value) (compatibility : list string) :
  model_in model compatibility = true <->
  exists m, model = VStr m /\ m ∈ compatibility.
Proof.
  destruct model as [m| | | |]; simpl;
    try (split; [discriminate | intros (m' & Hm & _); discriminate]).
  rewrite existsb_exists. split.
  - intros (x & Hin & Heq). apply String.eqb_eq in Heq. subst x.
    exists m. split; [reflexivity|]. apply list_elem_of_In. exact Hin.
  - intros (m' & [= <-] & Hin). exists m. split.
    + apply list_elem_of_In. exact Hin.
    + apply String.eqb_refl.
Qed.

(** The calls [apply_settings] makes for a list of items. *)
Lemma apply_settings_all (id : string) (items : list (string * Value)) :
  forall (d : Device) (s : Sys),
    pool_devices s !! id = Some d ->
    Forall (fun item => setattr_raises d item.1 item.2 = None) items ->
    exists s',
      apply_settings id d items s = (Ok tt, s') /\
      calls s' =
        calls s ++ map (fun item => CallSetattr id item.1 item.2) items /\
      attrs <$> pool_devices s' !! id = Some (set_all items (attrs d)).
Proof.
  induction items as [|[k v] items IH]; intros d s Hd Hok.
  - exists s. simpl. rewrite app_nil_r, Hd. by_cases_adv.
  - apply Forall_cons in Hok as [Hkv Hok]. cbn [fst snd] in Hkv.
    cbn [apply_settings]. unfold bind at 1. unfold setattr, bind, call_backend.
    rewrite Hkv. unfold modify, ret.
    set (d1 := set_attrs <[k:=v]> d).
    set (s1 := set_pool_devices _ _).
    destruct (IH d1 s1) as (s' & Hrun & Hcalls & Hattrs).
    { subst s1. cbn. apply lookup_insert_eq. }
    { exact Hok. }
    exists s'. split; [exact Hrun|]. split.
    + rewrite Hcalls. subst s1. cbn. rewrite <- app_assoc. reflexivity.
    + rewrite Hattrs. reflexivity.
Qed.

Lemma apply_settings_stops (id : string) (done : list (string * Value))
    (k : string) (v : Value) (rest : list (string * Value)) (e : exn) :
  forall (d : Device) (s : Sys),
    pool_devices s !! id = Some d ->
    Forall (fun item => setattr_raises d item.1 item.2 = None) done ->
    setattr_raises d k v = Some e ->
    exists s',
      apply_settings id d (done ++ (k, v) :: rest) s = (Raise e, s') /\
      calls s' =
        calls s ++
        map (fun item => CallSetattr id item.1 item.2) (done ++ [(k, v)]) /\
      attrs <$> pool_devices s' !! id = Some (set_all done (attrs d)).
Proof.
  induction done as [|[k0 v0] done IH]; intros d s Hd Hok Hfail.
  - cbn [app apply_settings]. unfold bind at 1.
    unfold setattr, bind, call_backend. rewrite Hfail. unfold raise.
    eexists. split; [reflexivity|]. cbn. rewrite Hd. by_cases_adv.
  - apply Forall_cons in Hok as [Hkv Hok]. cbn [fst snd] in Hkv.
    rewrite <- app_comm_cons. cbn [apply_settings]. unfold bind at 1.
    unfold setattr, bind, call_backend.
    rewrite Hkv. unfold modify, ret.
    set (d1 := set_attrs <[k0:=v0]> d).
    set (s1 := set_pool_devices _ _).
    destruct (IH d1 s1) as (s' & Hrun & Hcalls & Hattrs).
    { subst s1. cbn. apply lookup_insert_eq. }
    { exact Hok. }
    { exact Hfail. }
    exists s'. split; [exact Hrun|]. split.
    + rewrite Hcalls. subst s1. cbn. rewrite <- app_assoc. reflexivity.
    + rewrite Hattrs. reflexivity.
Qed.

(** X29.  [apply_profile] raises [ValueError] ("Profile <name> not found")
    for a name that is not a key of [profiles], and [ValueError] ("Profile <name>
    is not compatible with device <id>") for a registered device whose model
    is no element of the profile's compatibility list; in both cases the
    state is untouched, so no setting has been applied.  For a compatible
    device the settings are applied in order: when none is rejected the
    result is [True] and the device holds all of them; when one is rejected
    the result is [False] (nothing is raised), the later settings are not
    attempted and the settings applied before it stay on the device. *)
Theorem apply_profile_cases (s : Sys) (id name : string) :
  (profiles s !! name = None ->
   apply_profile id name s =
     (Raise (Exn ValueError ("Profile " +:+ name +:+ " not found")), s)) /\
  (forall (profile : DeviceProfile) (d : Device) (model : Value),
     profiles s !! name = Some profile ->
     pool_devices s !! id = Some d ->
     attrs d !! "model" = Some model ->
     (forall m, model = VStr m -> m ∉ compatibility profile) ->
     apply_profile id name s =
       (Raise (Exn ValueError
                 ("Profile " +:+ name +:+ " is not compatible with device "
                  +:+ id)), s)) /\
  (forall (profile : DeviceProfile) (d : Device) (m : string),
     profiles s !! name = Some profile ->
     pool_devices s !! id = Some d ->
     attrs d !! "model" = Some (VStr m) ->
     m ∈ compatibility profile ->
     (Forall (fun item => setattr_raises d item.1 item.2 = None)
        (settings profile) ->
      exists s',
        apply_profile id name s = (Ok true, s') /\
        calls s' =
          calls s ++
          map (fun item => CallSetattr id item.1 item.2) (settings profile) /\
        attrs <$> pool_devices s' !! id =
          Some (set_all (settings profile) (attrs d))) /\
     (forall done k v rest e,
        settings profile = done ++ (k, v) :: rest ->
        Forall (fun item => setattr_raises d item.1 item.2 = None) done ->
        setattr_raises d k v = Some e ->
        exists s',
          apply_profile id name s = (Ok false, s') /\
          calls s' =
            calls s ++
            map (fun item => CallSetattr id item.1 item.2) (done ++ [(k, v)]) /\
          attrs <$> pool_devices s' !! id = Some (set_all done (attrs d)))).
Proof.
  split; [|split].
  - intros Hnone. unfold apply_profile, bind, gets. rewrite Hnone. reflexivity.
  - intros profile d model Hprof Hd Hmodel Hout.
    unfold apply_profile, bind, gets, get_device, gets. rewrite Hprof, Hd.
    unfold device_model. rewrite Hmodel. unfold ret.
    destruct (model_in model (compatibility profile)) eqn:Hin; [|reflexivity].
    apply model_in_true in Hin as (m & -> & Hin).
    exfalso. exact (Hout m eq_refl Hin).
  - intros profile d m Hprof Hd Hmodel Hin.
    assert (Hcompat : model_in (VStr m) (compatibility profile) = true).
    { apply model_in_true. eauto. }
    assert (Hstart :
              apply_profile id name s =
              try_except
                (bind (apply_settings id d (settings profile))
                   (fun _ => ret true))
                (fun _ => ret false) s).
    { unfold apply_profile, bind at 1, gets. rewrite Hprof.
      unfold bind at 1, get_device, gets. rewrite Hd.
      unfold bind at 1, device_model. rewrite Hmodel. unfold ret at 1.
      rewrite Hcompat. reflexivity. }
    split.
    + intros Hok.
      destruct (apply_settings_all id (settings profile) d s Hd Hok)
        as (s' & Hrun & Hcalls & Hattrs).
      exists s'. rewrite Hstart. unfold try_except, bind. rewrite Hrun.
      split; [reflexivity|]. split; assumption.
    + intros done k v rest e Hsplit Hok Hfail.
      destruct (apply_settings_stops id done k v rest e d s Hd Hok Hfail)
        as (s' & Hrun & Hcalls & Hattrs).
      exists s'. rewrite Hstart, Hsplit. unfold try_except, bind. rewrite Hrun.
      split; [reflexivity|]. split; assumption.
Qed.

Lemma apply_profile_cases_witness :
  apply_profile "device1" "non_existent" profile_sys =
    (Raise (Exn ValueError "Profile non_existent not found"), profile_sys) /\
  apply_profile "device1" "other_profile" profile_sys =
    (Raise (Exn ValueError
              "Profile other_profile is not compatible with device device1"),
     profile_sys) /\
  (exists s',
     apply_profile "device1" "test_profile" profile_sys = (Ok true, s') /\
     calls s' =
       [CallSetattr "device1" "brightness" (VInt 50);
        CallSetattr "device1" "locked" (VBool true);
        CallSetattr "device1" "volume" (VInt 3)] /\
     attrs <$> pool_devices s' !! "device1" =
       Some (set_all test_settings (attrs fixture_device))) /\
  (exists s',
     apply_profile "device2" "test_profile" profile_sys = (Ok false, s') /\
     calls s' =
       [CallSetattr "device2" "brightness" (VInt 50);
        CallSetattr "device2" "locked" (VBool true)] /\
     attrs <$> pool_devices s' !! "device2" =
       Some (set_all [("brightness", VInt 50)] (attrs picky_device))).
Proof.
  split; [|split; [|split]].
  - apply (proj1 (apply_profile_cases profile_sys "device1" "non_existent")).
    reflexivity.
  - apply (proj1 (proj2 (apply_profile_cases profile_sys "device1"
                           "other_profile"))
             {| profile_name := "other_profile"; settings := test_settings;
                compatibility := ["other_model"]; performance_targets := ∅ |}
             fixture_device (VStr "test_model"));
      [reflexivity | reflexivity | reflexivity |].
    intros m [= <-] Hin.
    apply list_elem_of_singleton in Hin. discriminate.
  - apply (proj1 (proj2 (proj2 (apply_profile_cases profile_sys "device1"
                                  "test_profile"))
                    {| profile_name := "test_profile";
                       settings := test_settings;
                       compatibility := ["test_model"];
                       performance_targets := ∅ |}
                    fixture_device "test_model"
                    eq_refl eq_refl eq_refl (list_elem_of_here _ _))).
    repeat constructor.
  - apply (proj2 (proj2 (proj2 (apply_profile_cases profile_sys "device2"
                                  "test_profile"))
                    {| profile_name := "test_profile";
                       settings := test_settings;
                       compatibility := ["test_model"];
                       performance_targets := ∅ |}
                    picky_device "test_model"
                    eq_refl eq_refl eq_refl (list_elem_of_here _ _))
             [("brightness", VInt 50)] "locked" (VBool true)
             [("volume", VInt 3)] (Exn AttributeError "can't set attribute"));
      [reflexivity | repeat constructor | reflexivity].
Defined.

(** C7 (the code departs from the claim).  [apply_profile] tests
    [device.model not in profile.compatibility], the membership of the model
    in the list, and matches no pattern: with the profile of
    examples/advanced_device_management.py, whose compatibility list is
    ["iPhone.*", "Pixel.*"], a registered device of model "Pixel 7", which
    the second pattern matches and which accepts every setting, is refused
    as incompatible and gets no setting.  The same profile applies in full
    once the list holds the model itself. *)
Theorem apply_profile_ignores_patterns :
  attrs pixel_device !! "model" = Some (VStr "Pixel 7") /\
  apply_profile "pixel7" "high_performance"
    (pixel_sys ["iPhone.*"; "Pixel.*"]) =
    (Raise (Exn ValueError
              "Profile high_performance is not compatible with device pixel7"),
     pixel_sys ["iPhone.*"; "Pixel.*"]) /\
  calls (snd (apply_profile "pixel7" "high_performance"
                (pixel_sys ["iPhone.*"; "Pixel.*"]))) = [] /\
  fst (apply_profile "pixel7" "high_performance"
         (pixel_sys ["iPhone.*"; "Pixel 7"])) = Ok true /\
  calls (snd (apply_profile "pixel7" "high_performance"
                (pixel_sys ["iPhone.*"; "Pixel 7"]))) =
    [CallSetattr "pixel7" "performance_mode" (VBool true);
     CallSetattr "pixel7" "cpu_governor" (VStr "performance");
     CallSetattr "pixel7" "keep_alive" (VBool true)].
Proof. split_and!; reflexivity. Qed.

(** *** PerformanceProfiler *)

(** [_collect_metrics] always returns a sample; it leaves the histories
    alone and does not sleep. *)
Lemma _collect_metrics_total (s : Sys) (id : string) :
  exists (m : PerformanceMetrics) (s' : Sys),
    _collect_metrics id s = (Ok m, s') /\
    pm_device_id m = id /\
    metrics_history s' = metrics_history s /\
    pool_devices s' = pool_devices s /\
    (forall c, c ∈ calls s' -> c ∈ calls s \/ c = CallPing id \/
                               c = CallGetMetrics id).
Proof.
  unfold _collect_metrics, bind, get_device, gets, time_time, try_except.
  assert (Hin1 : forall (l : list Call) c x,
            c ∈ l ++ [x] -> c ∈ l \/ c = x).
  { intros l c x Hc. apply elem_of_app in Hc as [Hc|Hc]; [auto|].
    apply list_elem_of_singleton in Hc. auto. }
  destruct (pool_devices s !! id) as [d|]; cbn -[Qminus].
  - unfold call_backend. destruct (ping d) as [v|e]; cbn -[Qminus].
    + destruct (get_metrics d) as [metrics|e]; cbn -[Qminus].
      * unfold subscript.
        destruct (metrics !! "throughput") as [th|]; cbn -[Qminus];
          [destruct (metrics !! "error_rate") as [er|]; cbn -[Qminus]|];
          (eexists; eexists; split; [reflexivity|];
           split; [reflexivity|]; split; [reflexivity|];
           split; [reflexivity|];
           intros c Hc; cbn in Hc;
           apply Hin1 in Hc as [Hc|Hc]; [|auto];
           apply Hin1 in Hc as [Hc|Hc]; auto).
      * eexists; eexists; split; [reflexivity|];
          split; [reflexivity|]; split; [reflexivity|];
          split; [reflexivity|].
        intros c Hc; cbn in Hc.
        apply Hin1 in Hc as [Hc|Hc]; [|auto].
        apply Hin1 in Hc as [Hc|Hc]; auto.
    + eexists; eexists; split; [reflexivity|];
        split; [reflexivity|]; split; [reflexivity|]; split; [reflexivity|].
      intros c Hc; cbn in Hc. apply Hin1 in Hc as [Hc|Hc]; auto.
  - eexists; eexists; split; [reflexivity|];
      split; [reflexivity|]; split; [reflexivity|]; split; [reflexivity|].
    intros c Hc; cbn in Hc. auto.
Qed.

(** [asyncio] is not a name of the module: the sleep of the profiling loop
    raises [NameError] and records nothing. *)
Lemma asyncio_sleep_raises (seconds : Z) (s : Sys) :
  asyncio_sleep seconds s =
    (Raise (Exn NameError "name 'asyncio' is not defined"), s).
Proof. reflexivity. Qed.

(** One entry of the loop of [start_profiling] is the last: the sample is
    collected and recorded, then the sleep raises. *)
Lemma profiling_loop_entered (fuel : nat) (s : Sys) (id : string)
    (start_time : Q) (duration : Z) (acc : list PerformanceMetrics) :
  (clock s (ticks s) - start_time < inject_Z duration)%Q ->
  exists (m : PerformanceMetrics) (s' : Sys),
    profiling_loop (S fuel) id start_time duration acc s =
      (Raise (Exn NameError "name 'asyncio' is not defined"), s') /\
    pm_device_id m = id /\
    metrics_history s' = push_history 1000 id m (metrics_history s) /\
    (forall c, c ∈ calls s' -> c ∈ calls s \/ c = CallPing id \/
                               c = CallGetMetrics id).
Proof.
  intros Hlt. apply Qltb_lt in Hlt.
  cbn [profiling_loop]. unfold bind at 1, time_time. rewrite Hlt.
  destruct (_collect_metrics_total (set_ticks S s) id)
    as (m & s1 & Hcollect & Hid & Hhist & _ & Hcalls).
  unfold bind at 1. rewrite Hcollect.
  unfold bind at 1, _update_metrics_history, modify.
  unfold bind. rewrite asyncio_sleep_raises.
  exists m. eexists. split; [reflexivity|]. split; [exact Hid|].
  split; [cbn; rewrite Hhist; reflexivity|].
  intros c Hc. cbn in Hc. apply Hcalls in Hc. exact Hc.
Qed.

(** [start_profiling] never returns a sample: it returns the empty list
    when the loop is not entered, and raises otherwise. *)
Lemma start_profiling_returns_nothing (fuel : nat) (s : Sys) (id : string)
    (duration : Z) (l : list PerformanceMetrics) :
  fst (start_profiling fuel id duration s) = Ok (Some l) -> l = [].
Proof.
  unfold start_profiling, bind, get_device, gets.
  destruct (pool_devices s !! id) as [d|]; [|discriminate].
  unfold time_time at 1.
  destruct fuel as [|fuel]; [discriminate|].
  set (s0 := set_ticks S s).
  destruct (Qltb (clock s0 (ticks s0) - clock s (ticks s)) (inject_Z duration))
    eqn:Hlt.
  - apply Qltb_lt in Hlt.
    destruct (profiling_loop_entered fuel s0 id (clock s (ticks s)) duration []
                Hlt) as (m & s' & Hrun & _).
    rewrite Hrun. discriminate.
  - cbn [profiling_loop]. unfold bind at 1, time_time. rewrite Hlt.
    unfold ret. cbn. intros [= <-]. reflexivity.
Qed.

(** C8 (the code departs from the claim).  Profiling the fixture device for
    3 seconds (or for the default 60) collects one sample, records it, and
    then raises [NameError]: the module never imports [asyncio], so
    [asyncio.sleep] cannot be reached.  No list of samples is returned and
    no sleep takes place. *)
Theorem start_profiling_raises_NameError (fuel : nat) :
  fst (start_profiling (S fuel) "device1" 3 fixture_sys) =
    Raise (Exn NameError "name 'asyncio' is not defined") /\
  fst (start_profiling (S fuel) "device1" 60 fixture_sys) =
    Raise (Exn NameError "name 'asyncio' is not defined") /\
  length (default []
            (metrics_history
               (snd (start_profiling (S fuel) "device1" 3 fixture_sys))
               !! "device1")) = 1%nat /\
  calls (snd (start_profiling (S fuel) "device1" 3 fixture_sys)) =
    [CallPing "device1"; CallGetMetrics "device1"].
Proof. split_and!; reflexivity. Qed.

End AdvancedFacts.

(** ** device_pool.py: further properties *)

Module DevicePoolMore.
Import DevicePool DevicePoolViews PoolExamples PoolViewExamples.
Import DevicePoolFacts.

(** *** Removing devices *)

(** X1.  [remove_device] on a registered id returns [True], after which
    [get_device_info] finds nothing under that id; on any other id it
    returns [False] and leaves the registry as it was.  No other record is
    touched. *)
Theorem remove_device_get_device_info (p : t) (device_id : string) :
  (is_Some (get_device_info device_id p) ->
   snd (remove_device device_id p) = true /\
   get_device_info device_id (fst (remove_device device_id p)) = None) /\
  (get_device_info device_id p = None ->
   snd (remove_device device_id p) = false /\
   fst (remove_device device_id p) = p) /\
  (forall other : string,
     other <> device_id ->
     get_device_info other (fst (remove_device device_id p)) =
     get_device_info other p).
Proof.
  unfold get_device_info, remove_device. split_and!.
  - intros [info Hinfo]. rewrite Hinfo. simpl. split; [reflexivity|].
    apply lookup_delete_eq.
  - intros Hnone. rewrite Hnone. simpl. auto.
  - intros other Hne. destruct (devices p !! device_id); simpl; [|reflexivity].
    apply lookup_delete_ne. congruence.
Qed.

Lemma remove_device_get_device_info_witness :
  (snd (remove_device "android123" two_devices) = true /\
   get_device_info "android123" (fst (remove_device "android123" two_devices))
     = None) /\
  (snd (remove_device "nonexistent" two_devices) = false /\
   fst (remove_device "nonexistent" two_devices) = two_devices).
Proof.
  split.
  - apply (proj1 (remove_device_get_device_info two_devices "android123")).
    eexists. reflexivity.
  - apply (proj1 (proj2 (remove_device_get_device_info two_devices
                           "nonexistent"))).
    reflexivity.
Defined.

(** X2.  Adding a device under an id the registry does not hold and removing it
    again gives back the registry as it was; removing a registered device
    and adding it again does not: the new record starts "disconnected", with
    [last_seen = 0.0] and a counter of 0, whatever the old one held. *)
Theorem add_remove_device_round_trip (p : t) (device_id : string)
    (ty : DeviceType) (nm ver : string) :
  (get_device_info device_id p = None ->
   remove_device device_id (fst (add_device device_id ty nm ver p)) =
     (p, true)) /\
  (is_Some (get_device_info device_id p) ->
   add_device device_id ty nm ver (fst (remove_device device_id p)) =
     (set_devices (insert device_id (DeviceInfo_new device_id ty nm ver)) p,
      true)).
Proof.
  unfold get_device_info, add_device, remove_device. split.
  - intros Hnone. rewrite Hnone. cbn [fst devices set_devices].
    rewrite lookup_insert_eq. f_equal.
    destruct p as [devs limit interval]. unfold set_devices. cbn in *.
    f_equal. rewrite delete_insert_eq. apply delete_id. exact Hnone.
  - intros [info Hinfo]. rewrite Hinfo. cbn [fst devices set_devices].
    rewrite lookup_delete_eq. f_equal.
    destruct p as [devs limit interval]. unfold set_devices. cbn in *.
    f_equal. apply insert_delete_eq.
Qed.

Lemma add_remove_device_round_trip_witness :
  remove_device "new1" (fst (add_device "new1" IOS "Spare" "16.0" two_devices))
    = (two_devices, true) /\
  add_device "android123" ANDROID "Test Android" "12.0"
    (fst (remove_device "android123"
            (after_cycle both_attached 10 two_devices))) =
    (set_devices
       (insert "android123"
          (DeviceInfo_new "android123" ANDROID "Test Android" "12.0"))
       (after_cycle both_attached 10 two_devices), true).
Proof.
  split.
  - apply (proj1 (add_remove_device_round_trip two_devices "new1" IOS "Spare"
                    "16.0")).
    reflexivity.
  - apply (proj2 (add_remove_device_round_trip
                    (after_cycle both_attached 10 two_devices) "android123"
                    ANDROID "Test Android" "12.0")).
    eexists. reflexivity.
Defined.

(** *** What the registry keeps *)

(** A cycle changes neither the name nor the version of a record. *)
Lemma poll_device_name_version (b : Backend) (limit : Z)
    (ads uds : list string) (now : Q) (device_id : string)
    (info : DeviceInfo) :
  name (poll_device b limit ads uds now device_id info) = name info /\
  version (poll_device b limit ads uds now device_id info) = version info.
Proof.
  unfold poll_device, _handle_disconnected_device, _update_device_status.
  destruct (type info);
    repeat match goal with
           | |- context [if ?c then _ else _] => destruct c
           end; simpl; auto.
Qed.

(** The counter after a cycle, for a counter within the bounds before it. *)
Lemma poll_device_attempts (b : Backend) (limit : Z) (now : Q)
    (device_id : string) (info : DeviceInfo) :
  0 <= reconnect_attempts info <= limit ->
  0 <= reconnect_attempts
         (poll_device b limit (attached b ANDROID) (attached b IOS) now
            device_id info) <= limit.
Proof.
  intros Hbound.
  pose proof (poll_device_cases b limit now device_id info) as Hcases.
  cbv zeta in Hcases.
  destruct Hcases as (_ & _ & Hatt & Hok & Hfail & Hmax & _).
  destruct (decide (device_id ∈ attached b (type info))) as [Hin|Hout].
  { destruct (Hatt Hin) as (_ & _ & ->). lia. }
  destruct (Z.lt_ge_cases (reconnect_attempts info) limit) as [Hlt|Hge].
  - destruct (_try_reconnect b info) eqn:Hrec.
    + destruct (Hok Hout Hlt eq_refl) as (_ & _ & ->). lia.
    + destruct (Hfail Hout Hlt eq_refl) as (_ & _ & ->). lia.
  - destruct (Hmax Hout Hge) as (_ & _ & ->). lia.
Qed.

(** X3.  Every record stays filed under its own id: [add_device],
    [remove_device] and every monitor cycle keep it so (and an empty
    registry is so), hence [_try_reconnect], which reads [device.id], always
    acts on the id the loop is visiting. *)
Theorem registry_keys_match (p : t) :
  keys_match p ->
  (forall device_id ty nm ver,
     keys_match (fst (add_device device_id ty nm ver p))) /\
  (forall device_id, keys_match (fst (remove_device device_id p))) /\
  (forall cycles p', run_cycles cycles p = Ok p' -> keys_match p').
Proof.
  intros Hkeys. split_and!.
  - intros device_id ty nm ver key info. unfold add_device.
    destruct (devices p !! device_id); simpl; [apply Hkeys|].
    rewrite lookup_insert. case_decide as Heq; [|apply Hkeys].
    intros [= <-]. exact Heq.
  - intros device_id key info. unfold remove_device.
    destruct (devices p !! device_id); simpl; [|apply Hkeys].
    rewrite lookup_delete. case_decide; [discriminate|apply Hkeys].
  - intros cycles. revert p Hkeys.
    induction cycles as [|[b now] cycles IH]; intros p Hkeys p'; simpl.
    + intros [= <-]. exact Hkeys.
    + destruct (_update_device_statuses b now p) as [p1|] eqn:Hcycle;
        [|discriminate].
      apply IH. intros key info1 Hinfo1.
      destruct (_update_device_statuses_lookup b now p p1 key Hcycle)
        as [_ Hlook].
      rewrite Hinfo1 in Hlook.
      destruct (devices p !! key) as [info|] eqn:Hinfo; [|discriminate].
      cbn [fmap option_fmap option_map] in Hlook. injection Hlook as ->.
      pose proof (poll_device_cases b (max_reconnect_attempts p) now key info)
        as Hcases.
      cbv zeta in Hcases. destruct Hcases as (Hid & _).
      transitivity (id info); [exact Hid|].
      apply (Hkeys key info Hinfo).
Qed.

Lemma init_keys_match (limit interval : Z) : keys_match (init limit interval).
Proof. intros key info Hinfo. simpl in Hinfo. discriminate. Qed.

Lemma registry_keys_match_witness :
  keys_match two_devices /\
  keys_match (fst (remove_device "ios456" two_devices)) /\
  keys_match (after_cycle none_attached 10 two_devices).
Proof.
  assert (H1 : keys_match
                 (fst (add_device "android123" ANDROID "Test Android" "12.0"
                         (init 2 1)))).
  { apply (proj1 (registry_keys_match (init 2 1) (init_keys_match 2 1))). }
  assert (H2 : keys_match two_devices).
  { apply (proj1 (registry_keys_match _ H1)). }
  split; [exact H2|]. split.
  - apply (proj1 (proj2 (registry_keys_match two_devices H2))).
  - apply (proj2 (proj2 (registry_keys_match two_devices H2))
             [(none_attached, 10%Q)]).
    reflexivity.
Defined.

Lemma init_attempts_bounded (limit interval : Z) :
  attempts_bounded (init limit interval).
Proof. intros key info Hinfo. simpl in Hinfo. discriminate. Qed.

Lemma add_device_attempts_bounded (p : t) (device_id : string)
    (ty : DeviceType) (nm ver : string) :
  0 <= max_reconnect_attempts p ->
  attempts_bounded p ->
  attempts_bounded (fst (add_device device_id ty nm ver p)).
Proof.
  intros Hmax Hbounded key info. unfold add_device.
  destruct (devices p !! device_id); simpl; [apply Hbounded|].
  rewrite lookup_insert. case_decide as Heq; [|apply Hbounded].
  intros [= <-]. simpl. lia.
Qed.

(** X4.  The reconnection counter of a device never leaves the range from 0 to
    [max_reconnect_attempts]: a new record starts at 0, and no sequence of
    monitor cycles takes a counter out of the range. *)
Theorem reconnect_attempts_stay_bounded (p : t) :
  attempts_bounded p ->
  (forall device_id ty nm ver,
     0 <= max_reconnect_attempts p ->
     attempts_bounded (fst (add_device device_id ty nm ver p))) /\
  (forall cycles p', run_cycles cycles p = Ok p' -> attempts_bounded p').
Proof.
  intros Hbounded. split.
  - intros device_id ty nm ver Hmax.
    apply add_device_attempts_bounded; assumption.
  - intros cycles. revert p Hbounded.
    induction cycles as [|[b now] cycles IH]; intros p Hbounded p'; simpl.
    + intros [= <-]. exact Hbounded.
    + destruct (_update_device_statuses b now p) as [p1|] eqn:Hcycle;
        [|discriminate].
      apply IH. intros key info1 Hinfo1.
      destruct (_update_device_statuses_lookup b now p p1 key Hcycle)
        as [Hlimit Hlook].
      rewrite Hinfo1 in Hlook.
      destruct (devices p !! key) as [info|] eqn:Hinfo; [|discriminate].
      cbn [fmap option_fmap option_map] in Hlook. injection Hlook as ->.
      rewrite Hlimit. apply poll_device_attempts.
      apply (Hbounded key info Hinfo).
Qed.

Lemma attempts_bounded_two_devices : attempts_bounded two_devices.
Proof.
  unfold two_devices.
  apply add_device_attempts_bounded; [discriminate|].
  apply add_device_attempts_bounded; [discriminate|].
  apply init_attempts_bounded.
Qed.

Lemma reconnect_attempts_stay_bounded_witness :
  attempts_bounded
    (after_cycle none_attached 40
       (after_cycle none_attached 30 exhausted)) /\
  attempts_bounded
    (fst (add_device "new1" IOS "Spare" "16.0" two_devices)).
Proof.
  split.
  - apply (proj2 (reconnect_attempts_stay_bounded two_devices
                    attempts_bounded_two_devices)
             [(none_attached, 10%Q); (none_attached, 20%Q);
              (none_attached, 30%Q); (none_attached, 40%Q)]).
    reflexivity.
  - apply (proj1 (reconnect_attempts_stay_bounded two_devices
                    attempts_bounded_two_devices)).
    discriminate.
Defined.

(** X5.  A monitor cycle neither adds nor removes a device, and it changes no
    id, type, name or version: only the status, [last_seen] and the counter
    of a record can differ after it. *)
Theorem monitor_cycle_keeps_identity (b : Backend) (now : Q) (p p' : t) :
  _update_device_statuses b now p = Ok p' ->
  dom (devices p') = dom (devices p) /\
  max_reconnect_attempts p' = max_reconnect_attempts p /\
  reconnect_interval p' = reconnect_interval p /\
  (forall (device_id : string) (info : DeviceInfo),
     devices p !! device_id = Some info ->
     exists info',
       devices p' !! device_id = Some info' /\
       id info' = id info /\ type info' = type info /\
       name info' = name info /\ version info' = version info).
Proof.
  intros Hcycle.
  assert (Hlook : forall device_id,
            devices p' !! device_id =
            poll_device b (max_reconnect_attempts p) (attached b ANDROID)
              (attached b IOS) now device_id <$> devices p !! device_id).
  { intros device_id.
    apply (_update_device_statuses_lookup b now p p' device_id Hcycle). }
  split_and!.
  - apply set_eq. intros key. rewrite !elem_of_dom, Hlook.
    destruct (devices p !! key); simpl; split; intros [x Hx]; eauto;
      discriminate.
  - apply (_update_device_statuses_lookup b now p p' "" Hcycle).
  - unfold _update_device_statuses in Hcycle.
    destruct (adb_device_list b); [|discriminate].
    injection Hcycle as <-. reflexivity.
  - intros device_id info Hinfo. rewrite Hlook, Hinfo.
    eexists. split; [reflexivity|].
    pose proof (poll_device_cases b (max_reconnect_attempts p) now device_id
                  info) as Hcases.
    cbv zeta in Hcases. destruct Hcases as (Hid & Hty & _).
    destruct (poll_device_name_version b (max_reconnect_attempts p)
                (attached b ANDROID) (attached b IOS) now device_id info)
      as [Hname Hver].
    auto.
Qed.

Lemma monitor_cycle_keeps_identity_witness :
  dom (devices (after_cycle adb_reconnects 10 two_devices)) =
    dom (devices two_devices) /\
  max_reconnect_attempts (after_cycle adb_reconnects 10 two_devices) = 2 /\
  reconnect_interval (after_cycle adb_reconnects 10 two_devices) = 1 /\
  (forall (device_id : string) (info : DeviceInfo),
     devices two_devices !! device_id = Some info ->
     exists info',
       devices (after_cycle adb_reconnects 10 two_devices) !! device_id =
         Some info' /\
       id info' = id info /\ type info' = type info /\
       name info' = name info /\ version info' = version info).
Proof.
  apply (monitor_cycle_keeps_identity adb_reconnects 10 two_devices).
  reflexivity.
Defined.

(** *** Listings *)

Lemma elem_of_get_all_devices (p : t) (info : DeviceInfo) :
  info ∈ get_all_devices p <-> exists key, devices p !! key = Some info.
Proof.
  unfold get_all_devices. rewrite list_elem_of_fmap. split.
  - intros ([key info'] & -> & Hin). apply elem_of_map_to_list in Hin. eauto.
  - intros [key Hkey]. exists (key, info). split; [reflexivity|].
    apply elem_of_map_to_list. exact Hkey.
Qed.

Lemma filter_all {A : Type} (P : A -> Prop) `{!forall x, Decision (P x)}
    (l : list A) :
  (forall x, x ∈ l -> P x) -> filter P l = l.
Proof.
  induction l as [|x l IH]; intros Hall; [reflexivity|].
  rewrite filter_cons_True by (apply Hall; left).
  f_equal. apply IH. intros y Hy. apply Hall. right. exact Hy.
Qed.

Lemma filter_none {A : Type} (P : A -> Prop) `{!forall x, Decision (P x)}
    (l : list A) :
  (forall x, x ∈ l -> ~ P x) -> filter P l = [].
Proof.
  induction l as [|x l IH]; intros Hnone; [reflexivity|].
  rewrite filter_cons_False by (apply Hnone; left).
  apply IH. intros y Hy. apply Hnone. right. exact Hy.
Qed.

(** X6.  A device added under a fresh id is listed by [get_all_devices], which
    grows by exactly this record, and not by [get_connected_devices], which
    lists what it listed before. *)
Theorem add_device_listed (p : t) (device_id : string) (ty : DeviceType)
    (nm ver : string) :
  get_device_info device_id p = None ->
  let p' := fst (add_device device_id ty nm ver p) in
  get_all_devices p' ≡ₚ
    DeviceInfo_new device_id ty nm ver :: get_all_devices p /\
  get_connected_devices p' ≡ₚ get_connected_devices p /\
  length (get_all_devices p') = S (length (get_all_devices p)).
Proof.
  intros Hnone p'. unfold get_device_info in Hnone.
  assert (Hall : get_all_devices p' ≡ₚ
                 DeviceInfo_new device_id ty nm ver :: get_all_devices p).
  { subst p'. unfold add_device. rewrite Hnone.
    unfold get_all_devices. cbn [fst devices set_devices].
    rewrite (map_to_list_insert (devices p) device_id _ Hnone).
    reflexivity. }
  split; [exact Hall|]. split.
  - unfold get_connected_devices. rewrite Hall.
    rewrite filter_cons_False by (simpl; discriminate). reflexivity.
  - rewrite Hall. reflexivity.
Qed.

Lemma add_device_listed_witness :
  let p' := fst (add_device "new1" IOS "Spare" "16.0"
                   (after_cycle both_attached 10 two_devices)) in
  get_all_devices p' ≡ₚ
    DeviceInfo_new "new1" IOS "Spare" "16.0" ::
    get_all_devices (after_cycle both_attached 10 two_devices) /\
  get_connected_devices p' ≡ₚ
    get_connected_devices (after_cycle both_attached 10 two_devices) /\
  length (get_all_devices p') =
    S (length (get_all_devices (after_cycle both_attached 10 two_devices))).
Proof.
  apply (add_device_listed (after_cycle both_attached 10 two_devices) "new1"
           IOS "Spare" "16.0").
  reflexivity.
Defined.

(** X7.  After a cycle that finds every registered device attached,
    [get_connected_devices] lists all the devices [get_all_devices] lists;
    after a cycle that finds none attached and reconnects none, it lists
    nothing. *)
Theorem get_connected_devices_after_cycle (b : Backend) (now : Q)
    (p p' : t) :
  _update_device_statuses b now p = Ok p' ->
  ((forall key info,
      devices p !! key = Some info -> key ∈ attached b (type info)) ->
   get_connected_devices p' = get_all_devices p') /\
  ((forall key info,
      devices p !! key = Some info ->
      (key ∉ attached b (type info)) /\ _try_reconnect b info = false) ->
   get_connected_devices p' = []).
Proof.
  intros Hcycle.
  assert (Hlook : forall key info',
            devices p' !! key = Some info' ->
            exists info,
              devices p !! key = Some info /\
              info' = poll_device b (max_reconnect_attempts p)
                        (attached b ANDROID) (attached b IOS) now key info).
  { intros key info' Hinfo'.
    destruct (_update_device_statuses_lookup b now p p' key Hcycle)
      as [_ Hlook].
    rewrite Hinfo' in Hlook.
    destruct (devices p !! key) as [info|]; [|discriminate].
    cbn [fmap option_fmap option_map] in Hlook. injection Hlook as ->.
    eauto. }
  split.
  - intros Hall. unfold get_connected_devices. apply filter_all.
    intros info' Hin. apply elem_of_get_all_devices in Hin as [key Hkey].
    destruct (Hlook key info' Hkey) as (info & Hinfo & ->).
    pose proof (poll_device_cases b (max_reconnect_attempts p) now key info)
      as Hcases.
    cbv zeta in Hcases. destruct Hcases as (_ & _ & Hatt & _).
    apply Hatt. apply (Hall key info Hinfo).
  - intros Hnone. unfold get_connected_devices. apply filter_none.
    intros info' Hin. apply elem_of_get_all_devices in Hin as [key Hkey].
    destruct (Hlook key info' Hkey) as (info & Hinfo & ->).
    destruct (Hnone key info Hinfo) as [Hout Hrec].
    assert (Hpoll :
      poll_device b (max_reconnect_attempts p) (attached b ANDROID)
        (attached b IOS) now key info =
      _handle_disconnected_device b (max_reconnect_attempts p) now info).
    { unfold poll_device.
      destruct (type info); rewrite bool_decide_eq_false_2 by exact Hout;
        reflexivity. }
    change (status (poll_device b (max_reconnect_attempts p)
                      (attached b ANDROID) (attached b IOS) now key info)
            <> "connected").
    rewrite Hpoll. unfold _handle_disconnected_device.
    set (d0 := if bool_decide (status info = "connected") then _ else info).
    assert (Hd0 : status d0 <> "connected" /\ id d0 = id info /\
                  type d0 = type info).
    { subst d0. destruct (bool_decide (status info = "connected")) eqn:Hst.
      - simpl. split; [discriminate|auto].
      - apply bool_decide_eq_false in Hst. auto. }
    destruct Hd0 as (Hst0 & Hid0 & Hty0). clearbody d0.
    destruct (reconnect_attempts d0 <? max_reconnect_attempts p);
      [|exact Hst0].
    rewrite (_try_reconnect_ext b _ info) by (simpl; assumption).
    rewrite Hrec. simpl. exact Hst0.
Qed.

Lemma two_devices_lookup (key : string) (info : DeviceInfo) :
  devices two_devices !! key = Some info ->
  (key = "android123" /\ type info = ANDROID) \/
  (key = "ios456" /\ type info = IOS).
Proof.
  change (devices two_devices) with
    (<["ios456" := DeviceInfo_new "ios456" IOS "Test iPhone" "15.0"]>
       (<["android123" :=
            DeviceInfo_new "android123" ANDROID "Test Android" "12.0"]>
          (∅ : gmap string DeviceInfo))).
  rewrite lookup_insert. case_decide as H1.
  - intros [= <-]. right. auto.
  - rewrite lookup_insert. case_decide as H2; [|discriminate].
    intros [= <-]. left. auto.
Qed.

Lemma get_connected_devices_after_cycle_witness :
  get_connected_devices (after_cycle both_attached 10 two_devices) =
    get_all_devices (after_cycle both_attached 10 two_devices) /\
  get_connected_devices
    (after_cycle none_attached 20 (after_cycle both_attached 10 two_devices))
    = [].
Proof.
  split.
  - apply (proj1 (get_connected_devices_after_cycle both_attached 10
                    two_devices (after_cycle both_attached 10 two_devices)
                    eq_refl)).
    intros key info Hinfo.
    destruct (two_devices_lookup key info Hinfo) as [[-> ->]|[-> ->]];
      apply list_elem_of_here.
  - apply (proj2 (get_connected_devices_after_cycle none_attached 20
                    (after_cycle both_attached 10 two_devices)
                    (after_cycle none_attached 20
                       (after_cycle both_attached 10 two_devices))
                    eq_refl)).
    intros key info Hinfo. split; [destruct (type info); apply not_elem_of_nil|].
    unfold _try_reconnect. destruct (type info); reflexivity.
Defined.

(** *** Waiting for a device, in general *)

Lemma waited_S (device_id : string) (n : nat) :
  waited device_id (S n) =
  [Polled device_id; Slept 1] ++ waited device_id n.
Proof. reflexivity. Qed.

(** What a finished run of the loop, started at iteration [i], went
    through. *)
Lemma wait_loop_result (env : WaitEnv) (timeout : Z) (device_id : string) :
  forall (fuel i : nat) (events : list WaitEvent) (found : bool)
         (events' : list WaitEvent),
    wait_loop fuel env (clock env 0%nat) timeout device_id i events =
      Some (found, events') ->
    exists n : nat,
      (forall k, (i <= k < i + n)%nat ->
         in_time env timeout k = true /\
         connected_at env device_id k = false) /\
      (if found then
         in_time env timeout (i + n) = true /\
         connected_at env device_id (i + n) = true /\
         events' = events ++ waited device_id n ++ [Polled device_id]
       else
         in_time env timeout (i + n) = false /\
         events' = events ++ waited device_id n).
Proof.
  induction fuel as [|fuel IH]; intros i events found events'; [discriminate|].
  cbn [wait_loop]. fold (in_time env timeout i).
  fold (connected_at env device_id i).
  destruct (in_time env timeout i) eqn:Htime.
  - destruct (connected_at env device_id i) eqn:Hconn.
    + intros [= <- <-]. exists 0%nat. rewrite Nat.add_0_r.
      split; [intros k Hk; lia|]. split_and!; try assumption. reflexivity.
    + intros Hrun. apply IH in Hrun as (n & Hbefore & Hend).
      exists (S n). split.
      * intros k Hk. destruct (decide (k = i)) as [->|Hne]; [auto|].
        apply Hbefore. lia.
      * replace (i + S n)%nat with (S i + n)%nat by lia.
        rewrite waited_S.
        destruct found.
        -- destruct Hend as (Ht & Hc & ->). split_and!; try assumption.
           rewrite <- !app_assoc. reflexivity.
        -- destruct Hend as (Ht & ->). split; [assumption|].
           rewrite <- !app_assoc. reflexivity.
  - intros [= <- <-]. exists 0%nat. rewrite Nat.add_0_r.
    split; [intros k Hk; lia|]. split; [assumption|].
    simpl. rewrite app_nil_r. reflexivity.
Qed.

(** X8.  Whenever [wait_for_device] returns, it has polled the device once per
    iteration and slept one second after each poll that did not find it
    connected.  It returns [True] exactly at the first poll that finds the
    device connected, the timeout not having elapsed at any test up to then;
    it returns [False] only at a test that finds the timeout elapsed, every
    earlier poll having found the device missing or not connected. *)
Theorem wait_for_device_result (fuel : nat) (env : WaitEnv)
    (device_id : string) (timeout : Z) (found : bool)
    (events : list WaitEvent) :
  wait_for_device fuel env device_id timeout = Some (found, events) ->
  exists n : nat,
    (forall k, (k < n)%nat ->
       in_time env timeout k = true /\
       connected_at env device_id k = false) /\
    (if found then
       in_time env timeout n = true /\
       connected_at env device_id n = true /\
       events = waited device_id n ++ [Polled device_id]
     else
       in_time env timeout n = false /\
       events = waited device_id n).
Proof.
  unfold wait_for_device. intros Hrun.
  apply wait_loop_result in Hrun as (n & Hbefore & Hend).
  exists n. split.
  - intros k Hk. apply Hbefore. lia.
  - exact Hend.
Qed.

Lemma wait_for_device_result_witness :
  (exists n : nat,
     (forall k, (k < n)%nat ->
        in_time connecting_env 30 k = true /\
        connected_at connecting_env "android123" k = false) /\
     in_time connecting_env 30 n = true /\
     connected_at connecting_env "android123" n = true /\
     [Polled "android123"; Slept 1; Polled "android123"; Slept 1;
      Polled "android123"] =
       waited "android123" n ++ [Polled "android123"]) /\
  (exists n : nat,
     (forall k, (k < n)%nat ->
        in_time idle_env 2 k = true /\
        connected_at idle_env "android123" k = false) /\
     in_time idle_env 2 n = false /\
     [Polled "android123"; Slept 1] = waited "android123" n).
Proof.
  split.
  - apply (wait_for_device_result 10 connecting_env "android123" 30 true).
    reflexivity.
  - apply (wait_for_device_result 10 idle_env "android123" 2 false).
    reflexivity.
Defined.

(** With a clock that does not run backwards between its first two
    readings and on which every later reading comes at least one second
    after the one before it (the loop sleeps one second between them), the
    time elapsed at the test of iteration [k] is at least [k] seconds. *)
Lemma elapsed_at_least (env : WaitEnv) :
  (clock env 0%nat <= clock env 1%nat)%Q ->
  (forall k, (clock env (S k) + 1 <= clock env (S (S k)))%Q) ->
  forall k, (inject_Z (Z.of_nat k) <= clock env (S k) - clock env 0%nat)%Q.
Proof.
  intros Hfirst Hstep k. induction k as [|k IH].
  - change (inject_Z (Z.of_nat 0)) with 0%Q. lra.
  - pose proof (Hstep k) as Hk.
    rewrite Nat2Z.inj_succ. unfold Z.succ. rewrite inject_Z_plus.
    change (inject_Z 1) with 1%Q. lra.
Qed.

Lemma wait_loop_terminates (env : WaitEnv) (timeout : Z)
    (device_id : string) :
  (clock env 0%nat <= clock env 1%nat)%Q ->
  (forall k, (clock env (S k) + 1 <= clock env (S (S k)))%Q) ->
  forall (fuel i : nat) (events : list WaitEvent),
    timeout <= Z.of_nat (i + fuel) ->
    is_Some (wait_loop (S fuel) env (clock env 0%nat) timeout device_id i
               events).
Proof.
  intros Hfirst Hstep. induction fuel as [|fuel IH]; intros i events Hfuel.
  - cbn [wait_loop].
    destruct (Qltb (clock env (S i) - clock env 0%nat) (inject_Z timeout))
      eqn:Htime; [|eauto].
    exfalso. apply Qltb_lt in Htime.
    pose proof (elapsed_at_least env Hfirst Hstep i) as Helapsed.
    assert (Hlt : (inject_Z (Z.of_nat i) < inject_Z timeout)%Q)
      by (eapply Qle_lt_trans; eassumption).
    rewrite <- Zlt_Qlt in Hlt. lia.
  - remember (S fuel) as fuel1. cbn [wait_loop].
    destruct (Qltb (clock env (S i) - clock env 0%nat) (inject_Z timeout));
      [|eauto].
    destruct (match get_device_info device_id (pool_at env i) with
              | Some device => bool_decide (status device = "connected")
              | None => false
              end); [eauto|].
    subst fuel1. apply IH. lia.
Qed.

(** X9. On a clock that does not run backwards and advances by at least one
    second over each sleep, [wait_for_device] returns within [timeout]
    iterations (one iteration for a timeout of 0 or less): as many iterations of
    fuel plus one give a result. When no poll finds the device connected, in
    particular for an id that is never registered, the result is [False],
    reached after at most [timeout] sleeps. *)
Theorem wait_for_device_returns (env : WaitEnv) (device_id : string)
    (timeout : Z) :
  (clock env 0%nat <= clock env 1%nat)%Q ->
  (forall k, (clock env (S k) + 1 <= clock env (S (S k)))%Q) ->
  exists (found : bool) (events : list WaitEvent),
    wait_for_device (S (Z.to_nat timeout)) env device_id timeout =
      Some (found, events) /\
    ((forall i, connected_at env device_id i = false) ->
     found = false /\
     exists n : nat,
       events = waited device_id n /\ Z.of_nat n <= Z.max 0 timeout).
Proof.
  intros Hfirst Hstep.
  destruct (wait_loop_terminates env timeout device_id Hfirst Hstep
              (Z.to_nat timeout) 0%nat []) as [[found events] Hrun]; [lia|].
  exists found, events. split; [exact Hrun|].
  intros Hnever.
  apply wait_loop_result in Hrun as (n & Hbefore & Hend).
  destruct found.
  - destruct Hend as (_ & Hconn & _). rewrite Hnever in Hconn. discriminate.
  - split; [reflexivity|]. destruct Hend as (_ & ->).
    exists n. split; [reflexivity|].
    destruct n as [|n]; [lia|].
    destruct (Hbefore n) as [Htime _]; [lia|].
    unfold in_time in Htime. apply Qltb_lt in Htime.
    pose proof (elapsed_at_least env Hfirst Hstep n) as Helapsed.
    assert (Hlt : (inject_Z (Z.of_nat n) < inject_Z timeout)%Q)
      by (eapply Qle_lt_trans; eassumption).
    rewrite <- Zlt_Qlt in Hlt. lia.
Qed.

Lemma ticking_clock_steps :
  (ticking_clock 0 <= ticking_clock 1)%Q /\
  (forall k, (ticking_clock (S k) + 1 <= ticking_clock (S (S k)))%Q).
Proof.
  unfold ticking_clock. split.
  - rewrite <- Zle_Qle. lia.
  - intros k. change 1%Q with (inject_Z 1). rewrite <- inject_Z_plus.
    rewrite <- Zle_Qle. lia.
Qed.

Lemma wait_for_device_returns_witness :
  exists (found : bool) (events : list WaitEvent),
    wait_for_device (S (Z.to_nat 3)) idle_env "ghost" 3 =
      Some (found, events) /\
    ((forall i, connected_at idle_env "ghost" i = false) ->
     found = false /\
     exists n : nat,
       events = waited "ghost" n /\ Z.of_nat n <= Z.max 0 3).
Proof.
  apply (wait_for_device_returns idle_env "ghost" 3
           (proj1 ticking_clock_steps) (proj2 ticking_clock_steps)).
Defined.

(** *** Giving up *)

(** X10.  A device that stays detached and cannot be reconnected is tried once
    per cycle until its counter reaches [max_reconnect_attempts]: after any
    number of such cycles the counter is the smaller of the maximum and the
    old counter plus the number of cycles, and the device is
    "disconnected".  From then on the cycles change nothing of the record:
    with no attempt left, [last_seen] stays what it was. *)
Theorem monitor_gives_up (cycles : list (Backend * Q)) :
  forall (p p' : t) (device_id : string) (info : DeviceInfo),
    run_cycles cycles p = Ok p' ->
    devices p !! device_id = Some info ->
    status info = "connected" \/ status info = "disconnected" ->
    reconnect_attempts info <= max_reconnect_attempts p ->
    Forall (fun c : Backend * Q =>
              (device_id ∉ attached c.1 (type info)) /\
              _try_reconnect c.1 info = false) cycles ->
    exists info',
      devices p' !! device_id = Some info' /\
      reconnect_attempts info' =
        Z.min (max_reconnect_attempts p)
          (reconnect_attempts info + Z.of_nat (length cycles)) /\
      (cycles <> [] -> status info' = "disconnected") /\
      (max_reconnect_attempts p <= reconnect_attempts info ->
       last_seen info' = last_seen info).
Proof.
  induction cycles as [|[b now] cycles IH];
    intros p p' device_id info Hrun Hinfo Hvalid Hbound Hall.
  - simpl in Hrun. injection Hrun as <-. exists info.
    split_and!; [exact Hinfo | cbn [length]; lia | congruence | reflexivity].
  - apply Forall_cons in Hall as [[Hout Hrec] Hall]. cbn [fst] in Hout, Hrec.
    cbn [run_cycles] in Hrun.
    destruct (_update_device_statuses b now p) as [p1|] eqn:Hcycle;
      [|discriminate].
    destruct (_update_device_statuses_lookup b now p p1 device_id Hcycle)
      as [Hmax Hlook].
    rewrite Hinfo in Hlook. cbn [fmap option_fmap option_map] in Hlook.
    pose proof (poll_device_cases b (max_reconnect_attempts p) now device_id
                  info) as Hcases.
    cbv zeta in Hcases.
    set (info1 := poll_device b (max_reconnect_attempts p) (attached b ANDROID)
                    (attached b IOS) now device_id info) in *.
    destruct Hcases as (Hid & Hty & _ & _ & Hfail & Hstop & _).
    assert (Hstep :
              status info1 = "disconnected" /\
              reconnect_attempts info1 =
                Z.min (max_reconnect_attempts p) (reconnect_attempts info + 1)
              /\
              (max_reconnect_attempts p <= reconnect_attempts info ->
               last_seen info1 = last_seen info)).
    { destruct (Z.lt_ge_cases (reconnect_attempts info)
                  (max_reconnect_attempts p)) as [Hlt|Hge].
      - destruct (Hfail Hout Hlt Hrec) as (Hst & _ & Hatt).
        split_and!; [exact (Hst Hvalid) | lia | lia].
      - destruct (Hstop Hout Hge) as (Hst & Hseen & Hatt).
        split_and!; [exact (Hst Hvalid) | lia | intros _; exact Hseen]. }
    destruct Hstep as (Hst1 & Hatt1 & Hseen1).
    assert (Hall1 : Forall (fun c : Backend * Q =>
                              (device_id ∉ attached c.1 (type info1)) /\
                              _try_reconnect c.1 info1 = false) cycles).
    { eapply Forall_impl; [exact Hall|].
      intros c [Hc1 Hc2]. rewrite Hty. split; [exact Hc1|].
      rewrite <- Hc2. apply _try_reconnect_ext; assumption. }
    assert (Hbound1 : reconnect_attempts info1 <= max_reconnect_attempts p1).
    { rewrite Hmax, Hatt1. lia. }
    destruct (IH p1 p' device_id info1 Hrun Hlook (or_intror Hst1) Hbound1
                Hall1) as (info' & Hlook' & Hatt' & Hst' & Hseen').
    exists info'. split; [exact Hlook'|].
    rewrite Hmax in Hatt', Hseen'. split_and!.
    + rewrite Hatt', Hatt1. cbn [length]. lia.
    + intros _. destruct cycles as [|c cycles'].
      * simpl in Hrun. injection Hrun as <-.
        rewrite Hlook in Hlook'. injection Hlook' as <-. exact Hst1.
      * apply Hst'. discriminate.
    + intros Hge. rewrite Hseen' by (rewrite Hatt1; lia).
      apply Hseen1. exact Hge.
Qed.

Lemma monitor_gives_up_witness :
  exists info',
    devices (after_cycle none_attached 30 exhausted) !! "android123" =
      Some info' /\
    reconnect_attempts info' = Z.min 2 (0 + 3) /\
    status info' = "disconnected".
Proof.
  destruct (monitor_gives_up
              [(none_attached, 10%Q); (none_attached, 20%Q);
               (none_attached, 30%Q)]
              two_devices (after_cycle none_attached 30 exhausted)
              "android123"
              (DeviceInfo_new "android123" ANDROID "Test Android" "12.0"))
    as (info' & Hlook & Hatt & Hst & _).
  - reflexivity.
  - reflexivity.
  - right. reflexivity.
  - vm_compute. discriminate.
  - repeat constructor; cbn; apply not_elem_of_nil.
  - exists info'. split_and!; [exact Hlook | exact Hatt |].
    apply Hst. discriminate.
Defined.

(** *** Failures of the backends *)

(** X11.  An exception of [adb.device_list()] is not caught: the cycle raises it
    before any record is read, and the cycles after it do not run.  An
    exception of tidevice is caught and leaves the list of iOS devices
    empty, so in that cycle every registered iOS device is handled as
    disconnected: it ends "connected" only through a reconnection attempt
    that succeeds, and "disconnected" otherwise. *)
Theorem monitor_cycle_backend_errors (b : Backend) (now : Q) (p : t) :
  (forall e, adb_device_list b = Raise e ->
     _update_device_statuses b now p = Raise e /\
     forall later, run_cycles ((b, now) :: later) p = Raise e) /\
  (forall e serials device_id info,
     adb_device_list b = Ok serials ->
     usbmux_devices b = Raise e ->
     devices p !! device_id = Some info ->
     type info = IOS ->
     status info = "connected" \/ status info = "disconnected" ->
     exists p' info',
       _update_device_statuses b now p = Ok p' /\
       devices p' !! device_id = Some info' /\
       (status info' = "connected" ->
        reconnect_attempts info < max_reconnect_attempts p /\
        _try_reconnect b info = true) /\
       (_try_reconnect b info = false -> status info' = "disconnected")).
Proof.
  split.
  - intros e He.
    assert (Hcycle : _update_device_statuses b now p = Raise e).
    { unfold _update_device_statuses. rewrite He. reflexivity. }
    split; [exact Hcycle|]. intros later. cbn [run_cycles].
    rewrite Hcycle. reflexivity.
  - intros e serials device_id info Hadb Husb Hinfo Hty Hvalid.
    destruct (_update_device_statuses b now p) as [p'|e'] eqn:Hcycle.
    2:{ unfold _update_device_statuses in Hcycle. rewrite Hadb in Hcycle.
        discriminate. }
    destruct (_update_device_statuses_lookup b now p p' device_id Hcycle)
      as [_ Hlook].
    rewrite Hinfo in Hlook. cbn [fmap option_fmap option_map] in Hlook.
    pose proof (poll_device_cases b (max_reconnect_attempts p) now device_id
                  info) as Hcases.
    cbv zeta in Hcases.
    destruct Hcases as (_ & _ & _ & _ & Hfail & Hstop & _).
    assert (Hout : device_id ∉ attached b (type info)).
    { rewrite Hty. unfold attached. rewrite Husb. apply not_elem_of_nil. }
    exists p'. eexists. split; [reflexivity|]. split; [exact Hlook|].
    destruct (Z.lt_ge_cases (reconnect_attempts info)
                (max_reconnect_attempts p)) as [Hlt|Hge].
    + destruct (_try_reconnect b info) eqn:Hrec.
      * split; [auto | discriminate].
      * destruct (Hfail Hout Hlt eq_refl) as (Hst & _).
        split; [|intros _; exact (Hst Hvalid)].
        intros Hconn. rewrite (Hst Hvalid) in Hconn. discriminate.
    + destruct (Hstop Hout Hge) as (Hst & _).
      split; [|intros _; exact (Hst Hvalid)].
      intros Hconn. rewrite (Hst Hvalid) in Hconn. discriminate.
Qed.

End DevicePoolMore.

(** ** device_manager.py *)

Module DeviceManagerFacts.
Import DevicePool DevicePoolViews DeviceManager PoolExamples PoolViewExamples.
Import ManagerExamples DevicePoolFacts DevicePoolMore.

Section Versions.
Context {V : Type}.
Variable parse : string -> option V.
Variable le : V -> V -> bool.

(** The five features, which both platforms share. *)
Lemma FEATURE_SUPPORT_names (platform : DeviceType) :
  (FEATURE_SUPPORT platform).*1 =
  ["performance_metrics"; "gpu_monitoring"; "network_monitoring";
   "battery_stats"; "screen_recording"].
Proof. destruct platform; reflexivity. Qed.

(** The keys of the dictionary the loop has built: those it started with
    and, when it completes, those of all the items. *)
Lemma features_loop_keys (v : V) (items : list (string * string)) :
  forall (features : gmap string bool) (feature : string),
    let r := features_loop parse le v items features in
    (is_Some (r.1 !! feature) ->
     is_Some (features !! feature) \/ feature ∈ items.*1) /\
    (is_Some (features !! feature) -> is_Some (r.1 !! feature)) /\
    (r.2 = true -> feature ∈ items.*1 -> is_Some (r.1 !! feature)).
Proof.
  induction items as [|[k m] items IH]; intros features feature; cbn.
  - split_and!; [auto | auto | intros _ Hin; inversion Hin].
  - destruct (parse m) as [mv|]; cbn.
    + destruct (IH (<[k := le mv v]> features) feature) as (H1 & H2 & H3).
      split_and!.
      * intros Hin. destruct (H1 Hin) as [Hold|Hitems].
        -- rewrite lookup_insert in Hold. case_decide as Heq.
           ++ right. subst k. left.
           ++ left. exact Hold.
        -- right. right. exact Hitems.
      * intros Hold. apply H2. rewrite lookup_insert.
        case_decide; [eauto|exact Hold].
      * intros Hdone Hin. apply elem_of_cons in Hin as [->|Hin].
        -- apply H2. rewrite lookup_insert_eq. eauto.
        -- apply H3; assumption.
    + split_and!; [auto | auto | discriminate].
Qed.

Lemma set_false_keys (items : list (string * string)) :
  forall (features : gmap string bool) (feature : string),
    is_Some (foldl (fun f item => <[item.1 := false]> f) features items
             !! feature) <->
    is_Some (features !! feature) \/ feature ∈ items.*1.
Proof.
  induction items as [|[k m] items IH]; intros features feature; cbn.
  - split; [auto|]. intros [H|H]; [exact H|inversion H].
  - rewrite IH, lookup_insert. case_decide as Heq.
    + subst k. split; [intros _; right; left|eauto].
    + split.
      * intros [H|H]; [auto|]. right. right. exact H.
      * intros [H|H]; [auto|]. apply elem_of_cons in H as [->|H];
          [contradiction|auto].
Qed.

(** X12.  [get_device_compatibility] never raises: the branch of
    [get_supported_features] that reads an unassigned variable is reached
    only for a version that does not parse, and such a device is reported
    unsupported before its features are asked for.  The features are empty
    for an unknown or unsupported device, and have exactly the five feature
    names as keys for a supported one. *)
Theorem get_device_compatibility_never_raises (p : t) (device_id : string) :
  exists (supported : bool) (features : gmap string bool),
    get_device_compatibility parse le p device_id = Ok (supported, features) /\
    (get_device_info device_id p = None -> supported = false) /\
    (supported = false -> features = ∅) /\
    (supported = true ->
     forall feature,
       is_Some (features !! feature) <->
       feature ∈ ["performance_metrics"; "gpu_monitoring";
                  "network_monitoring"; "battery_stats"; "screen_recording"]).
Proof.
  unfold get_device_compatibility.
  destruct (get_device_info device_id p) as [info|].
  2:{ exists false, ∅. split_and!; try reflexivity; discriminate. }
  destruct (is_version_supported parse le info) eqn:Hsup.
  2:{ exists false, ∅. split_and!; try reflexivity; discriminate. }
  unfold is_version_supported in Hsup. unfold get_supported_features.
  destruct (parse (version info)) as [v|]; [|discriminate].
  cbv zeta.
  pose proof (FEATURE_SUPPORT_names (type info)) as Hnames.
  destruct (features_loop parse le v (FEATURE_SUPPORT (type info)) ∅)
    as [features done] eqn:Hloop.
  destruct done.
  - exists true, features. split_and!; try reflexivity; try discriminate.
    intros _ feature.
    pose proof (features_loop_keys v (FEATURE_SUPPORT (type info)) ∅ feature)
      as Hkeys.
    cbv zeta in Hkeys. rewrite Hloop, Hnames in Hkeys. cbn [fst snd] in Hkeys.
    destruct Hkeys as (H1 & _ & H3). split.
    + intros Hin. destruct (H1 Hin) as [Hempty|Hitems]; [|exact Hitems].
      rewrite lookup_empty in Hempty. destruct Hempty. discriminate.
    + apply H3. reflexivity.
  - eexists true, _. split_and!; try reflexivity; try discriminate.
    intros _ feature. rewrite set_false_keys, Hnames.
    pose proof (features_loop_keys v (FEATURE_SUPPORT (type info)) ∅ feature)
      as Hkeys.
    cbv zeta in Hkeys. rewrite Hloop, Hnames in Hkeys. cbn [fst snd] in Hkeys.
    destruct Hkeys as (H1 & _). split; [|auto].
    intros [Hin|Hin]; [|exact Hin].
    destruct (H1 Hin) as [Hempty|Hitems]; [|exact Hitems].
    rewrite lookup_empty in Hempty. destruct Hempty. discriminate.
Qed.

(** X13.  Called on a record whose version string does not parse,
    [get_supported_features] does not return the all-[False] dictionary its
    [except] branch is written for: it raises [UnboundLocalError] (a
    [NameError]).  [is_version_supported] answers [False] for such a
    record, and [get_device_compatibility] answers [(False, {})]. *)
Theorem get_supported_features_unparsable (p : t) (device_id : string)
    (info : DeviceInfo) :
  parse (version info) = None ->
  get_device_info device_id p = Some info ->
  (exists msg, get_supported_features parse le info = Raise (Exn NameError msg)) /\
  is_version_supported parse le info = false /\
  get_device_compatibility parse le p device_id = Ok (false, ∅).
Proof.
  intros Hparse Hinfo.
  unfold get_device_compatibility, get_supported_features,
    is_version_supported.
  rewrite Hinfo, Hparse. split_and!; [eauto | reflexivity | reflexivity].
Qed.

(** The comparison of the loop, for two versions in order. *)
Lemma features_loop_monotone (v v' : V) (items : list (string * string)) :
  (forall m, le m v = true -> le m v' = true) ->
  forall features features' : gmap string bool,
    (forall k, features !! k = Some true -> features' !! k = Some true) ->
    (features_loop parse le v items features).2 =
    (features_loop parse le v' items features').2 /\
    (forall k,
       (features_loop parse le v items features).1 !! k = Some true ->
       (features_loop parse le v' items features').1 !! k = Some true).
Proof.
  intros Hle. induction items as [|[k m] items IH]; intros f f' Hrel; cbn.
  - auto.
  - destruct (parse m) as [mv|]; cbn; [|auto].
    apply IH. intros k'. rewrite !lookup_insert. case_decide; [|apply Hrel].
    intros [= Hv]. rewrite (Hle mv Hv). reflexivity.
Qed.

Lemma set_false_monotone (items : list (string * string)) :
  forall features features' : gmap string bool,
    (forall k, features !! k = Some true -> features' !! k = Some true) ->
    forall k,
      foldl (fun f item => <[item.1 := false]> f) features items !! k
        = Some true ->
      foldl (fun f item => <[item.1 := false]> f) features' items !! k
        = Some true.
Proof.
  induction items as [|[k0 m] items IH]; intros f f' Hrel; cbn; [exact Hrel|].
  apply IH. intros k. rewrite !lookup_insert. case_decide; [auto|apply Hrel].
Qed.

(** X14.  With a transitive order on versions, a feature reported as supported
    for a device stays reported as supported for any device of the same
    platform with a later version. *)
Theorem supported_features_monotone (info info' : DeviceInfo) (v v' : V)
    (features features' : gmap string bool) :
  (forall a b c, le a b = true -> le b c = true -> le a c = true) ->
  type info = type info' ->
  parse (version info) = Some v ->
  parse (version info') = Some v' ->
  le v v' = true ->
  get_supported_features parse le info = Ok features ->
  get_supported_features parse le info' = Ok features' ->
  forall feature,
    features !! feature = Some true -> features' !! feature = Some true.
Proof.
  intros Htrans Hty Hv Hv' Hle. unfold get_supported_features.
  rewrite Hv, Hv', <- Hty. cbv zeta.
  destruct (features_loop_monotone v v' (FEATURE_SUPPORT (type info))
              (fun m Hm => Htrans m v v' Hm Hle) ∅ ∅ (fun k H => H))
    as [Hdone Hrel].
  destruct (features_loop parse le v (FEATURE_SUPPORT (type info)) ∅)
    as [f done].
  destruct (features_loop parse le v' (FEATURE_SUPPORT (type info)) ∅)
    as [f' done'].
  cbn [fst snd] in *. subst done'.
  destruct done; intros [= <-] [= <-].
  - exact Hrel.
  - apply set_false_monotone. exact Hrel.
Qed.

End Versions.

Lemma get_supported_features_unparsable_witness :
  (exists msg,
     get_supported_features example_parse Z.leb custom_rom =
       Raise (Exn NameError msg)) /\
  is_version_supported example_parse Z.leb custom_rom = false /\
  get_device_compatibility example_parse Z.leb rom_pool "rom1" = Ok (false, ∅).
Proof.
  apply (get_supported_features_unparsable example_parse Z.leb rom_pool "rom1"
           custom_rom); reflexivity.
Defined.

Lemma supported_features_monotone_witness :
  get_supported_features example_parse Z.leb lollipop =
    Ok (list_to_map
          [("performance_metrics", true); ("gpu_monitoring", false);
           ("network_monitoring", true); ("battery_stats", true);
           ("screen_recording", false)]) /\
  get_supported_features example_parse Z.leb snow_cone =
    Ok (list_to_map
          [("performance_metrics", true); ("gpu_monitoring", true);
           ("network_monitoring", true); ("battery_stats", true);
           ("screen_recording", true)]) /\
  (list_to_map
     [("performance_metrics", true); ("gpu_monitoring", true);
      ("network_monitoring", true); ("battery_stats", true);
      ("screen_recording", true)] : gmap string bool) !! "battery_stats"
    = Some true.
Proof.
  split; [reflexivity|]. split; [reflexivity|].
  apply (supported_features_monotone example_parse Z.leb lollipop snow_cone
           50 120
           (list_to_map
              [("performance_metrics", true); ("gpu_monitoring", false);
               ("network_monitoring", true); ("battery_stats", true);
               ("screen_recording", false)])).
  - intros a b c Hab Hbc. apply Z.leb_le in Hab, Hbc. apply Z.leb_le. lia.
  - reflexivity.
  - reflexivity.
  - reflexivity.
  - reflexivity.
  - reflexivity.
  - reflexivity.
  - reflexivity.
Defined.

(** *** Scanning *)

(** One step of a scan either leaves the pool alone or adds the device
    under its serial. *)
Lemma scan_android_step (p : t) (device : string * Outcome (gmap string string)) :
  scan_android p device = p \/
  exists nm ver, scan_android p device = fst (add_device device.1 ANDROID nm ver p).
Proof.
  unfold scan_android. destruct device.2; eauto.
Qed.

Lemma scan_ios_step (p : t) (device : string * Outcome (gmap string string)) :
  scan_ios p device = p \/
  exists nm ver, scan_ios p device = fst (add_device device.1 IOS nm ver p).
Proof.
  unfold scan_ios. destruct device.2; eauto.
Qed.

(** What [add_device] does to the registry, seen from any key. *)
Lemma add_device_lookup (p : t) (device_id key : string) (ty : DeviceType)
    (nm ver : string) :
  devices (fst (add_device device_id ty nm ver p)) !! key =
  match devices p !! key with
  | Some info => Some info
  | None =>
      if decide (key = device_id)
      then Some (DeviceInfo_new device_id ty nm ver)
      else None
  end.
Proof.
  unfold add_device.
  destruct (devices p !! device_id) as [old|] eqn:Hold; cbn.
  - destruct (devices p !! key) eqn:Hkey; [reflexivity|].
    case_decide as Heq; [|reflexivity]. subst key. congruence.
  - rewrite lookup_insert. case_decide as Heq.
    + subst key. rewrite Hold. rewrite decide_True by reflexivity. reflexivity.
    + destruct (devices p !! key); [reflexivity|].
      rewrite decide_False by congruence. reflexivity.
Qed.

(** A sequence of such steps keeps every record it finds, and whatever it
    adds is a fresh record filed under one of the serials it went
    through. *)
Lemma scan_steps (step : t -> string * Outcome (gmap string string) -> t)
    (found : list (string * Outcome (gmap string string))) :
  (forall p device,
     step p device = p \/
     exists ty nm ver, step p device = fst (add_device device.1 ty nm ver p)) ->
  forall p : t,
    let p' := foldl step p found in
    (forall key info, devices p !! key = Some info ->
                      devices p' !! key = Some info) /\
    (forall key info',
       devices p !! key = None -> devices p' !! key = Some info' ->
       key ∈ found.*1 /\
       exists ty nm ver, info' = DeviceInfo_new key ty nm ver).
Proof.
  intros Hstep. induction found as [|device found IH]; intros p; cbn.
  - split; [auto|]. intros key info' Hnone Hsome. congruence.
  - destruct (IH (step p device)) as [Hkeep Hnew]. cbv zeta in Hkeep, Hnew.
    assert (Hlook : forall key,
              devices (step p device) !! key = devices p !! key \/
              (devices p !! key = None /\ key = device.1 /\
               exists ty nm ver,
                 devices (step p device) !! key =
                   Some (DeviceInfo_new key ty nm ver))).
    { intros key. destruct (Hstep p device) as [->|(ty & nm & ver & ->)];
        [auto|].
      rewrite add_device_lookup. destruct (devices p !! key); [auto|].
      case_decide as Heq; [|auto]. subst key. right. eauto 10. }
    split.
    + intros key info Hinfo. apply Hkeep.
      destruct (Hlook key) as [->|(Hnone & _)]; congruence.
    + intros key info' Hnone Hsome.
      destruct (Hlook key) as [Heq|(_ & -> & ty & nm & ver & Hadded)].
      * rewrite <- Heq in Hnone.
        destruct (Hnew key info' Hnone Hsome) as [Hin Hfresh].
        split; [right; exact Hin|exact Hfresh].
      * split; [left|].
        rewrite (Hkeep _ _ Hadded) in Hsome. injection Hsome as <-. eauto.
Qed.

(** Every device of the listing whose properties can be read is registered
    once the steps are done. *)
Lemma scan_android_registers
    (found : list (string * Outcome (gmap string string))) :
  forall (p : t) (serial : string) (props : gmap string string),
    (serial, Ok props) ∈ found ->
    is_Some (devices (foldl scan_android p found) !! serial).
Proof.
  induction found as [|device found IH]; intros p serial props Hin;
    [inversion Hin|].
  cbn. apply elem_of_cons in Hin as [<-|Hin]; [|eapply IH; exact Hin].
  assert (Hnow : is_Some (devices (scan_android p (serial, Ok props)) !! serial)).
  { unfold scan_android. cbn. rewrite add_device_lookup.
    destruct (devices p !! serial); [eauto|].
    rewrite decide_True by reflexivity. eauto. }
  destruct Hnow as [info Hinfo].
  destruct (scan_steps scan_android found) with (p := scan_android p (serial, Ok props))
    as [Hkeep _].
  { intros q device. destruct (scan_android_step q device) as [H|(nm & ver & H)];
      eauto 10. }
  cbv zeta in Hkeep. rewrite (Hkeep _ _ Hinfo). eauto.
Qed.

(** X15.  [scan_devices] never overwrites a record: a device that is registered
    already keeps its record, whatever the scan reads about it.  Every
    attached Android device whose properties can be read is registered after
    the scan, and every record the scan adds is a fresh one ("disconnected",
    [last_seen = 0.0], counter 0) filed under the serial or udid of an
    attached device.  The list returned is [get_all_devices] of the pool
    after the scan. *)
Theorem scan_devices_registers (b : ScanBackend) (p : t)
    (android : list (string * Outcome (gmap string string))) :
  scan_adb b = Ok android ->
  let p' := snd (scan_devices b p) in
  fst (scan_devices b p) = Ok (get_all_devices p') /\
  (forall key info, devices p !! key = Some info ->
                    devices p' !! key = Some info) /\
  (forall serial props,
     (serial, Ok props) ∈ android -> is_Some (devices p' !! serial)) /\
  (forall key info',
     devices p !! key = None -> devices p' !! key = Some info' ->
     (key ∈ android.*1 \/
      exists ios, scan_usbmux b = Ok ios /\ key ∈ ios.*1) /\
     status info' = "disconnected" /\ last_seen info' = 0.0%Q /\
     reconnect_attempts info' = 0 /\ id info' = key).
Proof.
  intros Hadb p'. subst p'. unfold scan_devices. rewrite Hadb. cbn [fst snd].
  set (p1 := foldl scan_android p android).
  destruct (scan_steps scan_android android) with (p := p) as [Hkeep1 Hnew1].
  { intros q device. destruct (scan_android_step q device) as [H|(nm & ver & H)];
      eauto 10. }
  cbv zeta in Hkeep1, Hnew1. fold p1 in Hkeep1, Hnew1.
  assert (Hreg : forall serial props,
            (serial, Ok props) ∈ android -> is_Some (devices p1 !! serial)).
  { intros serial props Hin. apply (scan_android_registers android p serial props Hin). }
  destruct (scan_usbmux b) as [ios|e].
  - destruct (scan_steps scan_ios ios) with (p := p1) as [Hkeep2 Hnew2].
    { intros q device. destruct (scan_ios_step q device) as [H|(nm & ver & H)];
        eauto 10. }
    cbv zeta in Hkeep2, Hnew2.
    split_and!; [reflexivity|auto| |].
    + intros serial props Hin. destruct (Hreg serial props Hin) as [info Hinfo].
      rewrite (Hkeep2 _ _ Hinfo). eauto.
    + intros key info' Hnone Hsome.
      destruct (devices p1 !! key) as [info1|] eqn:Hp1.
      * rewrite (Hkeep2 _ _ Hp1) in Hsome. injection Hsome as <-.
        destruct (Hnew1 key info1 Hnone Hp1) as (Hin & ty & nm & ver & ->).
        split_and!; auto.
      * destruct (Hnew2 key info' Hp1 Hsome) as (Hin & ty & nm & ver & ->).
        split_and!; eauto.
  - split_and!; [reflexivity|auto|auto|].
    intros key info' Hnone Hsome.
    destruct (Hnew1 key info' Hnone Hsome) as (Hin & ty & nm & ver & ->).
    split_and!; auto.
Qed.

Lemma scan_devices_registers_witness :
  let p' := snd (scan_devices scan_found two_devices) in
  fst (scan_devices scan_found two_devices) = Ok (get_all_devices p') /\
  devices p' !! "android123" =
    Some (DeviceInfo_new "android123" ANDROID "Test Android" "12.0") /\
  is_Some (devices p' !! "pixel7") /\
  devices p' !! "locked1" = None.
Proof.
  destruct (scan_devices_registers scan_found two_devices found_android
              eq_refl) as (Hlist & Hkeep & Hreg & _).
  split; [exact Hlist|]. split; [|split].
  - apply Hkeep. reflexivity.
  - apply (Hreg "pixel7" pixel_props). apply list_elem_of_here.
  - reflexivity.
Defined.

(** *** Waiting through the manager *)

Lemma polls_of_waited (device_id : string) (n : nat) :
  length (List.filter is_poll (waited device_id n ++ [Polled device_id])) =
  S n.
Proof.
  induction n as [|n IH]; [reflexivity|].
  rewrite waited_S. cbn. rewrite IH. reflexivity.
Qed.

(** X16.  When the wait of the pool succeeds at its poll [n],
    [DeviceManager.wait_for_device] returns what the registry holds under
    the id at the next read, not what the poll saw: a connected record if
    the registry has not changed in between, but possibly a record that is
    no longer connected, or nothing, if it has. *)
Theorem manager_wait_reads_again (fuel : nat) (env : WaitEnv)
    (device_id : string) (timeout : Z) (events : list WaitEvent) :
  DevicePool.wait_for_device fuel env device_id timeout =
    Some (true, events) ->
  exists n : nat,
    connected_at env device_id n = true /\
    DeviceManager.wait_for_device fuel env device_id timeout =
      Some (get_device_info device_id (pool_at env (S n))) /\
    (pool_at env (S n) = pool_at env n ->
     exists info,
       DeviceManager.wait_for_device fuel env device_id timeout =
         Some (Some info) /\
       status info = "connected").
Proof.
  intros Hwait. unfold DeviceManager.wait_for_device. rewrite Hwait.
  unfold DevicePool.wait_for_device in Hwait.
  apply DevicePoolMore.wait_loop_result in Hwait as (n & _ & _ & Hconn & ->).
  cbn [app Nat.add] in *. rewrite polls_of_waited.
  exists n. split; [exact Hconn|]. split; [reflexivity|].
  intros ->. unfold connected_at in Hconn.
  destruct (get_device_info device_id (pool_at env n)) as [info|];
    [|discriminate].
  exists info. split; [reflexivity|].
  apply bool_decide_eq_true in Hconn. exact Hconn.
Qed.

Lemma manager_wait_reads_again_witness :
  (exists n : nat,
     connected_at connecting_env "android123" n = true /\
     DeviceManager.wait_for_device 10 connecting_env "android123" 30 =
       Some (get_device_info "android123" (pool_at connecting_env (S n))) /\
     (pool_at connecting_env (S n) = pool_at connecting_env n ->
      exists info,
        DeviceManager.wait_for_device 10 connecting_env "android123" 30 =
          Some (Some info) /\
        status info = "connected")) /\
  (exists info,
     DeviceManager.wait_for_device 10 flapping_env "android123" 30 =
       Some (Some info) /\
     status info = "disconnected").
Proof.
  split.
  - apply (manager_wait_reads_again 10 connecting_env "android123" 30
             [Polled "android123"; Slept 1; Polled "android123"; Slept 1;
              Polled "android123"]).
    reflexivity.
  - eexists. split; reflexivity.
Defined.

End DeviceManagerFacts.

(** ** advanced_features.py: further properties *)

Module AdvancedMore.
Import Advanced AdvancedExamples AdvancedMoreExamples AdvancedFacts.

(** *** HealthMonitor *)

Lemma last_last_n {A : Type} (n : nat) (l : list A) (x : A) :
  last (last_n (S n) (l ++ [x])) = Some x.
Proof.
  unfold last_n. rewrite length_app. cbn [length].
  rewrite drop_app_le by lia. apply last_snoc.
Qed.

(** X17.  When the metrics read succeeds with the three mandatory keys, the
    snapshot returned carries the metrics as read (the optional ones absent
    when the dictionary lacks them), it is the newest entry of the history of
    the device, and the history of no other device changes. *)
Theorem check_device_health_records_snapshot (s : Sys) (id : string)
    (d : Device) (m : gmap string Q) (cpu mem conn : Q) :
  pool_devices s !! id = Some d ->
  get_metrics d = Ok m ->
  m !! "cpu_usage" = Some cpu ->
  m !! "memory_usage" = Some mem ->
  m !! "connection_strength" = Some conn ->
  exists h : DeviceHealth,
    fst (check_device_health id s) = Ok h /\
    device_id h = id /\ cpu_usage h = cpu /\ memory_usage h = mem /\
    connection_strength h = conn /\
    battery_level h = m !! "battery_level" /\
    temperature h = m !! "temperature" /\
    last_error h = None /\
    last (default [] (health_history (snd (check_device_health id s)) !! id))
      = Some h /\
    (forall other, other <> id ->
       health_history (snd (check_device_health id s)) !! other =
       health_history s !! other).
Proof.
  intros Hd Hm Hcpu Hmem Hconn.
  rewrite (check_device_health_ok s id d m cpu mem conn Hd Hm Hcpu Hmem Hconn).
  eexists. split; [reflexivity|]. cbn -[push_history].
  split_and!; try reflexivity.
  - unfold push_history. rewrite lookup_insert_eq. cbn [default].
    apply (last_last_n 99).
  - intros other Hne. unfold push_history. apply lookup_insert_ne. congruence.
Qed.

Lemma check_device_health_records_snapshot_witness :
  exists h : DeviceHealth,
    fst (check_device_health "device1" hot_sys) = Ok h /\
    device_id h = "device1" /\ cpu_usage h = 50.0%Q /\
    memory_usage h = 60.0%Q /\ connection_strength h = 20.0%Q /\
    battery_level h = hot_metrics !! "battery_level" /\
    temperature h = hot_metrics !! "temperature" /\
    last_error h = None /\
    last (default []
            (health_history (snd (check_device_health "device1" hot_sys))
               !! "device1")) = Some h /\
    (forall other, other <> "device1" ->
       health_history (snd (check_device_health "device1" hot_sys)) !! other =
       health_history hot_sys !! other).
Proof.
  apply (check_device_health_records_snapshot hot_sys "device1"
           (device_with (Ok hot_metrics)) hot_metrics);
    reflexivity.
Defined.

Lemma check_device_health_warning_iff_witness :
  exists h,
    fst (check_device_health "device1" hot_sys) = Ok h /\
    (status h = "warning" \/ status h = "healthy") /\
    (status h = "warning" <->
     (90.0 < 50.0)%Q \/ (90.0 < 60.0)%Q \/
     (exists b, hot_metrics !! "battery_level" = Some b /\ (15.0 < b)%Q) \/
     (exists t, hot_metrics !! "temperature" = Some t /\ (45.0 < t)%Q) \/
     (30.0 < 20.0)%Q).
Proof.
  apply (check_device_health_warning_iff hot_sys "device1"
           (device_with (Ok hot_metrics)) hot_metrics);
    reflexivity.
Defined.

(** X19.  When the metrics read returns a dictionary that lacks "cpu_usage",
    "memory_usage" or "connection_strength", the [KeyError] is handled like
    a failed read: the error snapshot is returned, its [last_error] being
    the quoted name of the first missing key, and nothing is recorded. *)
Theorem check_device_health_missing_key (s : Sys) (id : string) (d : Device)
    (m : gmap string Q) :
  pool_devices s !! id = Some d ->
  get_metrics d = Ok m ->
  m !! "cpu_usage" = None \/ m !! "memory_usage" = None \/
  m !! "connection_strength" = None ->
  exists key : string,
    key ∈ ["cpu_usage"; "memory_usage"; "connection_strength"] /\
    m !! key = None /\
    fst (check_device_health id s) =
      Ok (error_health id (Exn KeyError ("'" +:+ key +:+ "'"))) /\
    health_history (snd (check_device_health id s)) = health_history s.
Proof.
  intros Hd Hm Hmissing.
  unfold check_device_health, bind, get_device, gets. rewrite Hd.
  unfold try_except, call_backend, subscript, ret, raise. rewrite Hm.
  destruct (m !! "cpu_usage") as [cpu|] eqn:Hcpu.
  2:{ exists "cpu_usage". split; [repeat constructor|].
      split; [exact Hcpu|]. split; reflexivity. }
  destruct (m !! "memory_usage") as [mem|] eqn:Hmem.
  2:{ exists "memory_usage". split; [repeat constructor|].
      split; [exact Hmem|]. split; reflexivity. }
  destruct (m !! "connection_strength") as [conn|] eqn:Hconn.
  2:{ exists "connection_strength". split; [repeat constructor|].
      split; [exact Hconn|]. split; reflexivity. }
  exfalso. destruct Hmissing as [H|[H|H]]; discriminate.
Qed.

Lemma check_device_health_missing_key_witness :
  exists key : string,
    key ∈ ["cpu_usage"; "memory_usage"; "connection_strength"] /\
    partial_metrics !! key = None /\
    fst (check_device_health "device1" partial_sys) =
      Ok (error_health "device1" (Exn KeyError ("'" +:+ key +:+ "'"))) /\
    health_history (snd (check_device_health "device1" partial_sys)) =
      health_history partial_sys.
Proof.
  apply (check_device_health_missing_key partial_sys "device1"
           (device_with (Ok partial_metrics)) partial_metrics);
    [reflexivity | reflexivity |].
  right. left. reflexivity.
Defined.

(** *** PerformanceProfiler *)

(** X20. [_collect_metrics] never raises and leaves the history alone. When the
    device is resolved, answers the ping and returns metrics with "throughput"
    and "error_rate", the sample carries them, its response time is the time
    between the two clock readings around the ping and its time stamp the third
    reading. In every other case (unknown device, failed ping, failed read,
    missing key) the sample is the worst case: response time 0.0, throughput
    0.0, error rate 1.0. *)
Theorem collect_metrics_outcomes (s : Sys) (id : string) :
  exists (m : PerformanceMetrics) (s' : Sys),
    _collect_metrics id s = (Ok m, s') /\
    pm_device_id m = id /\
    metrics_history s' = metrics_history s /\
    (forall d v metrics th er,
       pool_devices s !! id = Some d -> ping d = Ok v ->
       get_metrics d = Ok metrics ->
       metrics !! "throughput" = Some th ->
       metrics !! "error_rate" = Some er ->
       response_time m = (clock s (S (ticks s)) - clock s (ticks s))%Q /\
       throughput m = th /\ error_rate m = er /\
       timestamp m = clock s (S (S (ticks s)))) /\
    (pool_devices s !! id = None \/
     (exists d e, pool_devices s !! id = Some d /\ ping d = Raise e) \/
     (exists d e, pool_devices s !! id = Some d /\ get_metrics d = Raise e) \/
     (exists d metrics,
        pool_devices s !! id = Some d /\ get_metrics d = Ok metrics /\
        (metrics !! "throughput" = None \/ metrics !! "error_rate" = None)) ->
     response_time m = 0.0%Q /\ throughput m = 0.0%Q /\
     error_rate m = 1.0%Q).
Proof.
  unfold _collect_metrics, bind, get_device, gets, time_time, try_except.
  destruct (pool_devices s !! id) as [d|] eqn:Hd; cbn -[Qminus].
  2:{ eexists; eexists. split; [reflexivity|]. split_and!; try reflexivity.
      - intros; discriminate.
      - intros _. split_and!; reflexivity. }
  unfold call_backend. destruct (ping d) as [v|e] eqn:Hping; cbn -[Qminus].
  2:{ eexists; eexists. split; [reflexivity|]. split_and!; try reflexivity.
      - intros d0 v0 metrics th er [= <-] Hv. congruence.
      - intros _. split_and!; reflexivity. }
  destruct (get_metrics d) as [metrics|e] eqn:Hmetrics; cbn -[Qminus].
  2:{ eexists; eexists. split; [reflexivity|]. split_and!; try reflexivity.
      - intros d0 v0 metrics th er [= <-] _ Hm. congruence.
      - intros _. split_and!; reflexivity. }
  unfold subscript.
  destruct (metrics !! "throughput") as [th|] eqn:Hth; cbn -[Qminus].
  2:{ eexists; eexists. split; [reflexivity|]. split_and!; try reflexivity.
      - intros d0 v0 metrics0 th er [= <-] _ Hm Hth0. congruence.
      - intros _. split_and!; reflexivity. }
  destruct (metrics !! "error_rate") as [er|] eqn:Her; cbn -[Qminus].
  2:{ eexists; eexists. split; [reflexivity|]. split_and!; try reflexivity.
      - intros d0 v0 metrics0 th0 er [= <-] _ Hm _ Her0. congruence.
      - intros _. split_and!; reflexivity. }
  eexists; eexists. split; [reflexivity|]. split_and!; try reflexivity.
  - intros d0 v0 metrics0 th0 er0 [= <-] _ Hm Hth0 Her0.
    assert (metrics0 = metrics) by congruence. subst metrics0.
    cbn -[Qminus]. split_and!; [reflexivity| congruence | congruence | reflexivity].
  - intros [Hnone|[(d0 & e & [= <-] & He)|[(d0 & e & [= <-] & He)|
             (d0 & metrics0 & [= <-] & Hm & Hmissing)]]];
      try congruence.
    assert (metrics0 = metrics) by congruence. subst metrics0.
    destruct Hmissing; congruence.
Qed.

(** X21.  [start_profiling] never returns a sample.  For an id the pool does not
    resolve it raises [DeviceError] at once; for a registered device it
    returns the empty list when the duration has elapsed at the first test
    of the loop, and otherwise records one sample and raises [NameError];
    so a list it returns is always empty. *)
Theorem start_profiling_outcomes (fuel : nat) (s : Sys) (id : string)
    (duration : Z) :
  (pool_devices s !! id = None ->
   start_profiling fuel id duration s =
     (Raise (Exn DeviceError ("Device " +:+ id +:+ " not found")), s)) /\
  (is_Some (pool_devices s !! id) ->
   (inject_Z duration <= clock s (S (ticks s)) - clock s (ticks s))%Q ->
   fst (start_profiling (S fuel) id duration s) = Ok (Some []) /\
   metrics_history (snd (start_profiling (S fuel) id duration s)) =
     metrics_history s /\
   calls (snd (start_profiling (S fuel) id duration s)) = calls s) /\
  (is_Some (pool_devices s !! id) ->
   (clock s (S (ticks s)) - clock s (ticks s) < inject_Z duration)%Q ->
   fst (start_profiling (S fuel) id duration s) =
     Raise (Exn NameError "name 'asyncio' is not defined") /\
   exists m,
     pm_device_id m = id /\
     metrics_history (snd (start_profiling (S fuel) id duration s)) =
       push_history 1000 id m (metrics_history s)) /\
  (forall l,
     fst (start_profiling fuel id duration s) = Ok (Some l) -> l = []).
Proof.
  split_and!.
  - intros Hnone. unfold start_profiling, bind, get_device, gets.
    rewrite Hnone. reflexivity.
  - intros [d Hd] Hge. apply Qltb_ge in Hge.
    assert (Hrun : start_profiling (S fuel) id duration s =
                   (Ok (Some []), set_ticks S (set_ticks S s))).
    { unfold start_profiling, bind, get_device, gets. rewrite Hd.
      unfold time_time at 1. cbn [profiling_loop].
      unfold bind at 1, time_time. cbn [clock ticks set_ticks].
      rewrite Hge. reflexivity. }
    rewrite Hrun. split_and!; reflexivity.
  - intros [d Hd] Hlt.
    destruct (profiling_loop_entered fuel (set_ticks S s) id
                (clock s (ticks s)) duration [] Hlt)
      as (m & s' & Hloop & Hid & Hhist & _).
    assert (Hrun : start_profiling (S fuel) id duration s =
                   (Raise (Exn NameError "name 'asyncio' is not defined"),
                    s')).
    { unfold start_profiling, bind, get_device, gets. rewrite Hd.
      unfold time_time at 1. exact Hloop. }
    rewrite Hrun. split; [reflexivity|]. exists m. split; [exact Hid|].
    exact Hhist.
  - intros l. apply start_profiling_returns_nothing.
Qed.

(** *** AutoRecovery *)

(** What [check_and_recover] can do to the counters: leave them alone,
    reset the counter of the device, or add one to a counter that was below
    the maximum. *)
Lemma check_and_recover_counters (s : Sys) (id : string) :
  let s' := snd (check_and_recover id s) in
  max_attempts s' = max_attempts s /\
  (recovery_attempts s' = recovery_attempts s \/
   recovery_attempts s' = <[id := 0]> (recovery_attempts s) \/
   (attempts_of id s < max_attempts s /\
    recovery_attempts s' =
      <[id := attempts_of id s + 1]> (recovery_attempts s))).
Proof.
  pose proof (check_device_health_frame s id) as Hframe.
  cbv zeta in Hframe. cbv zeta.
  unfold check_and_recover, bind.
  destruct (check_device_health id s) as [[h|e] s1]; cbn [snd] in Hframe;
    destruct Hframe as (Hpool & _ & Hrec & Hmax & _).
  2:{ cbn. auto. }
  assert (Hatt : attempts_of id s1 = attempts_of id s).
  { unfold attempts_of. rewrite Hrec. reflexivity. }
  destruct (String.eqb (status h) "healthy").
  { unfold modify, ret. cbn. rewrite Hrec. auto. }
  unfold gets. rewrite Hatt, Hmax.
  destruct (Z.leb_spec (max_attempts s) (attempts_of id s)) as [Hle|Hlt].
  { unfold ret. cbn. auto. }
  unfold try_except.
  destruct (pool_devices s1 !! id) as [d|] eqn:Hd.
  - pose proof (_attempt_recovery_run s1 id d h Hd) as Hrun.
    cbv zeta in Hrun. destruct Hrun as (_ & Hrec2 & Hmax2 & _).
    destruct (_attempt_recovery id h s1) as [[[]|e] s2]; cbn [fst snd] in *.
    + unfold modify, ret, gets. cbn.
      assert (Hatt2 : attempts_of id s2 = attempts_of id s).
      { unfold attempts_of. rewrite Hrec2, Hrec. reflexivity. }
      rewrite Hatt2, Hrec2, Hrec, Hmax2, Hmax. auto.
    + unfold ret. cbn. rewrite Hrec2, Hrec, Hmax2, Hmax. auto.
  - unfold _attempt_recovery, bind, get_device, gets. rewrite Hd.
    unfold raise, ret. cbn. auto.
Qed.

(** X22.  The recovery counter of a device stays between 0 and [max_attempts]
    through every call of [check_and_recover], whatever the call returns or
    raises, and the call touches the counter of no other device. *)
Theorem recovery_counter_bounded (s : Sys) (id : string) :
  0 <= attempts_of id s <= max_attempts s ->
  let s' := snd (check_and_recover id s) in
  0 <= attempts_of id s' <= max_attempts s' /\
  max_attempts s' = max_attempts s /\
  (forall other, other <> id ->
     recovery_attempts s' !! other = recovery_attempts s !! other).
Proof.
  intros Hbound s'.
  destruct (check_and_recover_counters s id) as [Hmax Hcases].
  fold s' in Hmax, Hcases. rewrite Hmax. unfold attempts_of in *.
  destruct Hcases as [->|[->|[Hlt ->]]].
  - auto.
  - rewrite lookup_insert_eq. cbn. split_and!; [lia|lia|reflexivity|].
    intros other Hne. apply lookup_insert_ne. congruence.
  - rewrite lookup_insert_eq. cbn. split_and!; [lia|lia|reflexivity|].
    intros other Hne. apply lookup_insert_ne. congruence.
Qed.

Lemma recovery_counter_bounded_witness :
  (let s' := snd (check_and_recover "device1" overloaded_sys) in
   0 <= attempts_of "device1" s' <= max_attempts s' /\
   max_attempts s' = max_attempts overloaded_sys /\
   (forall other, other <> "device1" ->
      recovery_attempts s' !! other = recovery_attempts overloaded_sys !! other)) /\
  (let s' := snd (check_and_recover "device1" exhausted_sys) in
   0 <= attempts_of "device1" s' <= max_attempts s' /\
   max_attempts s' = max_attempts exhausted_sys /\
   (forall other, other <> "device1" ->
      recovery_attempts s' !! other = recovery_attempts exhausted_sys !! other)).
Proof.
  split.
  - apply (recovery_counter_bounded overloaded_sys "device1").
    vm_compute. split; discriminate.
  - apply (recovery_counter_bounded exhausted_sys "device1").
    vm_compute. split; discriminate.
Defined.

(** X23.  After a failed metrics read the snapshot is the error snapshot (usage
    0.0, connection strength 0.0, status "error"), so a device that has
    attempts left is reconnected, then rebooted, and its applications are
    never restarted; the attempt is counted and [True] returned when both
    calls succeed, and when one raises the result is [False], the counter is
    left as it was and the reboot is skipped after a failed reconnect. *)
Theorem failed_read_recovery (s : Sys) (id : string) (d : Device) (e : exn) :
  pool_devices s !! id = Some d ->
  get_metrics d = Raise e ->
  attempts_of id s < max_attempts s ->
  let r := check_and_recover id s in
  calls (snd r) =
    calls s ++ [CallGetMetrics id; CallReconnect id] ++
    match reconnect d with
    | Ok _ => [CallReboot id]
    | Raise _ => []
    end /\
  (reconnect d = Ok tt -> reboot d = Ok tt ->
   fst r = Ok true /\
   recovery_attempts (snd r) =
     <[id := attempts_of id s + 1]> (recovery_attempts s)) /\
  ((exists e', reconnect d = Raise e') \/ (exists e', reboot d = Raise e') ->
   fst r = Ok false /\
   recovery_attempts (snd r) = recovery_attempts s).
Proof.
  intros Hd He Hlt r. subst r.
  unfold check_and_recover, bind.
  rewrite (check_device_health_raise s id d e Hd He).
  change (String.eqb (status (error_health id e)) "healthy") with false.
  cbv iota. unfold gets.
  change (attempts_of id (set_calls (fun l => l ++ [CallGetMetrics id]) s))
    with (attempts_of id s).
  change (max_attempts (set_calls (fun l => l ++ [CallGetMetrics id]) s))
    with (max_attempts s).
  destruct (Z.leb_spec (max_attempts s) (attempts_of id s)) as [Hle|_];
    [lia|].
  unfold try_except, _attempt_recovery, bind, get_device, gets.
  change (pool_devices (set_calls (fun l => l ++ [CallGetMetrics id]) s))
    with (pool_devices s).
  rewrite Hd. unfold call_backend, modify, ret.
  cbn [error_health cpu_usage memory_usage connection_strength status].
  change (Qltb 90 0.0) with false. change (Qltb 0.0 30) with true.
  change (String.eqb "error" "error") with true.
  destruct (reconnect d) as [[]|e1]; destruct (reboot d) as [[]|e2];
    cbn; rewrite <- ?app_assoc; (split; [reflexivity|]); split;
    try (intros; discriminate); try (intros; split; reflexivity).
  - intros [[e' He']|[e' He']]; discriminate.
Qed.

Lemma failed_read_recovery_witness :
  calls (snd (check_and_recover "device1" unreadable_sys)) =
    calls unreadable_sys ++
    [CallGetMetrics "device1"; CallReconnect "device1"] ++
    [CallReboot "device1"] /\
  fst (check_and_recover "device1" unreadable_sys) = Ok true.
Proof.
  destruct (failed_read_recovery unreadable_sys "device1" unreadable_device
              silent_failure)
    as (Hcalls & Hok & _).
  - reflexivity.
  - reflexivity.
  - reflexivity.
  - split; [exact Hcalls|]. apply Hok; reflexivity.
Defined.

(** X24.  A device whose read succeeds with usage at most 90 and a connection
    strength above 30 is classified "warning" for its connection alone, and
    none of the recovery conditions holds: [check_and_recover] makes no
    recovery call on it, yet counts an attempt and returns [True]. *)
Theorem idle_recovery_counts_attempt (s : Sys) (id : string) (d : Device)
    (m : gmap string Q) (cpu mem conn : Q) :
  pool_devices s !! id = Some d ->
  get_metrics d = Ok m ->
  m !! "cpu_usage" = Some cpu ->
  m !! "memory_usage" = Some mem ->
  m !! "connection_strength" = Some conn ->
  (cpu <= 90)%Q -> (mem <= 90)%Q -> (30 < conn)%Q ->
  attempts_of id s < max_attempts s ->
  let r := check_and_recover id s in
  fst r = Ok true /\
  calls (snd r) = calls s ++ [CallGetMetrics id] /\
  recovery_attempts (snd r) =
    <[id := attempts_of id s + 1]> (recovery_attempts s).
Proof.
  intros Hd Hm Hcpu Hmem Hconn Hc Hme Hco Hlt r. subst r.
  unfold check_and_recover, bind.
  rewrite (check_device_health_ok s id d m cpu mem conn Hd Hm Hcpu Hmem Hconn).
  cbn [status cpu_usage memory_usage connection_strength].
  assert (E1 : Qltb 90.0 cpu = false) by (apply Qltb_ge; lra).
  assert (E2 : Qltb 90.0 mem = false) by (apply Qltb_ge; lra).
  assert (E3 : Qltb 30.0 conn = true) by (apply Qltb_lt; lra).
  assert (E4 : Qltb 90 cpu = false) by (apply Qltb_ge; exact Hc).
  assert (E5 : Qltb 90 mem = false) by (apply Qltb_ge; exact Hme).
  assert (E6 : Qltb conn 30 = false) by (apply Qltb_ge; lra).
  rewrite E1, E2, E3, !orb_true_r.
  change (String.eqb "warning" "healthy") with false. cbv iota.
  unfold gets.
  set (s1 := set_health_history _ _).
  change (attempts_of id s1) with (attempts_of id s).
  change (max_attempts s1) with (max_attempts s).
  destruct (Z.leb_spec (max_attempts s) (attempts_of id s)) as [Hle|_];
    [lia|].
  unfold try_except, _attempt_recovery, bind, get_device, gets.
  change (pool_devices s1) with (pool_devices s). rewrite Hd.
  cbn [status cpu_usage memory_usage connection_strength].
  rewrite E4, E5, E6.
  change (String.eqb "warning" "error") with false.
  cbn. split_and!; reflexivity.
Qed.

Lemma idle_recovery_counts_attempt_witness :
  fst (check_and_recover "device1" fixture_sys) = Ok true /\
  calls (snd (check_and_recover "device1" fixture_sys)) =
    calls fixture_sys ++ [CallGetMetrics "device1"] /\
  recovery_attempts (snd (check_and_recover "device1" fixture_sys)) =
    <[ "device1" := attempts_of "device1" fixture_sys + 1 ]>
      (recovery_attempts fixture_sys).
Proof.
  apply (idle_recovery_counts_attempt fixture_sys "device1" fixture_device
           fixture_metrics 50.0%Q 60.0%Q 90.0%Q);
    try reflexivity; vm_compute; discriminate.
Defined.

(** *** BatchOperationManager *)

(** A task calls the operation once when the pool resolves the id, and
    makes no call otherwise. *)
Lemma _execute_single_operation_calls (s : Sys) (id op : string)
    (params : Params) :
  calls (snd (_execute_single_operation id op params s)) =
    calls s ++
    match pool_devices s !! id with
    | Some _ => [CallOperation id op params]
    | None => []
    end.
Proof.
  unfold _execute_single_operation, bind, get_device, gets.
  destruct (pool_devices s !! id) as [d|].
  - unfold try_except, call_backend, ret, raise.
    destruct (operation d op params); reflexivity.
  - cbn. rewrite app_nil_r. reflexivity.
Qed.

Lemma submit_all_calls (op : string) (params : Params)
    (pool : gmap string Device) (devices : list string) :
  forall s,
    pool_devices s = pool ->
    calls (snd (submit_all devices op params s)) =
      calls s ++
      ((fun id => CallOperation id op params) <$>
         filter (fun id => is_Some (pool !! id)) devices).
Proof.
  induction devices as [|id devices IH]; intros s Hpool.
  - cbn. rewrite app_nil_r. reflexivity.
  - cbn [submit_all]. unfold bind at 1. unfold submit.
    pose proof (_execute_single_operation_calls s id op params) as Hcalls.
    destruct (_execute_single_operation_run s id op params)
      as (_ & Hpool1 & _).
    destruct (_execute_single_operation id op params s) as [r s1].
    cbn [fst snd] in *. unfold bind.
    specialize (IH s1 (eq_trans Hpool1 Hpool)).
    destruct (submit_all devices op params s1) as [[futures|e] s2];
      cbn [snd] in *; unfold ret; cbn [snd];
      rewrite IH, Hcalls, Hpool, filter_cons;
      destruct (decide (is_Some (pool !! id))) as [[d Hd]|Hnone].
    + rewrite Hd, fmap_cons, <- app_assoc. reflexivity.
    + destruct (pool !! id); [exfalso; eauto|].
      rewrite app_nil_r. reflexivity.
    + rewrite Hd, fmap_cons, <- app_assoc. reflexivity.
    + destruct (pool !! id); [exfalso; eauto|].
      rewrite app_nil_r. reflexivity.
Qed.

(** X25.  The calls [execute_batch] makes on the devices are one call of the
    operation for each occurrence, in the requested list, of an id the pool
    resolves, and no other: an id listed twice has its operation run twice
    though it gets one entry, an unknown id causes no call, and an empty
    request gives the empty dictionary without any call. *)
Theorem execute_batch_calls (s : Sys) (op : string) (params : Params)
    (devices : option (list string)) :
  let requested := default (pool_listing s) devices in
  exists made,
    calls (snd (execute_batch op params devices s)) = calls s ++ made /\
    made ≡ₚ
      ((fun id => CallOperation id op params) <$>
         filter (fun id => is_Some (pool_devices s !! id)) requested) /\
    (forall id,
       pool_devices s !! id = None -> CallOperation id op params ∉ made) /\
    (requested = [] ->
     fst (execute_batch op params devices s) = Ok ∅ /\ made = []).
Proof.
  intros requested.
  exists ((fun id => CallOperation id op params) <$>
            filter (fun id => is_Some (pool_devices s !! id)) requested).
  assert (Hreq : (match devices with
                  | Some devices0 => ret devices0
                  | None => list_devices
                  end) s = (Ok requested, s)).
  { subst requested. destruct devices; reflexivity. }
  split_and!.
  - unfold execute_batch, bind. rewrite Hreq.
    pose proof (submit_all_calls op params (pool_devices s) requested s
                  eq_refl) as Hcalls.
    destruct (submit_all requested op params s) as [[futures|e] s'];
      exact Hcalls.
  - reflexivity.
  - intros id Hnone Hin.
    apply list_elem_of_fmap in Hin as (id' & [= <-] & Hin).
    apply list_elem_of_filter in Hin as [[d Hd] _]. congruence.
  - intros Hnil. unfold execute_batch, bind. rewrite Hreq, Hnil.
    split; reflexivity.
Qed.

(** *** ProfileManager *)

Lemma set_all_lookup_notin (items : list (string * Value)) (k : string) :
  forall a, k ∉ items.*1 -> set_all items a !! k = a !! k.
Proof.
  induction items as [|[k0 v0] items IH]; intros a Hnin; [reflexivity|].
  cbn in Hnin. apply not_elem_of_cons in Hnin as [Hne Hnin].
  change (set_all ((k0, v0) :: items) a)
    with (set_all items (<[k0 := v0]> a)).
  rewrite IH by exact Hnin. apply lookup_insert_ne. congruence.
Qed.

Lemma set_all_lookup_in (items : list (string * Value)) (k : string) :
  forall a b, k ∈ items.*1 -> set_all items a !! k = set_all items b !! k.
Proof.
  induction items as [|[k0 v0] items IH]; intros a b Hin.
  - apply not_elem_of_nil in Hin. contradiction.
  - change (set_all ((k0, v0) :: items) a)
      with (set_all items (<[k0 := v0]> a)).
    change (set_all ((k0, v0) :: items) b)
      with (set_all items (<[k0 := v0]> b)).
    destruct (decide (k ∈ items.*1)) as [Hrest|Hrest].
    + apply IH. exact Hrest.
    + cbn in Hin. apply elem_of_cons in Hin as [->|Hin]; [|contradiction].
      rewrite !set_all_lookup_notin by exact Hrest.
      rewrite !lookup_insert_eq. reflexivity.
Qed.

(** Setting the same items a second time changes nothing. *)
Lemma set_all_idem (items : list (string * Value)) (a : gmap string Value) :
  set_all items (set_all items a) = set_all items a.
Proof.
  apply map_eq. intros k.
  destruct (decide (k ∈ items.*1)) as [Hin|Hnin].
  - apply set_all_lookup_in. exact Hin.
  - apply set_all_lookup_notin. exact Hnin.
Qed.

(** When the handle accepts every item, [apply_settings] leaves under the
    id the handle with all the items set, and touches nothing else. *)
Lemma apply_settings_device (id : string) (items : list (string * Value)) :
  forall (d : Device) (s : Sys),
    pool_devices s !! id = Some d ->
    Forall (fun item => setattr_raises d item.1 item.2 = None) items ->
    exists s',
      apply_settings id d items s = (Ok tt, s') /\
      pool_devices s' !! id =
        Some (set_attrs (fun _ => set_all items (attrs d)) d) /\
      (forall other, other <> id ->
         pool_devices s' !! other = pool_devices s !! other) /\
      profiles s' = profiles s.
Proof.
  induction items as [|[k v] items IH]; intros d s Hd Hok.
  - exists s. split_and!; try reflexivity.
    rewrite Hd. destruct d. reflexivity.
  - apply Forall_cons in Hok as [Hkv Hok]. cbn [fst snd] in Hkv.
    cbn [apply_settings]. unfold bind at 1. unfold setattr, bind, call_backend.
    rewrite Hkv. unfold modify, ret.
    set (d1 := set_attrs <[k:=v]> d).
    set (s1 := set_pool_devices _ _).
    destruct (IH d1 s1) as (s' & Hrun & Hdev & Hother & Hprof).
    { subst s1. cbn. apply lookup_insert_eq. }
    { exact Hok. }
    exists s'. split; [exact Hrun|]. split_and!.
    + rewrite Hdev. reflexivity.
    + intros other Hne. rewrite Hother by exact Hne.
      subst s1. cbn. apply lookup_insert_ne. congruence.
    + rewrite Hprof. reflexivity.
Qed.

(** A profile made for the model of a registered device whose handle accepts
    every setting is applied in full. *)
Lemma apply_profile_accepts (s : Sys) (id name : string) (p : DeviceProfile)
    (d : Device) (m : string) :
  profiles s !! name = Some p ->
  pool_devices s !! id = Some d ->
  attrs d !! "model" = Some (VStr m) ->
  m ∈ compatibility p ->
  Forall (fun item => setattr_raises d item.1 item.2 = None) (settings p) ->
  exists s',
    apply_profile id name s = (Ok true, s') /\
    pool_devices s' !! id =
      Some (set_attrs (fun _ => set_all (settings p) (attrs d)) d) /\
    (forall other, other <> id ->
       pool_devices s' !! other = pool_devices s !! other) /\
    profiles s' = profiles s.
Proof.
  intros Hp Hd Hmodel Hcompat Hok.
  assert (Hin : model_in (VStr m) (compatibility p) = true).
  { apply model_in_true. eauto. }
  assert (Hstart :
            apply_profile id name s =
            try_except
              (bind (apply_settings id d (settings p)) (fun _ => ret true))
              (fun _ => ret false) s).
  { unfold apply_profile, bind at 1, gets. rewrite Hp.
    unfold bind at 1, get_device, gets. rewrite Hd.
    unfold bind at 1, device_model. rewrite Hmodel. unfold ret at 1.
    rewrite Hin. reflexivity. }
  rewrite Hstart. unfold try_except, bind.
  destruct (apply_settings_device id (settings p) d s Hd Hok)
    as (s' & Hrun & Hrest).
  rewrite Hrun. exists s'. split; [reflexivity|exact Hrest].
Qed.

(** X26. [create_profile] stores the profile under its name, replacing a profile
    of that name and keeping the others, and returns it; applying it to a
    registered device of a compatible model whose handle accepts every setting
    then returns [True] and leaves the device with each setting at the profile's
    value (the last one when a setting is listed twice), its other attributes
    and the other devices as they were. *)
Theorem create_profile_then_apply (s : Sys) (name id m : string)
    (items : list (string * Value)) (compat : list string)
    (targets : gmap string Q) (d : Device) :
  pool_devices s !! id = Some d ->
  attrs d !! "model" = Some (VStr m) ->
  m ∈ compat ->
  Forall (fun item => setattr_raises d item.1 item.2 = None) items ->
  let profile :=
    {| profile_name := name; settings := items; compatibility := compat;
       performance_targets := targets |} in
  let s1 := snd (create_profile name items compat targets s) in
  fst (create_profile name items compat targets s) = Ok profile /\
  profiles s1 !! name = Some profile /\
  (forall other, other <> name ->
     profiles s1 !! other = profiles s !! other) /\
  exists s2 d2,
    apply_profile id name s1 = (Ok true, s2) /\
    pool_devices s2 !! id = Some d2 /\
    attrs d2 = set_all items (attrs d) /\
    (forall k, k ∉ items.*1 -> attrs d2 !! k = attrs d !! k) /\
    (forall other, other <> id ->
       pool_devices s2 !! other = pool_devices s !! other).
Proof.
  intros Hd Hmodel Hcompat Hok profile s1.
  assert (Hprof : profiles s1 !! name = Some profile).
  { subst s1. cbn. apply lookup_insert_eq. }
  split_and!.
  - reflexivity.
  - exact Hprof.
  - intros other Hne. subst s1. cbn. apply lookup_insert_ne. congruence.
  - destruct (apply_profile_accepts s1 id name profile d m Hprof Hd Hmodel
                Hcompat Hok) as (s2 & Hrun & Hdev & Hother & _).
    exists s2, (set_attrs (fun _ => set_all items (attrs d)) d).
    split_and!; [exact Hrun | exact Hdev | reflexivity | | exact Hother].
    intros k Hnin. cbn. apply set_all_lookup_notin. exact Hnin.
Qed.

Lemma create_profile_then_apply_witness :
  fixture_sys.(pool_devices) !! "device1" = Some fixture_device /\
  exists s2 d2,
    apply_profile "device1" "night"
      (snd (create_profile "night" [("brightness", VInt 5)] ["test_model"] ∅
              fixture_sys)) = (Ok true, s2) /\
    pool_devices s2 !! "device1" = Some d2 /\
    attrs d2 = set_all [("brightness", VInt 5)] (attrs fixture_device).
Proof.
  split; [reflexivity|].
  destruct (create_profile_then_apply fixture_sys "night" "device1"
              "test_model" [("brightness", VInt 5)] ["test_model"] ∅
              fixture_device)
    as (_ & _ & _ & s2 & d2 & Hrun & Hdev & Hattrs & _).
  - reflexivity.
  - reflexivity.
  - repeat constructor.
  - repeat constructor.
  - exists s2, d2. split_and!; assumption.
Defined.

(** X27. For a profile that exists, [apply_profile] raises [DeviceError] when
    the pool does not resolve the id and [AttributeError] when the handle has no
    [model] attribute; in both cases before any setting is tried, so the state
    is left as it was. *)
Theorem apply_profile_unusable_device (s : Sys) (id name : string)
    (p : DeviceProfile) :
  profiles s !! name = Some p ->
  (pool_devices s !! id = None ->
   apply_profile id name s =
     (Raise (Exn DeviceError ("Device " +:+ id +:+ " not found")), s)) /\
  (forall d,
     pool_devices s !! id = Some d -> attrs d !! "model" = None ->
     exists msg,
       apply_profile id name s = (Raise (Exn AttributeError msg), s)).
Proof.
  intros Hp. split.
  - intros Hnone. unfold apply_profile, bind, gets, get_device, gets.
    rewrite Hp, Hnone. reflexivity.
  - intros d Hd Hmodel. unfold apply_profile, bind, gets, get_device, gets.
    rewrite Hp, Hd. unfold device_model. rewrite Hmodel.
    eexists. reflexivity.
Qed.

Lemma apply_profile_unusable_device_witness :
  apply_profile "ghost" "test_profile" profile_sys =
    (Raise (Exn DeviceError "Device ghost not found"), profile_sys) /\
  exists msg,
    apply_profile "device1" "test_profile" anonymous_sys =
      (Raise (Exn AttributeError msg), anonymous_sys).
Proof.
  split.
  - eapply (apply_profile_unusable_device profile_sys "ghost" "test_profile");
      reflexivity.
  - eapply (apply_profile_unusable_device anonymous_sys "device1"
              "test_profile"); reflexivity.
Defined.

(** X28. Applying a profile a second time changes nothing: when the profile does
    not set [model] and the handle accepts every setting, both applications
    return [True] and the device after the second is the device after the
    first. *)
Theorem apply_profile_twice (s : Sys) (id name m : string)
    (p : DeviceProfile) (d : Device) :
  profiles s !! name = Some p ->
  pool_devices s !! id = Some d ->
  attrs d !! "model" = Some (VStr m) ->
  m ∈ compatibility p ->
  "model" ∉ (settings p).*1 ->
  Forall (fun item => setattr_raises d item.1 item.2 = None) (settings p) ->
  exists s1 s2,
    apply_profile id name s = (Ok true, s1) /\
    apply_profile id name s1 = (Ok true, s2) /\
    pool_devices s2 = pool_devices s1 /\
    profiles s2 = profiles s.
Proof.
  intros Hp Hd Hmodel Hcompat Hnin Hok.
  destruct (apply_profile_accepts s id name p d m Hp Hd Hmodel Hcompat Hok)
    as (s1 & Hrun1 & Hdev1 & Hother1 & Hprof1).
  set (d1 := set_attrs (fun _ => set_all (settings p) (attrs d)) d) in *.
  assert (Hmodel1 : attrs d1 !! "model" = Some (VStr m)).
  { subst d1. cbn. rewrite set_all_lookup_notin by exact Hnin. exact Hmodel. }
  assert (Hp1 : profiles s1 !! name = Some p) by (rewrite Hprof1; exact Hp).
  destruct (apply_profile_accepts s1 id name p d1 m Hp1 Hdev1 Hmodel1 Hcompat
              Hok) as (s2 & Hrun2 & Hdev2 & Hother2 & Hprof2).
  exists s1, s2. split_and!; [exact Hrun1 | exact Hrun2 | | congruence].
  apply map_eq. intros k. destruct (decide (k = id)) as [->|Hne].
  - rewrite Hdev2, Hdev1. f_equal. subst d1. unfold set_attrs. cbn.
    f_equal. apply set_all_idem.
  - apply Hother2. exact Hne.
Qed.

Lemma apply_profile_twice_witness :
  exists s1 s2,
    apply_profile "device1" "test_profile" profile_sys = (Ok true, s1) /\
    apply_profile "device1" "test_profile" s1 = (Ok true, s2) /\
    pool_devices s2 = pool_devices s1 /\
    profiles s2 = profiles profile_sys.
Proof.
  eapply (apply_profile_twice profile_sys "device1" "test_profile"
            "test_model" _ fixture_device).
  - reflexivity.
  - reflexivity.
  - reflexivity.
  - repeat constructor.
  - vm_compute. intros Hin.
    repeat (apply elem_of_cons in Hin as [Hin|Hin]; [discriminate|]).
    apply not_elem_of_nil in Hin. exact Hin.
  - repeat constructor.
Defined.

End AdvancedMore.
